(** * The taxi-demand dashboard (frontend/frontend_modified.py)

    A shallow embedding of the one script of the repository: the shapefile
    cache [load_shape_data_file], the borough filter, the ranked table, the
    choropleth built by [create_taxi_map], the three statistics and the
    chart loop.

    The script is glue around pandas, geopandas, requests, zipfile, branca,
    folium and Streamlit.  Data frames are lists of row records, in row
    order.  A float is an exact rational or NaN ([num]); the rounding of
    float arithmetic is not modelled.  The disk is a finite map from paths
    to nodes, the outside world (network, archive decoding, shapefile
    parsing, the two read APIs, the plot helper) is one record [External]
    of the answers it gives during a run.  The page is the list of the
    elements the script shows; spinners and the column layout of the
    statistics are not elements of it. *)

From Stdlib Require Import ZArith QArith Lqa List String Ascii Bool Lia.
From Stdlib Require Import Permutation Sorted DecimalString HexadecimalString.
From stdpp Require Import gmap strings list fin_maps.
Import ListNotations.

Local Open Scope string_scope.
Local Open Scope Z_scope.

(** ** Numbers and text *)

(** A float64 cell: NaN or a finite value. *)
Inductive num : Type :=
| NaN
| Fin (q : Q).

(** Python comparisons of floats: every comparison with NaN is False. *)
Definition num_le (a b : num) : bool :=
  match a, b with
  | Fin x, Fin y => Qle_bool x y
  | _, _ => false
  end.

Definition num_lt (a b : num) : bool :=
  match a, b with
  | Fin x, Fin y => negb (Qle_bool y x)
  | _, _ => false
  end.

Definition num_eq (a b : num) : bool :=
  match a, b with
  | Fin x, Fin y => Qeq_bool x y
  | _, _ => false
  end.

Definition num_add (a b : num) : num :=
  match a, b with
  | Fin x, Fin y => Fin (x + y)
  | _, _ => NaN
  end.

Definition num_sub (a b : num) : num :=
  match a, b with
  | Fin x, Fin y => Fin (x - y)
  | _, _ => NaN
  end.

Definition num_mul (a b : num) : num :=
  match a, b with
  | Fin x, Fin y => Fin (x * y)
  | _, _ => NaN
  end.

Definition is_nan (a : num) : bool :=
  match a with NaN => true | Fin _ => false end.

(** [str(n)] of a Python int. *)
Definition str_int (n : Z) : string :=
  DecimalString.NilZero.string_of_int (Z.to_int n).

(** Round a non-negative rational [a / d] to the nearest integer, ties to
    the even one, as [format(x, ".0f")] does on the exact value of [x]. *)
Definition round_half_even (a : Z) (d : positive) : Z :=
  let fl := a / Zpos d in
  let twice := 2 * (a mod Zpos d) in
  if twice <? Zpos d then fl
  else if Zpos d <? twice then fl + 1
  else if Z.even fl then fl else fl + 1.

(** [f"{x:.0f}"]: "nan" for NaN; the sign is printed from the value, so a
    small negative number gives "-0". *)
Definition format_0f (x : num) : string :=
  match x with
  | NaN => "nan"
  | Fin q =>
      let digits := str_int (round_half_even (Z.abs (Qnum q)) (Qden q)) in
      if Qnum q <? 0 then "-" ++ digits else digits
  end.

(** [str(l)] of a list of Python ints: "[1, 3]". *)
Fixpoint join_comma (l : list string) : string :=
  match l with
  | [] => ""
  | [s] => s
  | s :: t => s ++ ", " ++ join_comma t
  end.

Definition str_int_list (l : list Z) : string :=
  "[" ++ join_comma (map str_int l) ++ "]".

(** ** Exceptions *)

(** A Python exception: its class and its message. *)
Record exn : Type := Raise { exn_class : string; exn_msg : string }.

(** [str(e)]. *)
Definition str_exn (e : exn) : string := exn_msg e.

(** [Exception(msg)]. *)
Definition Exception (msg : string) : exn := Raise "Exception" msg.

(** ** Tables *)

(** A row of the prediction table: its index label and the two columns
    the script reads. *)
Record PredictionRow : Type := {
  row_label : Z;
  pickup_location_id : Z;
  predicted_demand : num
}.

(** A row of the feature table: zone, hour and the historical ride counts. *)
Record FeatureRow : Type := {
  f_pickup_location_id : Z;
  pickup_hour : Z;
  rides : list num
}.

(** A polygon geometry: rings of coordinate pairs. *)
Definition Geometry : Type := list (list (Q * Q)).

(** A row of the zone shapefile. *)
Record ZoneRow : Type := {
  LocationID : Z;
  zone : string;
  borough : string;
  geometry : Geometry
}.

(** A row of the merged frame: the zone's columns followed by the two
    columns of the right side; the key column of the right side is missing
    (NaN) on the rows without a match. *)
Record JoinedRow : Type := {
  j_zone : ZoneRow;
  j_pickup_location_id : option Z;
  j_predicted_demand : num
}.

(** [df[["pickup_location_id", "predicted_demand"]]]. *)
Definition select_key_demand (t : list PredictionRow) : list (Z * num) :=
  map (fun r => (pickup_location_id r, predicted_demand r)) t.

(** [left.merge(right, left_on="LocationID", right_on="pickup_location_id",
    how="left")]: the left rows in their order, each once per right row
    with the same key in the order of the right side, and once with missing
    values when no right row has the key. *)
Definition merge_one (right : list (Z * num)) (z : ZoneRow) : list JoinedRow :=
  match List.filter (fun kv => fst kv =? LocationID z) right with
  | [] => [ {| j_zone := z; j_pickup_location_id := None;
               j_predicted_demand := NaN |} ]
  | ms => map (fun kv => {| j_zone := z; j_pickup_location_id := Some (fst kv);
                            j_predicted_demand := snd kv |}) ms
  end.

Definition merge_left (left : list ZoneRow) (right : list (Z * num))
  : list JoinedRow :=
  flat_map (merge_one right) left.

(** [s.fillna(0)] on the demand column. *)
Definition fillna0 (x : num) : num :=
  match x with NaN => Fin 0 | Fin q => Fin q end.

Definition fillna_demand (t : list JoinedRow) : list JoinedRow :=
  map (fun j => {| j_zone := j_zone j;
                   j_pickup_location_id := j_pickup_location_id j;
                   j_predicted_demand := fillna0 (j_predicted_demand j) |}) t.

(** [s.isin(values)]. *)
Definition isin (values : list Z) (x : Z) : bool :=
  existsb (Z.eqb x) values.

(** [df.sort_values("predicted_demand", ascending=False)]: descending by
    demand, NaN last.  pandas leaves the order of rows of equal demand to
    the sort kind; here they keep the order of the table. *)
Definition sorts_before (a b : num) : bool :=
  match a, b with
  | Fin x, Fin y => negb (Qle_bool x y)
  | Fin _, NaN => true
  | NaN, _ => false
  end.

Fixpoint insert_desc (r : PredictionRow) (l : list PredictionRow)
  : list PredictionRow :=
  match l with
  | [] => [r]
  | h :: t =>
      if sorts_before (predicted_demand h) (predicted_demand r)
      then h :: insert_desc r t
      else r :: h :: t
  end.

Definition sort_values_desc (t : list PredictionRow) : list PredictionRow :=
  fold_right insert_desc [] t.

(** Row [a] may stand above row [b] in the ranked table: [b] has no
    larger demand than [a], and is not a number where [a] is NaN. *)
Definition ranks_above (a b : PredictionRow) : Prop :=
  sorts_before (predicted_demand b) (predicted_demand a) = false.

(** [df.head(10)]. *)
Definition head10 {A : Type} (t : list A) : list A := firstn 10 t.

(** The finite cells of a column ([skipna=True]). *)
Fixpoint dropna (s : list num) : list Q :=
  match s with
  | [] => []
  | NaN :: t => dropna t
  | Fin q :: t => q :: dropna t
  end.

(** [s.mean()], [s.max()], [s.min()]: NaN on a column with no finite
    cell.  The maximum and the minimum are cells of the column; the mean is
    the exact one, without the rounding of the float64 sum. *)
Definition series_mean (s : list num) : num :=
  match dropna s with
  | [] => NaN
  | q :: t => Fin (fold_left Qplus t q / inject_Z (Z.of_nat (length (q :: t))))
  end.

Definition Qmax (a b : Q) : Q := if Qle_bool a b then b else a.
Definition Qmin (a b : Q) : Q := if Qle_bool a b then a else b.

Definition series_max (s : list num) : num :=
  match dropna s with
  | [] => NaN
  | q :: t => Fin (fold_left Qmax t q)
  end.

Definition series_min (s : list num) : num :=
  match dropna s with
  | [] => NaN
  | q :: t => Fin (fold_left Qmin t q)
  end.

(** ** The colour scale (branca's LinearColormap) *)

Definition num_div (a b : num) : option num :=
  match a, b with
  | Fin x, Fin y => if Qeq_bool y 0 then None else Some (Fin (x / y))
  | _, _ => Some NaN
  end.

(** A colour as branca keeps it: red, green, blue, alpha in [0, 1]. *)
Definition rgba : Type := (Q * Q * Q * Q)%type.

Definition hex_digit (c : ascii) : Z :=
  let n := Z.of_nat (nat_of_ascii c) in
  if (48 <=? n) && (n <=? 57) then n - 48
  else if (65 <=? n) && (n <=? 70) then n - 55
  else if (97 <=? n) && (n <=? 102) then n - 87
  else 0.

Definition hex_pair (s : string) (i : nat) : Z :=
  match String.get i s, String.get (S i) s with
  | Some a, Some b => 16 * hex_digit a + hex_digit b
  | _, _ => 0
  end.

(** [_parse_hex("#RRGGBB")]: each byte divided by 255.0, alpha 1.0. *)
Definition parse_hex (s : string) : rgba :=
  (inject_Z (hex_pair s 1) / 255, inject_Z (hex_pair s 3) / 255,
   inject_Z (hex_pair s 5) / 255, 1)%Q.

Record LinearColormap : Type := {
  cm_vmin : num;
  cm_vmax : num;
  cm_index : list num;
  cm_colors : list rgba
}.

Definition ValueError (msg : string) : exn := Raise "ValueError" msg.
Definition IndexError (msg : string) : exn := Raise "IndexError" msg.
Definition ZeroDivisionError (msg : string) : exn :=
  Raise "ZeroDivisionError" msg.

(** [l[i]] of Python: a negative position counts from the end. *)
Definition py_get {A : Type} (l : list A) (i : Z) : exn + A :=
  let j := if i <? 0 then i + Z.of_nat (length l) else i in
  if j <? 0 then inl (IndexError "list index out of range")
  else match nth_error l (Z.to_nat j) with
       | Some x => inr x
       | None => inl (IndexError "list index out of range")
       end.

(** [LinearColormap(colors, vmin=vmin, vmax=vmax)]: the thresholds are
    [vmin + (vmax - vmin) * i * 1.0 / (n - 1)] for [i] in [range(n)], here
    in exact arithmetic: the rounding and the overflow of float64 are not
    modelled, so the scale is that of the code where the arithmetic of the
    code is exact (a scale with [vmin = vmax]). *)
Definition threshold (vmin vmax : num) (n : nat) (i : nat) : num :=
  match num_div (num_mul (num_mul (num_sub vmax vmin)
                                  (Fin (inject_Z (Z.of_nat i)))) (Fin 1))
                (Fin (inject_Z (Z.of_nat n - 1))) with
  | Some d => num_add vmin d
  | None => NaN
  end.

Definition LinearColormap_init (colors : list string) (vmin vmax : num)
  : exn + LinearColormap :=
  let n := length colors in
  if (n <? 2)%nat then inl (ValueError "You must provide at least 2 colors.")
  else inr {| cm_vmin := vmin; cm_vmax := vmax;
              cm_index := map (threshold vmin vmax n) (seq 0 n);
              cm_colors := map parse_hex colors |}.

(** One channel of the interpolation [(1.0 - p) * c0 + p * c1]. *)
Definition mix (p : num) (c0 c1 : Q) : num :=
  num_add (num_mul (num_sub (Fin 1) p) (Fin c0)) (num_mul p (Fin c1)).

Definition rgba_num : Type := (num * num * num * num)%type.

Definition rgba_fin (c : rgba) : rgba_num :=
  let '(r, g, b, a) := c in (Fin r, Fin g, Fin b, Fin a).

(** [rgba_floats_tuple(x)]. *)
Definition rgba_floats_tuple (cm : LinearColormap) (x : num)
  : exn + rgba_num :=
  match py_get (cm_index cm) 0 with
  | inl e => inl e
  | inr first =>
  if num_le x first then
    match py_get (cm_colors cm) 0 with
    | inl e => inl e
    | inr c => inr (rgba_fin c)
    end
  else
  match py_get (cm_index cm) (-1) with
  | inl e => inl e
  | inr last =>
  if num_le last x then
    match py_get (cm_colors cm) (-1) with
    | inl e => inl e
    | inr c => inr (rgba_fin c)
    end
  else
  let i := Z.of_nat (length (List.filter (fun u => num_lt u x) (cm_index cm))) in
  match py_get (cm_index cm) (i - 1), py_get (cm_index cm) i with
  | inl e, _ => inl e
  | _, inl e => inl e
  | inr lo, inr hi =>
      let weight :=
        if num_lt lo hi then
          match num_div (num_mul (num_sub x lo) (Fin 1)) (num_sub hi lo) with
          | Some p => inr p
          | None => inl (ZeroDivisionError "float division by zero")
          end
        else if num_eq lo hi then inr (Fin 1)
        else inl (ValueError "Thresholds are not sorted.") in
      match weight with
      | inl e => inl e
      | inr p =>
          match py_get (cm_colors cm) (i - 1), py_get (cm_colors cm) i with
          | inl e, _ => inl e
          | _, inl e => inl e
          | inr (r0, g0, b0, a0), inr (r1, g1, b1, a1) =>
              inr (mix p r0 r1, mix p g0 g1, mix p b0 b1, mix p a0 a1)
          end
      end
  end
  end
  end.

(** [int(u * 255.9999)]: truncation; NaN cannot be converted. *)
Definition channel_byte (u : num) : exn + Z :=
  match u with
  | NaN => inl (ValueError "cannot convert float NaN to integer")
  | Fin q => let v := (q * (2559999 # 10000))%Q in
             inr (Z.quot (Qnum v) (Zpos (Qden v)))
  end.

(** ["%02x" % v]. *)
Definition hex_digit_of (d : Z) : string :=
  String.substring (Z.to_nat d) 1 "0123456789abcdef".

Definition hex_02x (v : Z) : string :=
  let a := Z.abs v in
  let body :=
    if a <? 16 then "0" ++ hex_digit_of a
    else HexadecimalString.NilZero.string_of_uint (N.to_hex_uint (Z.to_N a)) in
  if v <? 0 then "-" ++ body else body.

(** [colormap(x)], that is [rgba_hex_str(x)]. *)
Definition colormap_call (cm : LinearColormap) (x : num) : exn + string :=
  match rgba_floats_tuple cm x with
  | inl e => inl e
  | inr (r, g, b, a) =>
      match channel_byte r, channel_byte g, channel_byte b, channel_byte a with
      | inr r', inr g', inr b', inr a' =>
          inr ("#" ++ hex_02x r' ++ hex_02x g' ++ hex_02x b' ++ hex_02x a')
      | inl e, _, _, _ => inl e
      | _, inl e, _, _ => inl e
      | _, _, inl e, _ => inl e
      | _, _, _, inl e => inl e
      end
  end.

(** The sample of rank [k] of the 500 that the legend is drawn from:
    [vmin + (vmax - vmin) * k / 499.0]. *)
Definition color_domain_point (vmin vmax : num) (k : nat) : num :=
  match num_div (num_mul (num_sub vmax vmin) (Fin (inject_Z (Z.of_nat k))))
                (Fin 499) with
  | Some d => num_add vmin d
  | None => NaN
  end.

Definition color_domain (cm : LinearColormap) : list num :=
  map (color_domain_point (cm_vmin cm) (cm_vmax cm)) (seq 0 500).

(** [[colormap(x) for x in xs]]: the first error ends it. *)
Fixpoint colormap_calls (cm : LinearColormap) (xs : list num)
  : exn + list string :=
  match xs with
  | [] => inr []
  | x :: rest =>
      match colormap_call cm x with
      | inl e => inl e
      | inr c =>
          match colormap_calls cm rest with
          | inl e => inl e
          | inr cs => inr (c :: cs)
          end
      end
  end.

(** [ColorMap.render]: the colours of the legend, [color_range], are the
    scale at the samples of [color_domain]. *)
Definition ColorMap_render (cm : LinearColormap) : exn + list string :=
  colormap_calls cm (color_domain cm).

(** The seven hues of the scale, pale yellow to dark red. *)
Definition palette : list string :=
  ["#FFEDA0"; "#FED976"; "#FEB24C"; "#FD8D3C"; "#FC4E2A"; "#E31A1C"; "#BD0026"].


(** ** The disk, the network and the page *)

(** A path is the list of its components; [p / name] appends one. *)
Abbreviation path := (list string).

Inductive node : Type :=
| File (content : list Byte.byte)
| Dir.

(** What a call does to the world outside the process. *)
Inductive io_event : Type :=
| HttpGet (url : string) (timeout : Z)
| Mkdir (p : path)
| WriteFile (p : path) (content : list Byte.byte).

(** The response object of requests. *)
Record Response : Type := {
  status_code : Z;
  reason : string;
  content : list Byte.byte
}.

Definition HTTPError (msg : string) : exn := Raise "HTTPError" msg.

(** [response.raise_for_status()] for a response fetched from [url]: an
    HTTPError for the 4xx and 5xx status codes, nothing for the others. *)
Definition raise_for_status (url : string) (r : Response) : option exn :=
  if (400 <=? status_code r) && (status_code r <? 500) then
    Some (HTTPError (str_int (status_code r) ++ " Client Error: " ++ reason r
                     ++ " for url: " ++ url))
  else if (500 <=? status_code r) && (status_code r <? 600) then
    Some (HTTPError (str_int (status_code r) ++ " Server Error: " ++ reason r
                     ++ " for url: " ++ url))
  else None.

(** The figure returned by the plot helper. *)
Record Figure : Type := {
  fig_features : list FeatureRow;
  fig_prediction : list PredictionRow;
  fig_body : string
}.

(** The style of one zone of the choropleth. *)
Record Style : Type := {
  fillColor : string;
  color : string;
  weight : Z;
  fillOpacity : Q
}.

(** The folium map: the base map, the legend and the GeoJson layer with
    the style of each of its features. *)
Record Map : Type := {
  location : Q * Q;
  zoom_start : Z;
  tiles : string;
  legend : LinearColormap;
  layer : list (JoinedRow * Style);
  tooltip_fields : list string;
  tooltip_aliases : list string
}.

(** What the script puts on the page, in order. *)
Inductive element : Type :=
| st_title (s : string)
| st_header (s : string)
| st_subheader (s : string)
| sidebar_progress (fraction : Q)
| sidebar_write (s : string)
| st_selectbox (label : string) (options : list string)
| st_write (s : string)
| st_dataframe (rows : list PredictionRow)
| st_folium (m : Map) (width height : Z)
| st_metric (label value : string)
| st_plotly_chart (fig : Figure)
| st_exception (e : exn).

(** [st.session_state]: a key is absent until it is assigned. *)
Record Session : Type := {
  map_created : option bool;
  map_obj : option Map
}.

(** What reading the data of an archive member gives: its bytes; or an
    exception of [ZipFile.open] (a bad local header, an unsupported
    compression, a missing password), raised before the target is touched;
    or an exception of the copy (a bad CRC-32, a damaged compressed
    stream), raised after [written] has reached the target. *)
Inductive member_data : Type :=
| Stored (body : list Byte.byte)
| OpenFails (e : exn)
| CopyFails (written : list Byte.byte) (e : exn).

(** An entry of the central directory of an archive. *)
Record ZipInfo : Type := {
  filename : string;
  member : member_data
}.

(** The collaborators of one run of the script: the configured data
    directory, the answer of the network to a GET (a response, or the
    exception that [requests.get] raises), the central directory that
    zipfile reads from the bytes of an archive (or the exception it raises
    on opening them, BadZipFile with one of its messages for instance), the
    shapefile reader, the reprojection, the two read APIs of
    [src.inference], the plot helper of [src.plot_utils] (its code is not
    in the repository: it returns a figure or raises), the clock and the
    option the user has selected. *)
Record External : Type := {
  DATA_DIR : path;
  requests_get : string -> Z -> exn + Response;
  zip_infolist : list Byte.byte -> exn + list ZipInfo;
  gpd_read_file : gmap path node -> path -> exn + list ZoneRow;
  to_crs : Geometry -> Geometry;
  load_batch_of_features_from_store : Z -> exn + list FeatureRow;
  fetch_next_hour_predictions : exn + list PredictionRow;
  plot_prediction : list FeatureRow -> list PredictionRow -> exn + Figure;
  current_time_utc : Z;
  strftime_ny : Z -> string;
  selectbox_value : list string -> string
}.

(** The state a run threads: the disk, the log of what was done to the
    outside world, the session and the page. *)
Record state : Type := {
  disk : gmap path node;
  io_log : list io_event;
  session : Session;
  page : list element
}.

(** A step of the script: it changes the state and returns a value or
    raises. *)
Definition M (A : Type) : Type := state -> state * (exn + A).

Definition ret {A : Type} (x : A) : M A := fun s => (s, inr x).

Definition raise {A : Type} (e : exn) : M A := fun s => (s, inl e).

Definition bind {A B : Type} (c : M A) (k : A -> M B) : M B :=
  fun s => match c s with
           | (s', inr x) => k x s'
           | (s', inl e) => (s', inl e)
           end.

Notation "'let*' x ':=' c 'in' k" := (bind c (fun x => k))
  (at level 10, x pattern, c at level 100, k at level 200).

Notation "c ';;' k" := (bind c (fun _ => k))
  (at level 100, k at level 200, right associativity).

(** [try: c except BadClass as e: raise handler(e)] for the exceptions
    that satisfy [catches]. *)
Definition try_except {A : Type} (c : M A) (catches : exn -> bool)
  (handler : exn -> exn) : M A :=
  fun s => match c s with
           | (s', inl e) => if catches e then (s', inl (handler e))
                            else (s', inl e)
           | r => r
           end.

Definition lift {A : Type} (r : exn + A) : M A :=
  match r with inl e => raise e | inr x => ret x end.

Definition get_disk : M (gmap path node) := fun s => (s, inr (disk s)).

Definition do_io (e : io_event) (d : gmap path node) : M unit :=
  fun s => ({| disk := d; io_log := io_log s ++ [e];
               session := session s; page := page s |}, inr tt).

Definition log_io (e : io_event) : M unit :=
  fun s => ({| disk := disk s; io_log := io_log s ++ [e];
               session := session s; page := page s |}, inr tt).

Definition show (x : element) : M unit :=
  fun s => ({| disk := disk s; io_log := io_log s;
               session := session s; page := page s ++ [x] |}, inr tt).

Definition with_session (s : state) (v : Session) : state :=
  {| disk := disk s; io_log := io_log s; session := v; page := page s |}.

Definition with_page (s : state) (p : list element) : state :=
  {| disk := disk s; io_log := io_log s; session := session s; page := p |}.

Definition with_log (s : state) (events : list io_event) : state :=
  {| disk := disk s; io_log := io_log s ++ events;
     session := session s; page := page s |}.

Definition get_session : M Session := fun s => (s, inr (session s)).

Definition set_session (v : Session) : M unit :=
  fun s => ({| disk := disk s; io_log := io_log s;
               session := v; page := page s |}, inr tt).

(** The root is a directory; every other path is what the disk says. *)
Definition lookup_node (d : gmap path node) (p : path) : option node :=
  match p with
  | [] => Some Dir
  | _ => d !! p
  end.

(** [p.exists()]. *)
Definition path_exists (p : path) : M bool :=
  let* d := get_disk in ret (bool_decide (is_Some (lookup_node d p))).

Definition FileExistsError (msg : string) : exn := Raise "FileExistsError" msg.
Definition NotADirectoryError (msg : string) : exn :=
  Raise "NotADirectoryError" msg.
Definition FileNotFoundError (msg : string) : exn :=
  Raise "FileNotFoundError" msg.
Definition IsADirectoryError (msg : string) : exn :=
  Raise "IsADirectoryError" msg.
Definition BadZipFile (msg : string) : exn := Raise "BadZipFile" msg.

(** [p.mkdir(parents=True, exist_ok=True)], on the reversed path (last
    component first): an existing directory is left alone, a file in the
    way raises, a missing parent is created first. *)
Fixpoint mkdir_rev (rp : list string) : M unit :=
  let* d := get_disk in
  match lookup_node d (rev rp) with
  | Some Dir => ret tt
  | Some (File _) => raise (FileExistsError "File exists")
  | None =>
      match rp with
      | [] => ret tt
      | _ :: parent =>
          match lookup_node d (rev parent) with
          | Some (File _) => raise (NotADirectoryError "Not a directory")
          | Some Dir => do_io (Mkdir (rev rp)) (<[rev rp := Dir]> d)
          | None =>
              mkdir_rev parent;;
              let* d' := get_disk in
              do_io (Mkdir (rev rp)) (<[rev rp := Dir]> d')
          end
      end
  end.

Definition mkdir_parents_exist_ok (p : path) : M unit := mkdir_rev (rev p).

(** [open(p, "wb").write(content)]. *)
Definition write_bytes (p : path) (content : list Byte.byte) : M unit :=
  let* d := get_disk in
  match lookup_node d p with
  | Some Dir => raise (IsADirectoryError "Is a directory")
  | _ => do_io (WriteFile p content) (<[p := File content]> d)
  end.

(** ** The archive (zipfile and os, on a POSIX system) *)

(** [try: c except Class: pass]. *)
Definition try_pass (c : M unit) (catches : exn -> bool) : M unit :=
  fun s => match c s with
           | (s', inl e) => if catches e then (s', inr tt) else (s', inl e)
           | r => r
           end.

Definition is_FileExistsError (e : exn) : bool :=
  String.eqb (exn_class e) "FileExistsError".

(** [os.path.isdir(p)]. *)
Definition os_path_isdir (p : path) : M bool :=
  let* d := get_disk in
  ret (match lookup_node d p with Some Dir => true | _ => false end).

(** [os.mkdir(p)]: the path must be free and its parent a directory. *)
Definition os_mkdir (p : path) : M unit :=
  let* d := get_disk in
  match lookup_node d p with
  | Some _ => raise (FileExistsError "File exists")
  | None =>
      match lookup_node d (removelast p) with
      | Some Dir => do_io (Mkdir p) (<[p := Dir]> d)
      | Some (File _) => raise (NotADirectoryError "Not a directory")
      | None => raise (FileNotFoundError "No such file or directory")
      end
  end.

(** [os.makedirs(p)] ([exist_ok=False]), on the reversed path: the head
    is made first when it does not exist, a FileExistsError of that call is
    passed over, then the leaf is made. *)
Fixpoint os_makedirs_rev (rp : list string) : M unit :=
  match rp with
  | [] => os_mkdir []
  | _ :: head =>
      let* have_head := path_exists (rev head) in
      (if have_head then ret tt
       else try_pass (os_makedirs_rev head) is_FileExistsError);;
      os_mkdir (rev rp)
  end.

Definition os_makedirs (p : path) : M unit := os_makedirs_rev (rev p).

(** [open(p, "wb")] and the write of [content]: the directory of [p] has
    to be one, and [p] must not be a directory. *)
Definition open_wb (p : path) (content : list Byte.byte) : M unit :=
  let* d := get_disk in
  match lookup_node d (removelast p) with
  | Some Dir => write_bytes p content
  | Some (File _) => raise (NotADirectoryError "Not a directory")
  | None => raise (FileNotFoundError "No such file or directory")
  end.

(** [s.split("/")]. *)
Fixpoint split_slash (s : string) : list string :=
  match s with
  | EmptyString => [EmptyString]
  | String c rest =>
      if Ascii.eqb c "/" then EmptyString :: split_slash rest
      else match split_slash rest with
           | [] => [String c EmptyString]
           | h :: t => String c h :: t
           end
  end.

(** The components that [_extract_member] drops from a member name: the
    empty one (a leading, doubled or trailing slash), [.] and [..]. *)
Definition invalid_path_parts : list string := [""; "."; ".."].

(** The path of a member under the target: the components of its name
    that are left. *)
Definition arcname_parts (name : string) : path :=
  List.filter (fun x => negb (existsb (String.eqb x) invalid_path_parts))
              (split_slash name).

Fixpoint last_char (s : string) : option ascii :=
  match s with
  | EmptyString => None
  | String c rest =>
      match rest with
      | EmptyString => Some c
      | String _ _ => last_char rest
      end
  end.

(** [zinfo.is_dir()], that is [zinfo.filename[-1] == "/"]. *)
Definition ZipInfo_is_dir (zinfo : ZipInfo) : exn + bool :=
  match last_char (filename zinfo) with
  | None => inl (IndexError "string index out of range")
  | Some c => inr (Ascii.eqb c "/")
  end.

Definition KeyError (msg : string) : exn := Raise "KeyError" msg.

(** [zip_ref.getinfo(name)]: of two entries with one name the archive
    object keeps the later. *)
Definition getinfo (infolist : list ZipInfo) (name : string) : option ZipInfo :=
  List.find (fun zinfo => String.eqb (filename zinfo) name) (rev infolist).

(** [zip_ref._extract_member(name, targetpath, None)]: the directories
    above the target are made when the path above it does not exist; a
    directory entry is made when it is not there; the data of a file entry
    are opened, then the target, then the data are copied. *)
Definition extract_member (infolist : list ZipInfo) (targetpath : path)
  (name : string) : M unit :=
  match getinfo infolist name with
  | None => raise (KeyError ("There is no item named '" ++ name
                             ++ "' in the archive"))
  | Some zinfo =>
      let targetpath := (targetpath ++ arcname_parts (filename zinfo))%list in
      let upperdirs := removelast targetpath in
      let* have_upperdirs := path_exists upperdirs in
      (if have_upperdirs then ret tt else os_makedirs upperdirs);;
      match ZipInfo_is_dir zinfo with
      | inl e => raise e
      | inr true =>
          let* there := os_path_isdir targetpath in
          if there then ret tt else os_mkdir targetpath
      | inr false =>
          match member zinfo with
          | OpenFails e => raise e
          | Stored body => open_wb targetpath body
          | CopyFails written e => open_wb targetpath written;; raise e
          end
      end
  end.

Fixpoint extract_names (infolist : list ZipInfo) (target : path)
  (names : list string) : M unit :=
  match names with
  | [] => ret tt
  | name :: rest =>
      extract_member infolist target name;;
      extract_names infolist target rest
  end.

(** [zip_ref.extractall(target)]: the names of [namelist()] in turn. *)
Definition extractall (target : path) (infolist : list ZipInfo) : M unit :=
  extract_names infolist target (map filename infolist).

(** [zipfile.ZipFile(p, "r")]: the file is opened and its central
    directory read. *)
Definition ZipFile_open (E : External) (p : path) : M (list ZipInfo) :=
  let* d := get_disk in
  match lookup_node d p with
  | None => raise (FileNotFoundError "No such file or directory")
  | Some Dir => raise (IsADirectoryError "Is a directory")
  | Some (File bytes) => lift (zip_infolist E bytes)
  end.

Definition is_BadZipFile (e : exn) : bool :=
  String.eqb (exn_class e) "BadZipFile".

(** The classes of [requests.exceptions], all of them subclasses of
    RequestException. *)
Definition request_exceptions : list string :=
  ["RequestException"; "InvalidJSONError"; "JSONDecodeError"; "HTTPError";
   "ConnectionError"; "ProxyError"; "SSLError"; "Timeout"; "ConnectTimeout";
   "ReadTimeout"; "URLRequired"; "TooManyRedirects"; "MissingSchema";
   "InvalidSchema"; "InvalidURL"; "InvalidHeader"; "InvalidProxyURL";
   "ChunkedEncodingError"; "ContentDecodingError"; "StreamConsumedError";
   "RetryError"; "UnrewindableBodyError"].

Definition is_RequestException (e : exn) : bool :=
  existsb (String.eqb (exn_class e)) request_exceptions.

Definition default_url : string :=
  "https://d37ci6vzurychx.cloudfront.net/misc/taxi_zones.zip".

(** [gdf.to_crs("epsg:4326")]. *)
Definition reproject (E : External) (z : ZoneRow) : ZoneRow :=
  {| LocationID := LocationID z; zone := zone z; borough := borough z;
     geometry := to_crs E (geometry z) |}.

(** The two paths of the cache under [data_dir]. *)
Definition zip_path_of (data_dir : path) : path :=
  (data_dir ++ ["taxi_zones.zip"])%list.

Definition shapefile_path_of (data_dir : path) : path :=
  ((data_dir ++ ["taxi_zones"]) ++ ["taxi_zones.shp"])%list.

(** [load_shape_data_file(data_dir, url)] (lines 40-64). *)
Definition load_shape_data_file (E : External) (data_dir : path)
  (url : string) : M (list ZoneRow) :=
  mkdir_parents_exist_ok data_dir;;
  let zip_path := zip_path_of data_dir in
  let extract_path := (data_dir ++ ["taxi_zones"])%list in
  let shapefile_path := shapefile_path_of data_dir in
  let* have_zip := path_exists zip_path in
  (if have_zip then ret tt
   else
     try_except
       (log_io (HttpGet url 10);;
        let* response := lift (requests_get E url 10) in
        match raise_for_status url response with
        | Some e => raise e
        | None => write_bytes zip_path (content response)
        end)
       is_RequestException
       (fun e => Exception ("Failed to download file: " ++ str_exn e)));;
  let* have_shp := path_exists shapefile_path in
  (if have_shp then ret tt
   else
     try_except
       (let* members := ZipFile_open E zip_path in
        extractall extract_path members)
       is_BadZipFile
       (fun e => Exception ("Failed to extract zip file: " ++ str_exn e)));;
  let* d := get_disk in
  let* gdf := lift (gpd_read_file E d shapefile_path) in
  ret (map (reproject E) gdf).

(** ** The map (lines 111-143) *)

Definition reproject_joined (E : External) (j : JoinedRow) : JoinedRow :=
  {| j_zone := reproject E (j_zone j);
     j_pickup_location_id := j_pickup_location_id j;
     j_predicted_demand := j_predicted_demand j |}.

(** The merge, the fill and the reprojection of lines 114-121. *)
Definition join_zones (E : External) (nyc_zones : list ZoneRow)
  (prediction_data : list PredictionRow) : list JoinedRow :=
  map (reproject_joined E)
      (fillna_demand (merge_left nyc_zones (select_key_demand prediction_data))).

(** [style_function(feature)]: the property is present on every feature
    and holds a number after the fill. *)
Definition style_function (cm : LinearColormap) (feature : JoinedRow)
  : exn + Style :=
  match colormap_call cm (j_predicted_demand feature) with
  | inl e => inl e
  | inr c => inr {| fillColor := c; color := "black"; weight := 1;
                    fillOpacity := 7 # 10 |}
  end.

(** The GeoJson layer: the style function applied to each feature in
    turn; the first error ends it.  (folium calls the style function on
    the first feature when the layer is built and on all of them when the
    map is rendered; here the styles are computed when the layer is
    built.) *)
Fixpoint style_features (cm : LinearColormap) (features : list JoinedRow)
  : exn + list (JoinedRow * Style) :=
  match features with
  | [] => inr []
  | f :: rest =>
      match style_function cm f with
      | inl e => inl e
      | inr st =>
          match style_features cm rest with
          | inl e => inl e
          | inr tl => inr ((f, st) :: tl)
          end
      end
  end.

(** The map of lines 123-139: the base map, the legend and the layer. *)
Definition folium_Map (colormap : LinearColormap)
  (styled : list (JoinedRow * Style)) : Map :=
  {| location := (407128 # 10000, - (74006 # 1000))%Q;
     zoom_start := 10;
     tiles := "cartodbpositron";
     legend := colormap;
     layer := styled;
     tooltip_fields := ["zone"; "predicted_demand"];
     tooltip_aliases := ["Zone:"; "Predicted Demand:"] |}.

Definition create_taxi_map (E : External) (shapefile_path : path)
  (prediction_data : list PredictionRow) : M Map :=
  let* d := get_disk in
  let* nyc_zones := lift (gpd_read_file E d shapefile_path) in
  let nyc_zones := join_zones E nyc_zones prediction_data in
  let demand := map j_predicted_demand nyc_zones in
  let* colormap :=
    lift (LinearColormap_init palette (series_min demand) (series_max demand)) in
  let* styled := lift (style_features colormap nyc_zones) in
  let m := folium_Map colormap styled in
  set_session {| map_created := Some true; map_obj := Some m |};;
  ret m.

(** ** The script *)

(** The LocationID to borough table (lines 31-36), in the order of the
    dictionary. *)
Definition location_mapping : list (Z * string) :=
  [(1, "EWR"); (2, "Queens"); (3, "Bronx"); (4, "Manhattan");
   (5, "Staten Island"); (6, "Staten Island"); (7, "Queens"); (8, "Queens");
   (9, "Queens"); (10, "Queens"); (11, "Brooklyn"); (12, "Manhattan");
   (13, "Manhattan"); (14, "Brooklyn"); (15, "Queens"); (132, "Queens")].

(** [location_mapping.get(k)]. *)
Definition location_mapping_get (k : Z) : option string :=
  option_map snd (List.find (fun kv => fst kv =? k) location_mapping).

(** [s.unique()]: the distinct values in the order of first appearance. *)
Fixpoint unique (seen : list string) (l : list string) : list string :=
  match l with
  | [] => []
  | x :: t => if existsb (String.eqb x) seen then unique seen t
              else x :: unique (x :: seen) t
  end.

Definition borough_options : list string :=
  unique [] (map snd location_mapping).

(** [location_df[location_df["Borough"] == b]["LocationID"].tolist()]. *)
Definition location_ids_of (b : string) : list Z :=
  map fst (List.filter (fun kv => String.eqb (snd kv) b) location_mapping).

(** [predictions[predictions["pickup_location_id"].isin(location_ids)]]. *)
Definition filter_predictions (location_ids : list Z)
  (predictions : list PredictionRow) : list PredictionRow :=
  List.filter (fun r => isin location_ids (pickup_location_id r)) predictions.

(** The frame of line 106. *)
Definition ranked_table (filtered_predictions : list PredictionRow)
  : list PredictionRow :=
  head10 (sort_values_desc filtered_predictions).

(** The list of line 164. *)
Definition top10 (filtered_predictions : list PredictionRow) : list Z :=
  map pickup_location_id (head10 (sort_values_desc filtered_predictions)).

(** The three values of lines 157-161, as they are printed. *)
Definition average_rides (filtered_predictions : list PredictionRow) : string :=
  format_0f (series_mean (map predicted_demand filtered_predictions)).

Definition maximum_rides (filtered_predictions : list PredictionRow) : string :=
  format_0f (series_max (map predicted_demand filtered_predictions)).

Definition minimum_rides (filtered_predictions : list PredictionRow) : string :=
  format_0f (series_min (map predicted_demand filtered_predictions)).

Definition N_STEPS : Z := 4.

Definition step_fraction (k : Z) : Q := (inject_Z k / inject_Z N_STEPS)%Q.

Definition AttributeError (msg : string) : exn := Raise "AttributeError" msg.

(** Lines 27-28. *)
Definition init_session : M unit :=
  let* ss := get_session in
  match map_created ss with
  | None => set_session {| map_created := Some false; map_obj := map_obj ss |}
  | Some _ => ret tt
  end.

(** [st_folium(m, width, height, returned_objects=[])]: the map is
    rendered, the legend first, and shown. *)
Definition st_folium_call (m : Map) (width height : Z) : M unit :=
  match ColorMap_render (legend m) with
  | inl e => raise e
  | inr _ => show (st_folium m width height)
  end.

(** Lines 147-148. *)
Definition show_map : M unit :=
  let* ss := get_session in
  match map_created ss with
  | Some true =>
      match map_obj ss with
      | Some m => st_folium_call m 800 600
      | None => raise (AttributeError "st.session_state has no attribute map_obj")
      end
  | _ => ret tt
  end.

(** The chart of one zone (lines 166-169): the figure that
    [plot_prediction] returns, or its exception. *)
Definition chart_of (E : External) (features : list FeatureRow)
  (filtered_predictions : list PredictionRow) (location_id : Z)
  : exn + Figure :=
  plot_prediction E
    (List.filter (fun f => f_pickup_location_id f =? location_id) features)
    (List.filter (fun r => pickup_location_id r =? location_id)
                 filtered_predictions).

(** Lines 165-170. *)
Fixpoint plot_top10 (E : External) (features : list FeatureRow)
  (filtered_predictions : list PredictionRow) (ids : list Z) : M unit :=
  match ids with
  | [] => ret tt
  | location_id :: rest =>
      let* fig := lift (chart_of E features filtered_predictions location_id) in
      show (st_plotly_chart fig);;
      plot_top10 E features filtered_predictions rest
  end.

(** Lines 76-89: the three fetches. *)
Definition fetch_stage (E : External)
  : M (list FeatureRow * list PredictionRow) :=
  let* geo_df := load_shape_data_file E (DATA_DIR E) default_url in
  show (sidebar_write "Shape file was downloaded");;
  show (sidebar_progress (step_fraction 1));;
  let* features :=
    lift (load_batch_of_features_from_store E (current_time_utc E)) in
  show (sidebar_write "Inference features fetched");;
  show (sidebar_progress (step_fraction 2));;
  let* predictions := lift (fetch_next_hour_predictions E) in
  show (sidebar_write "Model predictions loaded");;
  show (sidebar_progress (step_fraction 3));;
  ret (features, predictions).

(** Lines 91-170: what is shown from the fetched tables. *)
Definition display_stage (E : External) (features : list FeatureRow)
  (predictions : list PredictionRow) : M unit :=
  let shapefile_path := (DATA_DIR E ++ ["taxi_zones"; "taxi_zones.shp"])%list in
  show (st_selectbox "Select a Borough:" borough_options);;
  let selected_borough := selectbox_value E borough_options in
  let location_ids := location_ids_of selected_borough in
  let filtered_predictions := filter_predictions location_ids predictions in
  show (st_write ("Showing predictions for: " ++ selected_borough
                  ++ " (LocationID(s): " ++ str_int_list location_ids ++ ")"));;
  show (st_dataframe (ranked_table filtered_predictions));;
  show (st_subheader "Taxi Ride Predictions Map");;
  let* map_obj := create_taxi_map E shapefile_path filtered_predictions in
  show_map;;
  show (sidebar_write "Finished plotting taxi rides demand");;
  show (sidebar_progress (step_fraction 4));;
  show (st_subheader "Prediction Statistics");;
  show (st_metric "Average Rides" (average_rides filtered_predictions));;
  show (st_metric "Maximum Rides" (maximum_rides filtered_predictions));;
  show (st_metric "Minimum Rides" (minimum_rides filtered_predictions));;
  plot_top10 E features filtered_predictions (top10 filtered_predictions).

(** Lines 27-28 and 66-74: the session key, the title, the clock and the
    progress bar. *)
Definition intro_stage (E : External) : M unit :=
  init_session;;
  show (st_title "New York Yellow Taxi Cab Demand Next Hour");;
  show (st_header ("Current NYC Time: " ++ strftime_ny E (current_time_utc E)));;
  show (sidebar_progress 0).

(** The whole script, top to bottom. *)
Definition script (E : External) : M unit :=
  intro_stage E;;
  let* tables := fetch_stage E in
  display_stage E (fst tables) (snd tables).

(** Streamlit runs the script and shows an exception that escapes it
    below what the script had put on the page. *)
Definition streamlit_run (E : External) (s : state) : state :=
  match script E s with
  | (s', inr _) => s'
  | (s', inl e) => {| disk := disk s'; io_log := io_log s';
                      session := session s'; page := page s' ++ [st_exception e] |}
  end.

(** What the merge gives for one zone when the keys of the right side
    are distinct: one row, with the demand of the matching row or NaN. *)
Definition demand_for (right : list (Z * num)) (z : ZoneRow) : JoinedRow :=
  match List.find (fun kv => fst kv =? LocationID z) right with
  | Some kv => {| j_zone := z; j_pickup_location_id := Some (fst kv);
                  j_predicted_demand := snd kv |}
  | None => {| j_zone := z; j_pickup_location_id := None;
               j_predicted_demand := NaN |}
  end.

(** The title, the clock and the sidebar: what is on the page before any
    data is. *)
Definition is_chrome (x : element) : bool :=
  match x with
  | st_title _ | st_header _ | sidebar_progress _ | sidebar_write _ => true
  | _ => false
  end.

(** A step that leaves the page and the session alone. *)
Definition keeps_ui {A : Type} (c : M A) : Prop :=
  forall s, page (fst (c s)) = page s /\ session (fst (c s)) = session s.

(** The state with more elements on the page. *)
Definition put (s : state) (more : list element) : state :=
  with_page s (page s ++ more).

(** The style of a zone drawn in the first hue of the scale. *)
Definition flat_style : Style :=
  {| fillColor := "#ffeda0ff"; color := "black"; weight := 1;
     fillOpacity := 7 # 10 |}.

(** The session after lines 27-28. *)
Definition init_session_of (ss : Session) : Session :=
  match map_created ss with
  | None => {| map_created := Some false; map_obj := map_obj ss |}
  | Some _ => ss
  end.

(** The merged row of a zone without a prediction, after the fill. *)
Definition zero_row (E : External) (z : ZoneRow) : JoinedRow :=
  {| j_zone := reproject E z; j_pickup_location_id := None;
     j_predicted_demand := Fin 0 |}.

(** The map on which every zone has demand 0 and the first hue. *)
Definition zero_map (E : External) (cm : LinearColormap)
  (zones : list ZoneRow) : Map :=
  folium_Map cm (map (fun j => (j, flat_style)) (map (zero_row E) zones)).

(** What the display stage shows for a borough without predictions: the
    empty table, the map, the three statistics as "nan", no chart. *)
Definition empty_borough_elements (E : External) (m : Map) : list element :=
  let selected_borough := selectbox_value E borough_options in
  [st_selectbox "Select a Borough:" borough_options;
   st_write ("Showing predictions for: " ++ selected_borough
             ++ " (LocationID(s): "
             ++ str_int_list (location_ids_of selected_borough) ++ ")");
   st_dataframe [];
   st_subheader "Taxi Ride Predictions Map";
   st_folium m 800 600;
   sidebar_write "Finished plotting taxi rides demand";
   sidebar_progress (step_fraction 4);
   st_subheader "Prediction Statistics";
   st_metric "Average Rides" "nan";
   st_metric "Maximum Rides" "nan";
   st_metric "Minimum Rides" "nan"].

(** What the fetch stage has shown when it stops. *)
Definition fetch_notes (k : nat) : list element :=
  firstn (2 * k)
    [sidebar_write "Shape file was downloaded";
     sidebar_progress (step_fraction 1);
     sidebar_write "Inference features fetched";
     sidebar_progress (step_fraction 2);
     sidebar_write "Model predictions loaded";
     sidebar_progress (step_fraction 3)].

Definition intro_elements (E : External) : list element :=
  [st_title "New York Yellow Taxi Cab Demand Next Hour";
   st_header ("Current NYC Time: " ++ strftime_ny E (current_time_utc E));
   sidebar_progress 0].

(** ** Sample data *)

(** Three zones, three predictions and two feature rows for the sample
    runs. *)
Definition sample_zone (k : Z) (name boro : string) : ZoneRow :=
  {| LocationID := k; zone := name; borough := boro;
     geometry := [[(0, 0); (1, 0); (1, 1)]]%Q |}.

Definition sample_zones : list ZoneRow :=
  [sample_zone 1 "Newark Airport" "EWR";
   sample_zone 2 "Jamaica Bay" "Queens";
   sample_zone 3 "Allerton/Pelham Gardens" "Bronx"].

Definition prediction (label k : Z) (demand : Z) : PredictionRow :=
  {| row_label := label; pickup_location_id := k;
     predicted_demand := Fin (inject_Z demand) |}.

Definition sample_predictions : list PredictionRow :=
  [prediction 0 1 50; prediction 1 2 200; prediction 2 3 10].

Definition sample_features : list FeatureRow :=
  [{| f_pickup_location_id := 1; pickup_hour := 0; rides := [Fin 40; Fin 45] |};
   {| f_pickup_location_id := 3; pickup_hour := 0; rides := [Fin 8; Fin 12] |}].

Definition good_archive : list Byte.byte := [Byte.x50; Byte.x4b].

(** A world in which the network answers with [answer], the archive
    [good_archive] holds the shapefile and every other body is not a zip
    file, and the read APIs return [features] and [predictions]. *)
Definition world (answer : exn + Response)
  (features : exn + list FeatureRow) (predictions : exn + list PredictionRow)
  (choice : string) : External :=
  {| DATA_DIR := ["data"];
     requests_get := fun _ _ => answer;
     zip_infolist := fun bytes =>
       match bytes with
       | [Byte.x50; Byte.x4b] =>
           inr [ {| filename := "taxi_zones.shp"; member := Stored [Byte.x00] |} ]
       | _ => inl (BadZipFile "File is not a zip file")
       end;
     gpd_read_file := fun d p =>
       match d !! p with
       | Some (File _) => inr sample_zones
       | _ => inl (Raise "DataSourceError" "No such file or directory")
       end;
     to_crs := fun g => g;
     load_batch_of_features_from_store := fun _ => features;
     fetch_next_hour_predictions := predictions;
     plot_prediction := fun f p =>
       inr {| fig_features := f; fig_prediction := p; fig_body := "figure" |};
     current_time_utc := 0;
     strftime_ny := fun _ => "1969-12-31 07:00 PM EST";
     selectbox_value := fun _ => choice |}.

Definition ok_response (status : Z) (why : string) (body : list Byte.byte)
  : exn + Response :=
  inr {| status_code := status; reason := why; content := body |}.

(** The result of the cache when nothing has to be fetched. *)
Definition read_cached (E : External) (data_dir : path) (s : state)
  : exn + list ZoneRow :=
  match gpd_read_file E (disk s) (shapefile_path_of data_dir) with
  | inl e => inl e
  | inr gdf => inr (map (reproject E) gdf)
  end.

Definition download_failure (e : exn) : exn :=
  Exception ("Failed to download file: " ++ str_exn e).

Definition extraction_failure (e : exn) : exn :=
  Exception ("Failed to extract zip file: " ++ str_exn e).

Definition sample_world : External :=
  world (ok_response 200 "OK" good_archive) (inr sample_features)
        (inr sample_predictions) "Bronx".

Definition empty_session : Session :=
  {| map_created := None; map_obj := None |}.

(** A first visit: nothing on the disk, nothing on the page. *)
Definition cold_start : state :=
  {| disk := ∅; io_log := []; session := empty_session; page := [] |}.

(** A later visit: the archive and the shapefile are in the data
    directory. *)
Definition warm_disk : gmap path node :=
  <[ ["data"; "taxi_zones"; "taxi_zones.shp"] := File [Byte.x00] ]>
  (<[ ["data"; "taxi_zones"] := Dir ]>
  (<[ ["data"; "taxi_zones.zip"] := File good_archive ]>
  (<[ ["data"] := Dir ]> ∅))).

Definition warm_start : state :=
  {| disk := warm_disk; io_log := []; session := empty_session; page := [] |}.

(** The state after the archive has been fetched and written. *)
Definition with_archive (data_dir : path) (url : string)
  (body : list Byte.byte) (s : state) : state :=
  {| disk := <[zip_path_of data_dir := File body]> (disk s);
     io_log := (io_log s ++ [HttpGet url 10])
               ++ [WriteFile (zip_path_of data_dir) body];
     session := session s; page := page s |}.

(** A first visit in a world whose server answers 300 with a good archive
    as the body. *)
Definition redirect_world : External :=
  world (ok_response 300 "Multiple Choices" good_archive) (inr sample_features)
        (inr sample_predictions) "Bronx".

Definition timeout_world : External :=
  world (inl (Raise "ReadTimeout" "Read timed out. (read timeout=10)"))
        (inr sample_features) (inr sample_predictions) "Bronx".

Definition not_found_world : External :=
  world (ok_response 404 "Not Found" []) (inr sample_features)
        (inr sample_predictions) "Bronx".

Definition corrupt_world : External :=
  world (ok_response 200 "OK" [Byte.x00]) (inr sample_features)
        (inr sample_predictions) "Bronx".

(** A visit that finds an archive that is not a zip file and no
    shapefile. *)
Definition corrupt_start : state :=
  {| disk := <[ ["data"; "taxi_zones.zip"] := File [Byte.x00] ]>
             (<[ ["data"] := Dir ]> ∅);
     io_log := []; session := empty_session; page := [] |}.

(** The five boroughs of New York City. *)
Definition five_boroughs : list string :=
  ["Manhattan"; "Brooklyn"; "Queens"; "Bronx"; "Staten Island"].

(** Two prediction tables that have the same rows, in the same order, among
    those that [keep] selects; the other rows are arbitrary. *)
Inductive agree_on (keep : PredictionRow -> bool)
  : list PredictionRow -> list PredictionRow -> Prop :=
| agree_nil : agree_on keep [] []
| agree_both (r : PredictionRow) (t1 t2 : list PredictionRow) :
    keep r = true -> agree_on keep t1 t2 -> agree_on keep (r :: t1) (r :: t2)
| agree_left (r : PredictionRow) (t1 t2 : list PredictionRow) :
    keep r = false -> agree_on keep t1 t2 -> agree_on keep (r :: t1) t2
| agree_right (r : PredictionRow) (t1 t2 : list PredictionRow) :
    keep r = false -> agree_on keep t1 t2 -> agree_on keep t1 (r :: t2).

(** The rows of the selected borough. *)
Definition in_borough (location_ids : list Z) (r : PredictionRow) : bool :=
  isin location_ids (pickup_location_id r).

(** Worlds in which a read API fails. *)
Definition no_features_world : External :=
  world (ok_response 200 "OK" good_archive)
        (inl (Raise "RestAPIError" "feature store unreachable"))
        (inr sample_predictions) "Bronx".

Definition no_predictions_world : External :=
  world (ok_response 200 "OK" good_archive) (inr sample_features)
        (inl (Raise "RestAPIError" "prediction store unreachable")) "Bronx".

(** A world whose user has selected Brooklyn, for which the prediction
    table has no row. *)
Definition brooklyn_world : External :=
  world (ok_response 200 "OK" good_archive) (inr sample_features)
        (inr sample_predictions) "Brooklyn".

(** The world [E] with another shapefile reader. *)
Definition with_reader (E : External)
  (reader : gmap path node -> path -> exn + list ZoneRow) : External :=
  {| DATA_DIR := DATA_DIR E;
     requests_get := requests_get E;
     zip_infolist := zip_infolist E;
     gpd_read_file := reader;
     to_crs := to_crs E;
     load_batch_of_features_from_store := load_batch_of_features_from_store E;
     fetch_next_hour_predictions := fetch_next_hour_predictions E;
     plot_prediction := plot_prediction E;
     current_time_utc := current_time_utc E;
     strftime_ny := strftime_ny E;
     selectbox_value := selectbox_value E |}.

(** Brooklyn selected, and a shapefile that holds no zone. *)
Definition no_zones_world : External :=
  with_reader brooklyn_world
    (fun d p => match d !! p with
                | Some (File _) => inr []
                | _ => inl (Raise "DataSourceError" "No such file or directory")
                end).

(** The scale of a frame whose demands are all 0. *)
Definition zero_scale : LinearColormap :=
  {| cm_vmin := Fin 0; cm_vmax := Fin 0;
     cm_index := map (threshold (Fin 0) (Fin 0) 7) (seq 0 7);
     cm_colors := map parse_hex palette |}.

(** ** What a step may change *)

(** A step that takes every state to one that [R] relates to it. *)
Definition respects {A : Type} (R : state -> state -> Prop) (c : M A) : Prop :=
  forall s, R s (fst (c s)).

Definition is_request (e : io_event) : bool :=
  match e with HttpGet _ _ => true | _ => false end.

(** [s'] is [s] with more entries in the log, none of them a request. *)
Definition offline (s s' : state) : Prop :=
  exists events,
    io_log s' = (io_log s ++ events)%list
    /\ forallb (fun e => negb (is_request e)) events = true.

(** Every path of the disk of [s] is on the disk of [s'], and the
    directories of [s] are directories of [s']. *)
Definition disk_grows (s s' : state) : Prop :=
  forall q,
    (lookup_node (disk s) q = Some Dir -> lookup_node (disk s') q = Some Dir)
    /\ (is_Some (lookup_node (disk s) q) -> is_Some (lookup_node (disk s') q)).

(** The node at [q], when there is one, is the same in [s']. *)
Definition keeps_node (q : path) (s s' : state) : Prop :=
  forall n, lookup_node (disk s) q = Some n -> lookup_node (disk s') q = Some n.

(** Every path has the node it had, or had none and is a directory now. *)
Definition adds_dirs (s s' : state) : Prop :=
  forall q, lookup_node (disk s') q = lookup_node (disk s) q
            \/ (lookup_node (disk s) q = None
                /\ lookup_node (disk s') q = Some Dir).

(** The disk and the log are those of [s]. *)
Definition same_world (s s' : state) : Prop :=
  disk s' = disk s /\ io_log s' = io_log s.

(** The reader finds what it returns on the disk: it does not succeed on
    a path that does not exist. *)
Definition reads_existing (E : External) : Prop :=
  forall d p zones, gpd_read_file E d p = inr zones -> is_Some (lookup_node d p).

(** A visit that finds the archive and no shapefile. *)
Definition archive_only_start : state :=
  {| disk := <[ ["data"; "taxi_zones.zip"] := File good_archive ]>
             (<[ ["data"] := Dir ]> ∅);
     io_log := []; session := empty_session; page := [] |}.

(** Lines 49-55: the request, the status check and the write of the
    archive, with the handler of the download failure. *)
Definition download_archive (E : External) (data_dir : path) (url : string)
  : M unit :=
  try_except
    (log_io (HttpGet url 10);;
     let* response := lift (requests_get E url 10) in
     match raise_for_status url response with
     | Some e => raise e
     | None => write_bytes (zip_path_of data_dir) (content response)
     end)
    is_RequestException
    (fun e => Exception ("Failed to download file: " ++ str_exn e)).

(** Lines 57-64: the extraction when the shapefile is missing, and the
    read. *)
Definition extract_and_read (E : External) (data_dir : path)
  : M (list ZoneRow) :=
  let* have_shp := path_exists (shapefile_path_of data_dir) in
  (if have_shp then ret tt
   else
     try_except
       (let* members := ZipFile_open E (zip_path_of data_dir) in
        extractall (data_dir ++ ["taxi_zones"])%list members)
       is_BadZipFile
       (fun e => Exception ("Failed to extract zip file: " ++ str_exn e)));;
  let* d := get_disk in
  let* gdf := lift (gpd_read_file E d (shapefile_path_of data_dir)) in
  ret (map (reproject E) gdf).

(** A world in which [requests.get] raises something that is not a
    RequestException. *)
Definition interrupted_world : External :=
  world (inl (Raise "KeyboardInterrupt" "")) (inr sample_features)
        (inr sample_predictions) "Bronx".

(** A visit that finds a directory where the archive should be. *)
Definition archive_is_dir_start : state :=
  {| disk := <[ ["data"; "taxi_zones.zip"] := Dir ]> (<[ ["data"] := Dir ]> ∅);
     io_log := []; session := empty_session; page := [] |}.

(** A visit that finds a file of the user beside the cache. *)
Definition notes_start : state :=
  {| disk := <[ ["data"; "notes.txt"] := File [Byte.x41] ]>
             (<[ ["data"] := Dir ]> ∅);
     io_log := []; session := empty_session; page := [] |}.

(** A later visit of the same user: Brooklyn selected, and the network
    down. *)
Definition later_world : External :=
  world (inl (Raise "ConnectionError" "Network is unreachable"))
        (inr sample_features) (inr sample_predictions) "Brooklyn".

(** The number of prediction rows with the key of zone [z]. *)
Definition matches (preds : list PredictionRow) (z : ZoneRow) : nat :=
  length (List.filter (fun p => pickup_location_id p =? LocationID z) preds).

(** The rows of the sorted table below the first ten. *)
Definition not_shown (filtered_predictions : list PredictionRow)
  : list PredictionRow :=
  skipn 10 (sort_values_desc filtered_predictions).



(** A visit that finds a file where the data directory should be. *)
Definition data_is_file_start : state :=
  {| disk := <[ ["data"] := File [Byte.x41] ]> ∅;
     io_log := []; session := empty_session; page := [] |}.

(** An archive with a folder entry, a file in the folder under a name
    with a [.] and a doubled slash, and the shapefile. *)
Definition folder_archive : list Byte.byte := [Byte.x50; Byte.x4b; Byte.x03].

Definition folder_infolist : list ZipInfo :=
  [ {| filename := "docs/"; member := Stored [] |};
    {| filename := "./docs//readme.txt"; member := Stored [Byte.x41] |};
    {| filename := "taxi_zones.shp"; member := Stored [Byte.x00] |} ].

(** The world of the samples with another reading of archives. *)
Definition with_zipfile (E : External)
  (read : list Byte.byte -> exn + list ZipInfo) : External :=
  {| DATA_DIR := DATA_DIR E;
     requests_get := requests_get E;
     zip_infolist := read;
     gpd_read_file := gpd_read_file E;
     to_crs := to_crs E;
     load_batch_of_features_from_store := load_batch_of_features_from_store E;
     fetch_next_hour_predictions := fetch_next_hour_predictions E;
     plot_prediction := plot_prediction E;
     current_time_utc := current_time_utc E;
     strftime_ny := strftime_ny E;
     selectbox_value := selectbox_value E |}.

Definition folder_world : External :=
  with_zipfile sample_world (fun _ => inr folder_infolist).

(** A visit that finds that archive and no shapefile. *)
Definition folder_start : state :=
  {| disk := <[ ["data"; "taxi_zones.zip"] := File folder_archive ]>
             (<[ ["data"] := Dir ]> ∅);
     io_log := []; session := empty_session; page := [] |}.

(** An archive that zipfile cannot extract: reading its directory raises,
    or reading the data of one of its entries does. *)
Definition corrupt (E : External) (bytes : list Byte.byte) : Prop :=
  match zip_infolist E bytes with
  | inl _ => True
  | inr infolist =>
      exists zinfo, List.In zinfo infolist
                    /\ match member zinfo with
                       | Stored _ => False
                       | _ => True
                       end
  end.

(** What the call raises when zipfile raises [e]: the extraction failure
    for a BadZipFile, the exception itself otherwise. *)
Definition extraction_raises (e : exn) : exn :=
  if is_BadZipFile e then extraction_failure e else e.

(** An archive whose second entry fails its CRC check. *)
Definition bad_crc_infolist : list ZipInfo :=
  [ {| filename := "taxi_zones.dbf"; member := Stored [Byte.x01] |};
    {| filename := "taxi_zones.shp";
       member := CopyFails []
                   (BadZipFile "Bad CRC-32 for file 'taxi_zones.shp'") |} ].

Definition bad_crc_world : External :=
  with_zipfile sample_world (fun _ => inr bad_crc_infolist).

(** An archive whose entry has a damaged compressed stream. *)
Definition damaged_stream : exn :=
  Raise "zlib.error"
        "Error -3 while decompressing data: invalid stored block lengths".

Definition damaged_stream_world : External :=
  with_zipfile sample_world
    (fun _ => inr [ {| filename := "taxi_zones.shp";
                       member := CopyFails [] damaged_stream |} ]).

(** ** The tables as objects (lines 94-170) *)

(** In the script a table is a pandas object and a variable holds a
    reference to it: an operation returns a new object or, as the
    assignment to a column at line 120, changes the object it is given.
    Here the objects are on a heap, in the order in which they were made,
    and the display stage runs on references, so that what an operation
    reads is what the operations before it have left. *)
Inductive object : Type :=
| PredictionFrame (rows : list PredictionRow)
| FeatureFrame (rows : list FeatureRow)
| KeyDemandFrame (rows : list (Z * num))
| ZoneFrame (rows : list ZoneRow)
| MergedFrame (rows : list JoinedRow).

Abbreviation ref := nat.

(** The interpreter: the heap of the tables and the state of the run. *)
Record process : Type := {
  heap : list object;
  run_state : state
}.

Definition F (A : Type) : Type := process -> process * (exn + A).

Definition fret {A : Type} (x : A) : F A := fun w => (w, inr x).

Definition fraise {A : Type} (e : exn) : F A := fun w => (w, inl e).

Definition fbind {A B : Type} (c : F A) (k : A -> F B) : F B :=
  fun w => match c w with
           | (w', inr x) => k x w'
           | (w', inl e) => (w', inl e)
           end.

Notation "'let+' x ':=' c 'in' k" := (fbind c (fun x => k))
  (at level 10, x pattern, c at level 100, k at level 200).

Notation "c ';;+' k" := (fbind c (fun _ => k))
  (at level 100, k at level 200, right associativity).

(** A step on the state of the run, the heap left alone. *)
Definition on_state {A : Type} (c : M A) : F A :=
  fun w => match c (run_state w) with
           | (s', r) => ({| heap := heap w; run_state := s' |}, r)
           end.

Definition TypeError (msg : string) : exn := Raise "TypeError" msg.
Definition ReferenceError (msg : string) : exn := Raise "ReferenceError" msg.

(** A new object: its reference is the one after those of the heap. *)
Definition new_object (o : object) : F ref :=
  fun w => ({| heap := heap w ++ [o]; run_state := run_state w |},
            inr (length (heap w))).

(** The object of a reference, seen as a table of one kind. *)
Definition read_as {A : Type} (view : object -> option A) (r : ref) : F A :=
  fun w => match heap w !! r with
           | Some o =>
               match view o with
               | Some x => (w, inr x)
               | None => (w, inl (TypeError "not a table of that kind"))
               end
           | None => (w, inl (ReferenceError "no such object"))
           end.

(** The object of a reference replaced in place. *)
Definition set_object (r : ref) (o : object) : F unit :=
  fun w => ({| heap := <[r := o]> (heap w); run_state := run_state w |},
            inr tt).

Definition as_predictions (o : object) : option (list PredictionRow) :=
  match o with PredictionFrame rows => Some rows | _ => None end.

Definition as_features (o : object) : option (list FeatureRow) :=
  match o with FeatureFrame rows => Some rows | _ => None end.

Definition as_key_demand (o : object) : option (list (Z * num)) :=
  match o with KeyDemandFrame rows => Some rows | _ => None end.

Definition as_zones (o : object) : option (list ZoneRow) :=
  match o with ZoneFrame rows => Some rows | _ => None end.

Definition as_merged (o : object) : option (list JoinedRow) :=
  match o with MergedFrame rows => Some rows | _ => None end.

(** [df[mask]]: a new frame with the rows that [keep] selects. *)
Definition getitem_rows (keep : PredictionRow -> bool) (df : ref) : F ref :=
  let+ rows := read_as as_predictions df in
  new_object (PredictionFrame (List.filter keep rows)).

Definition getitem_feature_rows (keep : FeatureRow -> bool) (df : ref) : F ref :=
  let+ rows := read_as as_features df in
  new_object (FeatureFrame (List.filter keep rows)).

(** [df.sort_values("predicted_demand", ascending=False)]: a new frame;
    [sort_values] is the order that the sort kind gives to the rows. *)
Definition df_sort_values
  (sort_values : list PredictionRow -> list PredictionRow) (df : ref) : F ref :=
  let+ rows := read_as as_predictions df in
  new_object (PredictionFrame (sort_values rows)).

(** [df.head(10)]: a new frame. *)
Definition df_head (df : ref) : F ref :=
  let+ rows := read_as as_predictions df in
  new_object (PredictionFrame (head10 rows)).

(** [df[["pickup_location_id", "predicted_demand"]]]: a new frame. *)
Definition getitem_key_demand (df : ref) : F ref :=
  let+ rows := read_as as_predictions df in
  new_object (KeyDemandFrame (select_key_demand rows)).

(** [left.merge(right, ..., how="left")]: a new frame. *)
Definition df_merge (left right : ref) : F ref :=
  let+ zones := read_as as_zones left in
  let+ key_demand := read_as as_key_demand right in
  new_object (MergedFrame (merge_left zones key_demand)).

(** [df["predicted_demand"] = df["predicted_demand"].fillna(0)]: the
    column of the frame is replaced, in the frame itself. *)
Definition setitem_fillna (df : ref) : F unit :=
  let+ rows := read_as as_merged df in
  set_object df (MergedFrame (fillna_demand rows)).

(** [gdf.to_crs(epsg=4326)]: a new frame. *)
Definition gdf_to_crs (E : External) (df : ref) : F ref :=
  let+ rows := read_as as_merged df in
  new_object (MergedFrame (map (reproject_joined E) rows)).

(** [create_taxi_map(shapefile_path, prediction_data)] on references
    (lines 111-143). *)
Definition create_taxi_map_on (E : External) (shapefile_path : path)
  (prediction_data : ref) : F Map :=
  let+ d := on_state get_disk in
  let+ zones := on_state (lift (gpd_read_file E d shapefile_path)) in
  let+ nyc_zones := new_object (ZoneFrame zones) in
  let+ key_demand := getitem_key_demand prediction_data in
  let+ nyc_zones := df_merge nyc_zones key_demand in
  setitem_fillna nyc_zones;;+
  let+ nyc_zones := gdf_to_crs E nyc_zones in
  let+ rows := read_as as_merged nyc_zones in
  let demand := map j_predicted_demand rows in
  let+ colormap :=
    on_state (lift (LinearColormap_init palette (series_min demand)
                                        (series_max demand))) in
  let+ styled := on_state (lift (style_features colormap rows)) in
  let m := folium_Map colormap styled in
  on_state (set_session {| map_created := Some true; map_obj := Some m |});;+
  fret m.

(** Lines 94-164 on references: from the filter to the list [top10]; the
    value is the reference held by [filtered_predictions] and that list. *)
Definition display_tables (E : External)
  (sort_values : list PredictionRow -> list PredictionRow)
  (predictions : ref) : F (ref * list Z) :=
  let shapefile_path := (DATA_DIR E ++ ["taxi_zones"; "taxi_zones.shp"])%list in
  on_state (show (st_selectbox "Select a Borough:" borough_options));;+
  let selected_borough := selectbox_value E borough_options in
  let location_ids := location_ids_of selected_borough in
  let+ filtered_predictions :=
    getitem_rows (fun r => isin location_ids (pickup_location_id r))
                 predictions in
  on_state (show (st_write ("Showing predictions for: " ++ selected_borough
                            ++ " (LocationID(s): " ++ str_int_list location_ids
                            ++ ")")));;+
  let+ sorted := df_sort_values sort_values filtered_predictions in
  let+ first_rows := df_head sorted in
  let+ table := read_as as_predictions first_rows in
  on_state (show (st_dataframe table));;+
  on_state (show (st_subheader "Taxi Ride Predictions Map"));;+
  let+ map_obj := create_taxi_map_on E shapefile_path filtered_predictions in
  on_state show_map;;+
  on_state (show (sidebar_write "Finished plotting taxi rides demand"));;+
  on_state (show (sidebar_progress (step_fraction 4)));;+
  on_state (show (st_subheader "Prediction Statistics"));;+
  let+ rows := read_as as_predictions filtered_predictions in
  on_state (show (st_metric "Average Rides" (average_rides rows)));;+
  let+ rows := read_as as_predictions filtered_predictions in
  on_state (show (st_metric "Maximum Rides" (maximum_rides rows)));;+
  let+ rows := read_as as_predictions filtered_predictions in
  on_state (show (st_metric "Minimum Rides" (minimum_rides rows)));;+
  let+ sorted := df_sort_values sort_values filtered_predictions in
  let+ first_rows := df_head sorted in
  let+ rows := read_as as_predictions first_rows in
  fret (filtered_predictions, map pickup_location_id rows).

(** Lines 165-170 on references: the chart of each zone of the list in
    turn; [plot_prediction] is given two new frames. *)
Fixpoint plot_charts (E : External) (features filtered_predictions : ref)
  (ids : list Z) : F unit :=
  match ids with
  | [] => fret tt
  | location_id :: rest =>
      let+ features_of_zone :=
        getitem_feature_rows (fun f => f_pickup_location_id f =? location_id)
                             features in
      let+ prediction_of_zone :=
        getitem_rows (fun r => pickup_location_id r =? location_id)
                     filtered_predictions in
      let+ feature_rows := read_as as_features features_of_zone in
      let+ prediction_rows := read_as as_predictions prediction_of_zone in
      let+ fig := on_state (lift (plot_prediction E feature_rows prediction_rows)) in
      on_state (show (st_plotly_chart fig));;+
      plot_charts E features filtered_predictions rest
  end.

(** Lines 94-170 on references. *)
Definition display_stage_on (E : External)
  (sort_values : list PredictionRow -> list PredictionRow)
  (features predictions : ref) : F unit :=
  let+ tables := display_tables E sort_values predictions in
  plot_charts E features (fst tables) (snd tables).

(** The rows of a table shown on the page. *)
Definition shown_tables (page : list element) : list (list PredictionRow) :=
  flat_map (fun x => match x with st_dataframe rows => [rows] | _ => [] end)
           page.

(** The figures of the charts shown on the page. *)
Definition shown_charts (page : list element) : list Figure :=
  flat_map (fun x => match x with st_plotly_chart fig => [fig] | _ => [] end)
           page.

(** A process that holds the sample tables. *)
Definition sample_process : process :=
  {| heap := [FeatureFrame sample_features; PredictionFrame sample_predictions];
     run_state := warm_start |}.

(** * Properties *)

Local Open Scope list_scope.

(** ** The colour scale *)

Example colormap_0_100_at_0 :
  match LinearColormap_init palette (Fin 0) (Fin 100) with
  | inr cm => colormap_call cm (Fin 0) = inr "#ffeda0ff"
              /\ colormap_call cm (Fin 100) = inr "#bd0026ff"
              /\ colormap_call cm (Fin 50) = inr "#fd8d3cff"
  | inl _ => False
  end.
Proof. vm_compute. auto. Qed.

(** ** The join *)

Section Join.

Variable E : External.

Lemma filter_key_nodup (k : Z) (right : list (Z * num)) :
  List.NoDup (map fst right) ->
  (length (List.filter (fun kv => fst kv =? k)%Z right) <= 1)%nat.
Proof.
  induction right as [|[k' v] right IH]; simpl; intros Hnd; [lia|].
  inversion Hnd as [|? ? Hnotin Hnd']; subst.
  destruct (Z.eqb_spec k' k) as [->|Hne]; simpl.
  - assert (Hnil : List.filter (fun kv : Z * num => fst kv =? k) right = []).
    { destruct (List.filter _ right) as [|[k1 v1] rest] eqn:Hf; [reflexivity|].
      exfalso. apply Hnotin.
      assert (Hin : List.In (k1, v1) (List.filter (fun kv : Z * num => fst kv =? k) right))
        by (rewrite Hf; left; reflexivity).
      apply List.filter_In in Hin. destruct Hin as [Hin Hk]. simpl in Hk.
      apply Z.eqb_eq in Hk. subst k1.
      apply (List.in_map fst) in Hin. exact Hin. }
    rewrite Hnil. simpl. lia.
  - apply IH. exact Hnd'.
Qed.

Lemma find_filter_head {A : Type} (f : A -> bool) (l : list A) :
  List.find f l = List.hd_error (List.filter f l).
Proof.
  induction l as [|a l IH]; simpl; [reflexivity|].
  destruct (f a); simpl; [reflexivity|exact IH].
Qed.

Lemma merge_one_nodup (right : list (Z * num)) (z : ZoneRow) :
  List.NoDup (map fst right) ->
  merge_one right z = [demand_for right z].
Proof.
  intros Hnd. unfold merge_one, demand_for.
  rewrite find_filter_head.
  pose proof (filter_key_nodup (LocationID z) right Hnd) as Hlen.
  destruct (List.filter _ right) as [|kv [|kv' rest]]; simpl in *;
    [reflexivity|reflexivity|lia].
Qed.

Lemma merge_left_nodup (left : list ZoneRow) (right : list (Z * num)) :
  List.NoDup (map fst right) ->
  merge_left left right = map (demand_for right) left.
Proof.
  intros Hnd. unfold merge_left.
  induction left as [|z left IH]; simpl; [reflexivity|].
  rewrite merge_one_nodup by exact Hnd. simpl. now rewrite IH.
Qed.

Lemma select_key_demand_keys (t : list PredictionRow) :
  map fst (select_key_demand t) = map pickup_location_id t.
Proof.
  unfold select_key_demand. rewrite List.map_map. reflexivity.
Qed.

Lemma merge_one_zone (right : list (Z * num)) (z : ZoneRow) (j : JoinedRow) :
  List.In j (merge_one right z) -> j_zone j = z.
Proof.
  unfold merge_one.
  destruct (List.filter _ right) as [|kv ms]; simpl.
  - intros [<-|[]]. reflexivity.
  - intros [<-|Hin]; [reflexivity|].
    apply List.in_map_iff in Hin. destruct Hin as [kv' [<- _]]. reflexivity.
Qed.

(** A row of the merge whose zone has no prediction holds NaN. *)
Lemma merge_one_unmatched (right : list (Z * num)) (z : ZoneRow) (j : JoinedRow) :
  (forall kv, List.In kv right -> fst kv <> LocationID z) ->
  List.In j (merge_one right z) -> j_predicted_demand j = NaN.
Proof.
  intros Hno. unfold merge_one.
  destruct (List.filter _ right) as [|kv ms] eqn:Hf; simpl.
  - intros [<-|[]]. reflexivity.
  - exfalso.
    assert (Hin : List.In kv (List.filter (fun kv0 : Z * num => fst kv0 =? LocationID z) right))
      by (rewrite Hf; left; reflexivity).
    apply List.filter_In in Hin. destruct Hin as [Hin Hk].
    apply Z.eqb_eq in Hk. exact (Hno kv Hin Hk).
Qed.

Lemma join_zones_in (zones : list ZoneRow) (preds : list PredictionRow)
  (j : JoinedRow) :
  List.In j (join_zones E zones preds) ->
  exists z j0, List.In z zones
    /\ List.In j0 (merge_one (select_key_demand preds) z)
    /\ j = reproject_joined E
             {| j_zone := j_zone j0;
                j_pickup_location_id := j_pickup_location_id j0;
                j_predicted_demand := fillna0 (j_predicted_demand j0) |}.
Proof.
  unfold join_zones, fillna_demand, merge_left. intros Hin.
  apply List.in_map_iff in Hin. destruct Hin as [j1 [<- Hin]].
  apply List.in_map_iff in Hin. destruct Hin as [j0 [<- Hin]].
  apply List.in_flat_map in Hin. destruct Hin as [z [Hz Hin]].
  exists z, j0. auto.
Qed.

Lemma join_zones_unmatched (zones : list ZoneRow) (preds : list PredictionRow)
  (j : JoinedRow) :
  List.In j (join_zones E zones preds) ->
  (forall p, List.In p preds ->
             pickup_location_id p <> LocationID (j_zone j)) ->
  j_predicted_demand j = Fin 0.
Proof.
  intros Hin Hno.
  destruct (join_zones_in zones preds j Hin) as [z [j0 [Hz [Hj0 ->]]]].
  simpl in *.
  rewrite (merge_one_zone _ _ _ Hj0) in Hno. simpl in Hno.
  rewrite (merge_one_unmatched (select_key_demand preds) z j0); [reflexivity| |exact Hj0].
  intros kv Hkv. unfold select_key_demand in Hkv.
  apply List.in_map_iff in Hkv. destruct Hkv as [p [<- Hp]]. simpl.
  exact (Hno p Hp).
Qed.

Lemma join_zones_nodup (zones : list ZoneRow) (preds : list PredictionRow) :
  List.NoDup (map pickup_location_id preds) ->
  map j_zone (join_zones E zones preds) = map (reproject E) zones.
Proof.
  intros Hnd. unfold join_zones, fillna_demand.
  rewrite merge_left_nodup by (rewrite select_key_demand_keys; exact Hnd).
  rewrite !List.map_map. apply List.map_ext. intros z.
  unfold demand_for. destruct (List.find _ _); reflexivity.
Qed.

Lemma merge_one_first (right : list (Z * num)) (z : ZoneRow) :
  exists j, List.In j (merge_one right z) /\ j_zone j = z.
Proof.
  unfold merge_one.
  destruct (List.filter _ right) as [|kv ms]; simpl; eexists; split;
    try (left; reflexivity); reflexivity.
Qed.

(** Every zone has a row in the merged frame. *)
Lemma join_zones_has_zone (zones : list ZoneRow) (preds : list PredictionRow)
  (z : ZoneRow) :
  List.In z zones ->
  exists j, List.In j (join_zones E zones preds) /\ j_zone j = reproject E z.
Proof.
  intros Hz.
  destruct (merge_one_first (select_key_demand preds) z) as [j0 [Hj0 Hzone]].
  exists (reproject_joined E
            {| j_zone := j_zone j0;
               j_pickup_location_id := j_pickup_location_id j0;
               j_predicted_demand := fillna0 (j_predicted_demand j0) |}).
  split; [|simpl; rewrite Hzone; reflexivity].
  unfold join_zones, fillna_demand, merge_left.
  apply List.in_map. apply List.in_map_iff. exists j0. split; [reflexivity|].
  apply List.in_flat_map. exists z. auto.
Qed.

End Join.

(** C1, as stated, fails: a prediction table with two rows for one zone
    gives that zone two rows in the merged frame. *)
Lemma join_zones_duplicate_key :
  ~ (forall (E : External) (zones : list ZoneRow) (preds : list PredictionRow),
        length (join_zones E zones preds) = length zones).
Proof.
  intros H.
  specialize (H sample_world [sample_zone 1 "Newark Airport" "EWR"]
                [prediction 0 1 50; prediction 1 1 70]).
  vm_compute in H. discriminate H.
Qed.

(** C1, amended: when no two rows of the prediction table have the same
    zone identifier, the merged frame of [create_taxi_map] has exactly the
    input zones as its rows, one each and in their order; and, for every
    prediction table, every zone has a row and a row whose zone matches no
    prediction row has [predicted_demand] 0. *)
Theorem join_zones_left_join (E : External) (zones : list ZoneRow)
  (preds : list PredictionRow) :
  (List.NoDup (map pickup_location_id preds) ->
   map j_zone (join_zones E zones preds) = map (reproject E) zones
   /\ length (join_zones E zones preds) = length zones)
  /\ (forall z, List.In z zones ->
        exists j, List.In j (join_zones E zones preds)
                  /\ j_zone j = reproject E z)
  /\ (forall j, List.In j (join_zones E zones preds) ->
        (forall p, List.In p preds ->
                   pickup_location_id p <> LocationID (j_zone j)) ->
        j_predicted_demand j = Fin 0).
Proof.
  split; [|split].
  - intros Hnd. split.
    + apply join_zones_nodup. exact Hnd.
    + rewrite <- (List.length_map j_zone), join_zones_nodup by exact Hnd.
      apply List.length_map.
  - intros z Hz. apply join_zones_has_zone. exact Hz.
  - intros j Hin Hno. eapply join_zones_unmatched; eauto.
Qed.

(** The left join on the three sample zones and two predictions with distinct keys. *)
Lemma join_zones_left_join_sample :
  List.NoDup (map pickup_location_id [prediction 0 1 50; prediction 1 3 10])
  /\ map j_zone (join_zones sample_world sample_zones
                   [prediction 0 1 50; prediction 1 3 10])
     = map (reproject sample_world) sample_zones.
Proof.
  assert (Hnd : List.NoDup (map pickup_location_id
                              [prediction 0 1 50; prediction 1 3 10])).
  { simpl. repeat constructor; simpl; intuition lia. }
  split; [exact Hnd|].
  exact (proj1 (proj1 (join_zones_left_join sample_world sample_zones _) Hnd)).
Defined.

(** ** The degenerate colour scale *)

Lemma threshold_first (vmin vmax : Q) (n : nat) :
  (2 <= n)%nat ->
  exists t, threshold (Fin vmin) (Fin vmax) n 0 = Fin t /\ (t == vmin)%Q.
Proof.
  intros Hn. unfold threshold. simpl num_mul. simpl num_sub.
  unfold num_div.
  destruct (Qeq_bool (inject_Z (Z.of_nat n - 1)) 0) eqn:Hz.
  - apply Qeq_bool_iff in Hz. unfold Qeq, inject_Z in Hz. simpl in Hz. lia.
  - simpl. eexists. split; [reflexivity|].
    apply Qeq_bool_neq in Hz.
    change (inject_Z (Z.of_nat 0)) with 0%Q. field. exact Hz.
Qed.

(** A value at or below [vmin] is drawn in the first hue. *)
Lemma colormap_call_low (vmin vmax x : Q) (cm : LinearColormap) :
  LinearColormap_init palette (Fin vmin) (Fin vmax) = inr cm ->
  (x <= vmin)%Q ->
  colormap_call cm (Fin x) = inr "#ffeda0ff".
Proof.
  unfold LinearColormap_init. simpl length.
  change ((7 <? 2)%nat) with false. cbv iota. intros Hcm. inversion Hcm; subst cm; clear Hcm.
  intros Hle.
  destruct (threshold_first vmin vmax 7 ltac:(lia)) as [t [Ht Heq]].
  unfold colormap_call, rgba_floats_tuple.
  cbn [cm_index cm_colors seq map py_get Z.ltb Z.compare length].
  change (Z.to_nat 0) with 0%nat. cbn [nth_error].
  rewrite Ht. cbn [num_le].
  assert (Hb : Qle_bool x t = true).
  { apply Qle_bool_iff. rewrite Heq. exact Hle. }
  rewrite Hb. vm_compute. reflexivity.
Qed.

Lemma fold_Qmin_in (t : list Q) (q : Q) : List.In (fold_left Qmin t q) (q :: t).
Proof.
  revert q. induction t as [|a t IH]; intros q; simpl; [auto|].
  destruct (IH (Qmin q a)) as [H|H].
  - rewrite <- H. unfold Qmin. destruct (Qle_bool q a); [left|right; left]; reflexivity.
  - right; right; exact H.
Qed.

Lemma fold_Qmax_in (t : list Q) (q : Q) : List.In (fold_left Qmax t q) (q :: t).
Proof.
  revert q. induction t as [|a t IH]; intros q; simpl; [auto|].
  destruct (IH (Qmax q a)) as [H|H].
  - rewrite <- H. unfold Qmax. destruct (Qle_bool q a); [right; left|left]; reflexivity.
  - right; right; exact H.
Qed.

Lemma dropna_in (s : list num) (q : Q) :
  List.In q (dropna s) <-> List.In (Fin q) s.
Proof.
  induction s as [|[|q'] s IH]; simpl.
  - tauto.
  - rewrite IH. split; [auto|]. intros [H|H]; [discriminate|exact H].
  - rewrite IH. split; intros [H|H]; auto; left; congruence.
Qed.

(** The minimum and the maximum of a column are NaN, or cells of it. *)
Lemma series_min_cases (s : list num) :
  (series_min s = NaN /\ dropna s = [])
  \/ exists m, series_min s = Fin m /\ List.In (Fin m) s.
Proof.
  unfold series_min. destruct (dropna s) as [|q t] eqn:Hd; [left; auto|].
  right. eexists. split; [reflexivity|].
  apply dropna_in. rewrite Hd. apply fold_Qmin_in.
Qed.

Lemma series_max_cases (s : list num) :
  (series_max s = NaN /\ dropna s = [])
  \/ exists m, series_max s = Fin m /\ List.In (Fin m) s.
Proof.
  unfold series_max. destruct (dropna s) as [|q t] eqn:Hd; [left; auto|].
  right. eexists. split; [reflexivity|].
  apply dropna_in. rewrite Hd. apply fold_Qmax_in.
Qed.

(** After the fill every demand of the merged frame is a number. *)
Lemma join_zones_finite (E : External) (zones : list ZoneRow)
  (preds : list PredictionRow) (j : JoinedRow) :
  List.In j (join_zones E zones preds) -> exists q, j_predicted_demand j = Fin q.
Proof.
  intros Hin. destruct (join_zones_in E zones preds j Hin) as [z [j0 [_ [_ ->]]]].
  simpl. destruct (j_predicted_demand j0); simpl; eauto.
Qed.

Lemma style_features_flat (cm : LinearColormap) (rows : list JoinedRow) (c : string) :
  (forall j, List.In j rows -> colormap_call cm (j_predicted_demand j) = inr c) ->
  style_features cm rows
  = inr (map (fun j => (j, {| fillColor := c; color := "black"; weight := 1;
                              fillOpacity := 7 # 10 |})) rows).
Proof.
  induction rows as [|j rows IH]; intros H; simpl; [reflexivity|].
  unfold style_function. rewrite (H j) by (left; reflexivity).
  rewrite IH by (intros j' Hj'; apply H; right; exact Hj'). reflexivity.
Qed.

(** Rows of (pairwise) equal demand: the scale is built and every row is
    drawn in its first hue. *)
Lemma style_equal_demands (rows : list JoinedRow) :
  (forall j, List.In j rows -> exists q, j_predicted_demand j = Fin q) ->
  (forall j1 j2, List.In j1 rows -> List.In j2 rows ->
     num_eq (j_predicted_demand j1) (j_predicted_demand j2) = true) ->
  exists cm,
    LinearColormap_init palette (series_min (map j_predicted_demand rows))
                        (series_max (map j_predicted_demand rows)) = inr cm
    /\ style_features cm rows = inr (map (fun j => (j, flat_style)) rows).
Proof.
  intros Hfin Heq.
  destruct (LinearColormap_init palette
              (series_min (map j_predicted_demand rows))
              (series_max (map j_predicted_demand rows))) as [e|cm] eqn:Hcm.
  { unfold LinearColormap_init in Hcm. simpl in Hcm. discriminate Hcm. }
  exists cm. split; [reflexivity|].
  apply style_features_flat. intros j Hj.
  destruct (Hfin j Hj) as [x Hx].
  assert (Hxin : List.In (Fin x) (map j_predicted_demand rows)).
  { rewrite <- Hx. apply List.in_map. exact Hj. }
  destruct (series_min_cases (map j_predicted_demand rows)) as [[_ Hnil]|[m [Hm Hmin]]].
  { apply dropna_in in Hxin. rewrite Hnil in Hxin. destruct Hxin. }
  destruct (series_max_cases (map j_predicted_demand rows)) as [[_ Hnil]|[M [HM _]]].
  { apply dropna_in in Hxin. rewrite Hnil in Hxin. destruct Hxin. }
  rewrite Hm, HM in Hcm. rewrite Hx.
  apply (colormap_call_low m M x cm Hcm).
  apply List.in_map_iff in Hmin. destruct Hmin as [jm [Hjm Hjmin]].
  specialize (Heq j jm Hj Hjmin). rewrite Hx, Hjm in Heq. simpl in Heq.
  apply Qeq_bool_iff in Heq. rewrite Heq. apply Qle_refl.
Qed.

(** The run of [create_taxi_map] on a frame of equal demands. *)
Lemma create_taxi_map_equal_demands (E : External) (s : state) (shp : path)
  (preds : list PredictionRow) (zones : list ZoneRow) :
  gpd_read_file E (disk s) shp = inr zones ->
  (forall j1 j2, List.In j1 (join_zones E zones preds) ->
     List.In j2 (join_zones E zones preds) ->
     num_eq (j_predicted_demand j1) (j_predicted_demand j2) = true) ->
  exists cm,
    let m := folium_Map cm (map (fun j => (j, flat_style))
                                (join_zones E zones preds)) in
    create_taxi_map E shp preds s
    = (with_session s {| map_created := Some true; map_obj := Some m |}, inr m).
Proof.
  intros Hread Heq.
  destruct (style_equal_demands (join_zones E zones preds)
              (join_zones_finite E zones preds) Heq) as [cm [Hcm Hst]].
  exists cm. unfold create_taxi_map, bind, get_disk, lift, ret, set_session.
  rewrite Hread. cbv beta iota. rewrite Hcm. cbv beta iota.
  rewrite Hst. reflexivity.
Qed.

(** C2: when all demands of the merged frame are equal, [create_taxi_map]
    returns the map without raising, the layer has one feature per row of
    the merged frame, and the style function gives every one of them the
    same fill colour (the first hue of the scale). *)
Theorem create_taxi_map_degenerate (E : External) (s : state) (shp : path)
  (preds : list PredictionRow) (zones : list ZoneRow) :
  gpd_read_file E (disk s) shp = inr zones ->
  (forall j1 j2, List.In j1 (join_zones E zones preds) ->
     List.In j2 (join_zones E zones preds) ->
     num_eq (j_predicted_demand j1) (j_predicted_demand j2) = true) ->
  exists m,
    snd (create_taxi_map E shp preds s) = inr m
    /\ map fst (layer m) = join_zones E zones preds
    /\ forall f1 st1 f2 st2,
         List.In (f1, st1) (layer m) -> List.In (f2, st2) (layer m) ->
         fillColor st1 = fillColor st2 /\ fillColor st1 = "#ffeda0ff".
Proof.
  intros Hread Heq.
  destruct (create_taxi_map_equal_demands E s shp preds zones Hread Heq)
    as [cm Hrun].
  cbv zeta in Hrun. eexists. rewrite Hrun. split; [reflexivity|]. split.
  - simpl. rewrite List.map_map. simpl. apply List.map_id.
  - simpl. intros f1 st1 f2 st2 H1 H2.
    apply List.in_map_iff in H1. destruct H1 as [j1 [H1 _]].
    apply List.in_map_iff in H2. destruct H2 as [j2 [H2 _]].
    inversion H1; inversion H2; subst. split; reflexivity.
Qed.

(** The map of the sample zones without any prediction: all demands are 0. *)
Lemma create_taxi_map_degenerate_sample :
  exists m,
    snd (create_taxi_map sample_world ["data"; "taxi_zones"; "taxi_zones.shp"]
           [] warm_start) = inr m
    /\ map fst (layer m) = join_zones sample_world sample_zones [].
Proof.
  destruct (create_taxi_map_degenerate sample_world warm_start
              ["data"; "taxi_zones"; "taxi_zones.shp"] [] sample_zones)
    as [m [Hm [Hl _]]].
  - vm_compute. reflexivity.
  - intros j1 j2 H1 H2. vm_compute in H1, H2.
    repeat (destruct H1 as [<-|H1]); try contradiction;
      repeat (destruct H2 as [<-|H2]); try contradiction; reflexivity.
  - exists m. split; assumption.
Defined.

(** ** The shapefile cache *)

Lemma lookup_node_snoc (d : gmap path node) (p : path) (c : string) :
  lookup_node d (p ++ [c]) = d !! (p ++ [c]).
Proof. destruct p; reflexivity. Qed.

Lemma mkdir_rev_existing (rp : list string) (s : state) :
  lookup_node (disk s) (rev rp) = Some Dir -> mkdir_rev rp s = (s, inr tt).
Proof.
  intros H. destruct rp as [|c rp]; cbn [mkdir_rev]; unfold bind, get_disk;
    rewrite H; reflexivity.
Qed.

Lemma mkdir_existing (p : path) (s : state) :
  lookup_node (disk s) p = Some Dir ->
  mkdir_parents_exist_ok p s = (s, inr tt).
Proof.
  intros H. unfold mkdir_parents_exist_ok. apply mkdir_rev_existing.
  rewrite rev_involutive. exact H.
Qed.

Lemma path_exists_true (p : path) (s : state) :
  is_Some (lookup_node (disk s) p) -> path_exists p s = (s, inr true).
Proof.
  intros H. unfold path_exists, bind, get_disk, ret.
  rewrite bool_decide_eq_true_2 by exact H. reflexivity.
Qed.

Lemma path_exists_false (p : path) (s : state) :
  lookup_node (disk s) p = None -> path_exists p s = (s, inr false).
Proof.
  intros H. unfold path_exists, bind, get_disk, ret.
  rewrite bool_decide_eq_false_2; [reflexivity|].
  rewrite H. intros [x Hx]. discriminate Hx.
Qed.

(** With the directory, the archive and the shapefile in place the call
    only reads. *)
Lemma load_cached (E : External) (data_dir : path) (url : string) (s : state) :
  lookup_node (disk s) data_dir = Some Dir ->
  is_Some (lookup_node (disk s) (zip_path_of data_dir)) ->
  is_Some (lookup_node (disk s) (shapefile_path_of data_dir)) ->
  load_shape_data_file E data_dir url s = (s, read_cached E data_dir s).
Proof.
  intros Hdir Hzip Hshp. unfold load_shape_data_file.
  unfold bind at 1. rewrite (mkdir_existing _ _ Hdir).
  unfold bind at 1. rewrite (path_exists_true _ _ Hzip).
  unfold bind at 1. unfold ret at 1.
  unfold bind at 1. rewrite (path_exists_true _ _ Hshp).
  unfold bind at 1. unfold ret at 1.
  unfold bind, get_disk, lift, read_cached.
  destruct (gpd_read_file E (disk s) (shapefile_path_of data_dir)); reflexivity.
Qed.

(** A first call on an empty disk: one directory, one request, the
    archive, the directory of the shapefile and the shapefile; a second
    call on the disk it leaves adds nothing. *)
Example load_cold_then_warm :
  let first := load_shape_data_file sample_world ["data"] default_url cold_start in
  let second := load_shape_data_file sample_world ["data"] default_url (fst first) in
  io_log (fst first)
  = [Mkdir ["data"]; HttpGet default_url 10;
     WriteFile ["data"; "taxi_zones.zip"] good_archive;
     Mkdir ["data"; "taxi_zones"];
     WriteFile ["data"; "taxi_zones"; "taxi_zones.shp"] [Byte.x00]]
  /\ disk (fst first) !! ["data"; "taxi_zones"; "taxi_zones.shp"]
     = Some (File [Byte.x00])
  /\ io_log (fst second) = io_log (fst first)
  /\ snd second = inr sample_zones.
Proof. vm_compute. repeat split. Qed.

(** C3: in a data directory that holds [taxi_zones.zip] and
    [taxi_zones/taxi_zones.shp], [load_shape_data_file] leaves the state as
    it found it: the log of network requests, directory creations and file
    writes gets no entry and the disk is the same; so does any number of
    calls in a row. *)
Theorem load_shape_data_file_cached (E : External) (data_dir : path)
  (url : string) (s : state) :
  lookup_node (disk s) data_dir = Some Dir ->
  is_Some (lookup_node (disk s) (zip_path_of data_dir)) ->
  is_Some (lookup_node (disk s) (shapefile_path_of data_dir)) ->
  io_log (fst (load_shape_data_file E data_dir url s)) = io_log s
  /\ disk (fst (load_shape_data_file E data_dir url s)) = disk s
  /\ snd (load_shape_data_file E data_dir url s) = read_cached E data_dir s
  /\ forall n : nat,
       Nat.iter n (fun st => fst (load_shape_data_file E data_dir url st)) s = s.
Proof.
  intros Hdir Hzip Hshp.
  pose proof (load_cached E data_dir url s Hdir Hzip Hshp) as Hrun.
  rewrite Hrun. simpl. repeat split.
  intros n. induction n as [|n IH]; simpl; [reflexivity|].
  rewrite IH, Hrun. reflexivity.
Qed.

(** A call on the warm disk. *)
Lemma load_shape_data_file_cached_sample :
  io_log (fst (load_shape_data_file sample_world ["data"] default_url warm_start))
  = [] /\ disk (fst (load_shape_data_file sample_world ["data"] default_url
                       warm_start)) = warm_disk.
Proof.
  assert (H1 : lookup_node (disk warm_start) ["data"] = Some Dir)
    by (vm_compute; reflexivity).
  assert (H2 : is_Some (lookup_node (disk warm_start) (zip_path_of ["data"])))
    by (vm_compute; eexists; reflexivity).
  assert (H3 : is_Some (lookup_node (disk warm_start)
                          (shapefile_path_of ["data"])))
    by (vm_compute; eexists; reflexivity).
  destruct (load_shape_data_file_cached sample_world ["data"] default_url
              warm_start H1 H2 H3) as [Hlog [Hdisk _]].
  split; [exact Hlog|exact Hdisk].
Defined.

Lemma raise_for_status_error (url : string) (r : Response) :
  400 <= status_code r < 600 ->
  exists msg, raise_for_status url r = Some (HTTPError msg).
Proof.
  intros H. unfold raise_for_status.
  destruct ((400 <=? status_code r) && (status_code r <? 500)) eqn:H4;
    [eexists; reflexivity|].
  destruct ((500 <=? status_code r) && (status_code r <? 600)) eqn:H5;
    [eexists; reflexivity|].
  exfalso.
  apply andb_false_iff in H4. apply andb_false_iff in H5.
  rewrite Z.leb_gt, Z.ltb_ge in H4. rewrite Z.leb_gt, Z.ltb_ge in H5. lia.
Qed.

Lemma raise_for_status_quiet (url : string) (r : Response) :
  status_code r < 400 \/ 600 <= status_code r ->
  raise_for_status url r = None.
Proof.
  intros H. unfold raise_for_status.
  destruct (Z.leb_spec 400 (status_code r)), (Z.ltb_spec (status_code r) 500),
    (Z.leb_spec 500 (status_code r)), (Z.ltb_spec (status_code r) 600);
    simpl; try reflexivity; lia.
Qed.

(** The request raises: the call stops with the download failure, after
    the request and before any write. *)
Lemma load_request_raises (E : External) (data_dir : path) (url : string)
  (s s1 : state) (e : exn) :
  mkdir_parents_exist_ok data_dir s = (s1, inr tt) ->
  lookup_node (disk s1) (zip_path_of data_dir) = None ->
  requests_get E url 10 = inl e ->
  is_RequestException e = true ->
  load_shape_data_file E data_dir url s
  = (with_log s1 [HttpGet url 10], inl (download_failure e)).
Proof.
  intros Hmk Hzip Hget Hreq. unfold load_shape_data_file.
  unfold bind at 1. rewrite Hmk.
  unfold bind at 1. rewrite (path_exists_false _ _ Hzip).
  unfold bind at 1. unfold try_except at 1.
  unfold bind at 1. unfold log_io at 1.
  unfold bind at 1. rewrite Hget. unfold lift at 1. unfold raise at 1.
  rewrite Hreq. reflexivity.
Qed.

(** The response has an error status: the same. *)
Lemma load_status_error (E : External) (data_dir : path) (url : string)
  (s s1 : state) (r : Response) (e : exn) :
  mkdir_parents_exist_ok data_dir s = (s1, inr tt) ->
  lookup_node (disk s1) (zip_path_of data_dir) = None ->
  requests_get E url 10 = inr r ->
  raise_for_status url r = Some e ->
  is_RequestException e = true ->
  load_shape_data_file E data_dir url s
  = (with_log s1 [HttpGet url 10], inl (download_failure e)).
Proof.
  intros Hmk Hzip Hget Hst Hreq. unfold load_shape_data_file.
  unfold bind at 1. rewrite Hmk.
  unfold bind at 1. rewrite (path_exists_false _ _ Hzip).
  unfold bind at 1. unfold try_except at 1.
  unfold bind at 1. unfold log_io at 1.
  unfold bind at 1. rewrite Hget. unfold lift at 1. unfold ret at 1.
  rewrite Hst. unfold raise at 1. rewrite Hreq. reflexivity.
Qed.

Lemma zip_shapefile_differ (data_dir : path) :
  zip_path_of data_dir <> shapefile_path_of data_dir.
Proof.
  unfold zip_path_of, shapefile_path_of. intros H.
  apply (f_equal (@length string)) in H.
  rewrite !length_app in H. simpl in H. lia.
Qed.

(** ** The filter, the table and the statistics *)

Lemma isin_In (values : list Z) (x : Z) :
  isin values x = true <-> List.In x values.
Proof.
  unfold isin. rewrite List.existsb_exists. split.
  - intros [y [Hy Heq]]. apply Z.eqb_eq in Heq. subst. exact Hy.
  - intros H. exists x. split; [exact H|apply Z.eqb_refl].
Qed.

Lemma isin_false (values : list Z) (x : Z) :
  ~ List.In x values -> isin values x = false.
Proof.
  intros H. destruct (isin values x) eqn:Hi; [|reflexivity].
  apply isin_In in Hi. contradiction.
Qed.

(** C4: with the prediction table [{1, 50}, {2, 200}, {3, 10}] and a
    borough whose zone identifiers are 1 and 3, the ranked table is the row
    of zone 1 (50) followed by the row of zone 3 (10), and the three
    statistics are printed as 30, 50 and 10. *)
Theorem borough_1_3_table_and_statistics (l1 l2 l3 : Z) (location_ids : list Z) :
  (forall z, List.In z location_ids <-> z = 1 \/ z = 3) ->
  let filtered_predictions :=
    filter_predictions location_ids
      [prediction l1 1 50; prediction l2 2 200; prediction l3 3 10] in
  ranked_table filtered_predictions = [prediction l1 1 50; prediction l3 3 10]
  /\ average_rides filtered_predictions = "30"
  /\ maximum_rides filtered_predictions = "50"
  /\ minimum_rides filtered_predictions = "10"
  /\ top10 filtered_predictions = [1; 3].
Proof.
  intros Hids filtered_predictions.
  assert (H1 : isin location_ids 1 = true) by (apply isin_In, Hids; auto).
  assert (H3 : isin location_ids 3 = true) by (apply isin_In, Hids; auto).
  assert (H2 : isin location_ids 2 = false).
  { apply isin_false. intros H. apply Hids in H. lia. }
  assert (Hf : filtered_predictions = [prediction l1 1 50; prediction l3 3 10]).
  { unfold filtered_predictions, filter_predictions. simpl.
    rewrite H1, H2, H3. reflexivity. }
  rewrite Hf. repeat split; vm_compute; reflexivity.
Qed.

(** The sample table with the identifiers [1; 3]. *)
Lemma borough_1_3_table_and_statistics_sample :
  ranked_table (filter_predictions [1; 3] sample_predictions)
  = [prediction 0 1 50; prediction 2 3 10]
  /\ average_rides (filter_predictions [1; 3] sample_predictions) = "30".
Proof.
  assert (Hids : forall z, List.In z [1; 3] <-> z = 1 \/ z = 3).
  { intros z. simpl. intuition lia. }
  destruct (borough_1_3_table_and_statistics 0 1 2 [1; 3] Hids)
    as [Ht [Ha _]].
  split; [exact Ht|exact Ha].
Defined.

Lemma filter_agree (location_ids : list Z) (t1 t2 : list PredictionRow) :
  agree_on (in_borough location_ids) t1 t2 ->
  filter_predictions location_ids t1 = filter_predictions location_ids t2.
Proof.
  unfold filter_predictions.
  induction 1 as [|r t1 t2 Hk _ IH|r t1 t2 Hk _ IH|r t1 t2 Hk _ IH];
    simpl; [reflexivity| | |];
    unfold in_borough in Hk; rewrite Hk; congruence.
Qed.

(** C9: two prediction tables that agree on the rows of the selected
    borough give the same filtered table, the same ranked table, the same
    three statistics and the same list of plotted zones; the whole display
    stage is the same computation on both. *)
Theorem display_depends_on_borough_rows (E : External)
  (features : list FeatureRow) (t1 t2 : list PredictionRow) :
  let location_ids := location_ids_of (selectbox_value E borough_options) in
  agree_on (in_borough location_ids) t1 t2 ->
  filter_predictions location_ids t1 = filter_predictions location_ids t2
  /\ ranked_table (filter_predictions location_ids t1)
     = ranked_table (filter_predictions location_ids t2)
  /\ average_rides (filter_predictions location_ids t1)
     = average_rides (filter_predictions location_ids t2)
  /\ maximum_rides (filter_predictions location_ids t1)
     = maximum_rides (filter_predictions location_ids t2)
  /\ minimum_rides (filter_predictions location_ids t1)
     = minimum_rides (filter_predictions location_ids t2)
  /\ top10 (filter_predictions location_ids t1)
     = top10 (filter_predictions location_ids t2)
  /\ display_stage E features t1 = display_stage E features t2.
Proof.
  intros location_ids Hagree.
  pose proof (filter_agree location_ids t1 t2 Hagree) as Hf.
  repeat split; try (rewrite Hf; reflexivity).
  unfold display_stage. fold location_ids. rewrite Hf. reflexivity.
Qed.

(** The sample table and another one with the same row for the Bronx. *)
Lemma display_depends_on_borough_rows_sample :
  ranked_table (filter_predictions [3] sample_predictions)
  = ranked_table (filter_predictions [3]
                    [prediction 7 2 999; prediction 2 3 10; prediction 9 1 0]).
Proof.
  assert (Hagree : agree_on
            (in_borough (location_ids_of
                           (selectbox_value sample_world borough_options)))
            sample_predictions
            [prediction 7 2 999; prediction 2 3 10; prediction 9 1 0]).
  { unfold sample_predictions.
    apply agree_left; [reflexivity|].
    apply agree_left; [reflexivity|].
    apply agree_right; [reflexivity|].
    apply agree_both; [reflexivity|].
    apply agree_right; [reflexivity|].
    apply agree_nil. }
  exact (proj1 (proj2 (display_depends_on_borough_rows sample_world
                         sample_features _ _ Hagree))).
Defined.

Lemma insert_desc_length (r : PredictionRow) (l : list PredictionRow) :
  length (insert_desc r l) = S (length l).
Proof.
  induction l as [|h t IH]; simpl; [reflexivity|].
  destruct (sorts_before _ _); simpl; [rewrite IH|]; reflexivity.
Qed.

Lemma sort_values_desc_length (t : list PredictionRow) :
  length (sort_values_desc t) = length t.
Proof.
  unfold sort_values_desc.
  induction t as [|r t IH]; simpl; [reflexivity|].
  rewrite insert_desc_length. f_equal. exact IH.
Qed.

Lemma insert_desc_perm (r : PredictionRow) (l : list PredictionRow) :
  Permutation (r :: l) (insert_desc r l).
Proof.
  induction l as [|h t IH]; simpl; [apply Permutation_refl|].
  destruct (sorts_before _ _); [|apply Permutation_refl].
  eapply perm_trans; [apply perm_swap|]. apply perm_skip. exact IH.
Qed.

(** The sort only reorders the rows. *)
Lemma sort_values_desc_perm (t : list PredictionRow) :
  Permutation t (sort_values_desc t).
Proof.
  induction t as [|r t IH]; simpl; [apply perm_nil|].
  eapply perm_trans; [apply perm_skip; exact IH|]. apply insert_desc_perm.
Qed.

Lemma sorts_before_asym (a b : num) :
  sorts_before a b = true -> sorts_before b a = false.
Proof.
  destruct a as [|x], b as [|y]; simpl; try reflexivity; try discriminate.
  intros H. apply negb_true_iff in H. apply negb_false_iff.
  apply Qle_bool_iff.
  destruct (Qlt_le_dec y x) as [Hlt|Hle]; [apply Qlt_le_weak; exact Hlt|].
  apply Qle_bool_iff in Hle. congruence.
Qed.

Lemma insert_desc_head (h r : PredictionRow) (t : list PredictionRow) :
  ranks_above h r -> HdRel ranks_above h t ->
  HdRel ranks_above h (insert_desc r t).
Proof.
  intros Hr Ht. destruct t as [|h' t]; simpl; [constructor; exact Hr|].
  destruct (sorts_before _ _); constructor; [|exact Hr].
  inversion Ht; assumption.
Qed.

Lemma insert_desc_sorted (r : PredictionRow) (l : list PredictionRow) :
  Sorted ranks_above l -> Sorted ranks_above (insert_desc r l).
Proof.
  induction l as [|h t IH]; simpl; intros Hs.
  - repeat constructor.
  - inversion Hs as [|? ? Ht Hh]; subst.
    destruct (sorts_before (predicted_demand h) (predicted_demand r)) eqn:Hb.
    + constructor; [apply IH; exact Ht|].
      apply insert_desc_head; [|exact Hh].
      unfold ranks_above. apply sorts_before_asym. exact Hb.
    + constructor; [exact Hs|]. constructor. exact Hb.
Qed.

(** The sorted table is in descending order of demand, NaN last. *)
Lemma sort_values_desc_sorted (t : list PredictionRow) :
  Sorted ranks_above (sort_values_desc t).
Proof.
  unfold sort_values_desc.
  induction t as [|r t IH]; simpl; [constructor|].
  apply insert_desc_sorted. exact IH.
Qed.

(** ** The borough table *)

Lemma location_mapping_get_In (k : Z) (b : string) :
  location_mapping_get k = Some b -> List.In (k, b) location_mapping.
Proof.
  unfold location_mapping_get.
  destruct (List.find _ location_mapping) as [[k' b']|] eqn:Hf; simpl;
    [|discriminate].
  intros H. injection H as <-.
  apply List.find_some in Hf. destruct Hf as [Hin Hk]. simpl in Hk.
  apply Z.eqb_eq in Hk. subst k'. exact Hin.
Qed.

Lemma location_mapping_get_of_entry (k : Z) (b : string) :
  List.In (k, b) location_mapping -> location_mapping_get k = Some b.
Proof.
  intros H. cbn in H.
  repeat (destruct H as [H|H]; [injection H as <- <-; reflexivity|]).
  destruct H.
Qed.

Lemma location_ids_of_get (b : string) (k : Z) :
  List.In k (location_ids_of b) <-> location_mapping_get k = Some b.
Proof.
  unfold location_ids_of. rewrite List.in_map_iff. split.
  - intros [[k' b'] [Hk Hin]]. cbn in Hk. subst k'.
    apply List.filter_In in Hin. destruct Hin as [Hin Hb]. cbn in Hb.
    apply String.eqb_eq in Hb. subst b'.
    apply location_mapping_get_of_entry. exact Hin.
  - intros H. apply location_mapping_get_In in H. exists (k, b).
    split; [reflexivity|]. apply List.filter_In. split; [exact H|].
    cbn. apply String.eqb_refl.
Qed.

(** The identifiers of the table are 1 to 15 and 132. *)
Lemma location_mapping_keys (z : Z) (b : string) :
  location_mapping_get z = Some b -> 1 <= z <= 15 \/ z = 132.
Proof.
  intros H. apply location_mapping_get_In in H. cbn in H.
  repeat (destruct H as [H|H]; [injection H as <- <-; lia|]).
  destruct H.
Qed.

(** C8: the table of lines 31-36 is not the complete one.  It ends after
    sixteen entries, the identifiers 1 to 15 and 132, under the comment
    "Add all remaining mappings...": an identifier from 16 to 263 other
    than 132 has no borough, is in the list of identifiers of no borough,
    and a prediction row for it is in the filtered table of no borough, so
    it is never shown.  (Of the entries that are there, that of zone 1
    names EWR, which is none of the five boroughs.) *)
Theorem location_mapping_is_truncated :
  length location_mapping = 16%nat
  /\ location_mapping_get 16 = None
  /\ (forall z, 16 <= z <= 263 -> z <> 132 -> location_mapping_get z = None)
  /\ (forall z b, 16 <= z <= 263 -> z <> 132 ->
        ~ List.In z (location_ids_of b))
  /\ (forall z b predictions r, 16 <= z <= 263 -> z <> 132 ->
        pickup_location_id r = z ->
        ~ List.In r (filter_predictions (location_ids_of b) predictions))
  /\ location_mapping_get 1 = Some "EWR"
  /\ ~ List.In "EWR" five_boroughs.
Proof.
  assert (Hnone : forall z, 16 <= z <= 263 -> z <> 132 ->
                    location_mapping_get z = None).
  { intros z Hz Hne. destruct (location_mapping_get z) as [b|] eqn:Hb;
      [|reflexivity].
    apply location_mapping_keys in Hb. lia. }
  assert (Hids : forall z b, 16 <= z <= 263 -> z <> 132 ->
                   ~ List.In z (location_ids_of b)).
  { intros z b Hz Hne Hin. apply location_ids_of_get in Hin.
    rewrite (Hnone z Hz Hne) in Hin. discriminate Hin. }
  split; [reflexivity|]. split; [reflexivity|]. split; [exact Hnone|].
  split; [exact Hids|]. split; [|split; [reflexivity|]].
  - intros z b predictions r Hz Hne Hr Hin.
    unfold filter_predictions in Hin. apply List.filter_In in Hin.
    destruct Hin as [_ Hin]. apply (proj1 (isin_In _ _)) in Hin.
    rewrite Hr in Hin. exact (Hids z b Hz Hne Hin).
  - cbn. intros H.
    repeat (destruct H as [H|H]; [discriminate H|]). exact H.
Qed.

(** ** What a step leaves alone *)

Lemma keeps_ret {A : Type} (x : A) : keeps_ui (ret x).
Proof. intros s. split; reflexivity. Qed.

Lemma keeps_raise {A : Type} (e : exn) : keeps_ui (@raise A e).
Proof. intros s. split; reflexivity. Qed.

Lemma keeps_lift {A : Type} (r : exn + A) : keeps_ui (lift r).
Proof. destruct r; [apply keeps_raise|apply keeps_ret]. Qed.

Lemma keeps_get_disk : keeps_ui get_disk.
Proof. intros s. split; reflexivity. Qed.

Lemma keeps_do_io (e : io_event) (d : gmap path node) : keeps_ui (do_io e d).
Proof. intros s. split; reflexivity. Qed.

Lemma keeps_log_io (e : io_event) : keeps_ui (log_io e).
Proof. intros s. split; reflexivity. Qed.

Lemma keeps_bind {A B : Type} (c : M A) (k : A -> M B) :
  keeps_ui c -> (forall x, keeps_ui (k x)) -> keeps_ui (bind c k).
Proof.
  intros Hc Hk s. unfold bind. specialize (Hc s).
  destruct (c s) as [s' [e|x]]; simpl in *; [exact Hc|].
  destruct (Hk x s') as [Hp Hs]. destruct Hc as [Hp' Hs'].
  split; congruence.
Qed.

Lemma keeps_try_except {A : Type} (c : M A) (catches : exn -> bool)
  (handler : exn -> exn) :
  keeps_ui c -> keeps_ui (try_except c catches handler).
Proof.
  intros Hc s. unfold try_except. specialize (Hc s).
  destruct (c s) as [s' [e|x]]; simpl in *; [|exact Hc].
  destruct (catches e); exact Hc.
Qed.

Create HintDb keeps.

#[local] Hint Resolve keeps_ret keeps_raise keeps_lift keeps_get_disk
  keeps_do_io keeps_log_io keeps_try_except : keeps.

Lemma keeps_mkdir_rev (rp : list string) : keeps_ui (mkdir_rev rp).
Proof.
  induction rp as [|c rp IH]; cbn [mkdir_rev]; apply keeps_bind;
    auto with keeps; intros d.
  destruct (lookup_node d (rev (c :: rp))) as [[|]|]; auto with keeps.
  destruct (lookup_node d (rev rp)) as [[|]|]; auto with keeps.
  apply keeps_bind; [exact IH|]. intros _.
  apply keeps_bind; auto with keeps.
Qed.

Lemma keeps_write_bytes (p : path) (body : list Byte.byte) :
  keeps_ui (write_bytes p body).
Proof.
  unfold write_bytes. apply keeps_bind; auto with keeps. intros d.
  destruct (lookup_node d p) as [[|]|]; auto with keeps.
Qed.

Lemma keeps_path_exists (p : path) : keeps_ui (path_exists p).
Proof. unfold path_exists. apply keeps_bind; auto with keeps. Qed.

Lemma keeps_try_pass (c : M unit) (catches : exn -> bool) :
  keeps_ui c -> keeps_ui (try_pass c catches).
Proof.
  intros Hc s. unfold try_pass. specialize (Hc s).
  destruct (c s) as [s' [e|x]]; simpl in *; [|exact Hc].
  destruct (catches e); exact Hc.
Qed.

Lemma keeps_os_mkdir (p : path) : keeps_ui (os_mkdir p).
Proof.
  unfold os_mkdir. apply keeps_bind; auto with keeps. intros d.
  destruct (lookup_node d p) as [n|]; auto with keeps.
  destruct (lookup_node d (removelast p)) as [[|]|]; auto with keeps.
Qed.

Lemma keeps_os_makedirs_rev (rp : list string) : keeps_ui (os_makedirs_rev rp).
Proof.
  induction rp as [|c rp IH]; cbn [os_makedirs_rev]; [apply keeps_os_mkdir|].
  apply keeps_bind; [apply keeps_path_exists|]. intros have_head.
  apply keeps_bind; [|intros _; apply keeps_os_mkdir].
  destruct have_head; [apply keeps_ret|]. apply keeps_try_pass. exact IH.
Qed.

Lemma keeps_open_wb (p : path) (body : list Byte.byte) :
  keeps_ui (open_wb p body).
Proof.
  unfold open_wb. apply keeps_bind; auto with keeps. intros d.
  destruct (lookup_node d (removelast p)) as [[|]|]; auto with keeps.
  apply keeps_write_bytes.
Qed.

Lemma keeps_extract_member (infolist : list ZipInfo) (target : path)
  (name : string) : keeps_ui (extract_member infolist target name).
Proof.
  unfold extract_member. destruct (getinfo infolist name) as [zinfo|];
    [|apply keeps_raise].
  apply keeps_bind; [apply keeps_path_exists|]. intros have_upperdirs.
  apply keeps_bind.
  { destruct have_upperdirs; [apply keeps_ret|apply keeps_os_makedirs_rev]. }
  intros _. destruct (ZipInfo_is_dir zinfo) as [e|[|]]; [apply keeps_raise| |].
  - unfold os_path_isdir. apply keeps_bind.
    + apply keeps_bind; auto with keeps.
    + intros [|]; [apply keeps_ret|apply keeps_os_mkdir].
  - destruct (member zinfo) as [body|e|written e];
      [apply keeps_open_wb|apply keeps_raise|].
    apply keeps_bind; [apply keeps_open_wb|]. intros _. apply keeps_raise.
Qed.

Lemma keeps_extractall (target : path) (infolist : list ZipInfo) :
  keeps_ui (extractall target infolist).
Proof.
  unfold extractall. generalize (map filename infolist). intros names.
  induction names as [|name rest IH]; cbn [extract_names]; [apply keeps_ret|].
  apply keeps_bind; [apply keeps_extract_member|]. intros _. exact IH.
Qed.

Lemma keeps_ZipFile_open (E : External) (p : path) : keeps_ui (ZipFile_open E p).
Proof.
  unfold ZipFile_open. apply keeps_bind; auto with keeps. intros d.
  destruct (lookup_node d p) as [[bytes|]|]; auto with keeps.
Qed.

(** The cache touches the disk and the network, not the page. *)
Lemma keeps_load_shape_data_file (E : External) (data_dir : path) (url : string) :
  keeps_ui (load_shape_data_file E data_dir url).
Proof.
  unfold load_shape_data_file.
  apply keeps_bind; [apply keeps_mkdir_rev|]. intros _.
  apply keeps_bind; [apply keeps_path_exists|]. intros have_zip.
  apply keeps_bind.
  { destruct have_zip; auto with keeps. apply keeps_try_except.
    apply keeps_bind; auto with keeps. intros _.
    apply keeps_bind; auto with keeps. intros r.
    destruct (raise_for_status url r); auto with keeps.
    apply keeps_write_bytes. }
  intros _. apply keeps_bind; [apply keeps_path_exists|]. intros have_shp.
  apply keeps_bind.
  { destruct have_shp; auto with keeps. apply keeps_try_except.
    apply keeps_bind; [apply keeps_ZipFile_open|]. intros members.
    apply keeps_extractall. }
  intros _. apply keeps_bind; auto with keeps. intros d.
  apply keeps_bind; auto with keeps.
Qed.

Lemma bind_inr_inv {A B : Type} (c : M A) (k : A -> M B) (s s' : state) (y : B) :
  bind c k s = (s', inr y) ->
  exists s1 x, c s = (s1, inr x) /\ k x s1 = (s', inr y).
Proof.
  unfold bind. destruct (c s) as [s1 [e|x]]; [discriminate|].
  intros H. exists s1, x. auto.
Qed.

(** A call that returns has read the zones from the shapefile on the disk
    it leaves. *)
Lemma load_returns_read (E : External) (data_dir : path) (url : string)
  (s s' : state) (z : list ZoneRow) :
  load_shape_data_file E data_dir url s = (s', inr z) ->
  exists gdf, gpd_read_file E (disk s') (shapefile_path_of data_dir) = inr gdf
              /\ z = map (reproject E) gdf.
Proof.
  unfold load_shape_data_file. intros H.
  apply bind_inr_inv in H. destruct H as [s1 [[] [_ H]]].
  apply bind_inr_inv in H. destruct H as [s2 [have_zip [_ H]]].
  apply bind_inr_inv in H. destruct H as [s3 [[] [_ H]]].
  apply bind_inr_inv in H. destruct H as [s4 [have_shp [_ H]]].
  apply bind_inr_inv in H. destruct H as [s5 [[] [_ H]]].
  unfold bind, get_disk, lift in H.
  destruct (gpd_read_file E (disk s5) (shapefile_path_of data_dir)) as [e|gdf] eqn:Hr;
    simpl in H; [discriminate|].
  unfold ret in H. injection H as <- <-. exists gdf. auto.
Qed.

(** ** The run of the script *)

Lemma intro_stage_run (E : External) (s : state) :
  intro_stage E s
  = ({| disk := disk s; io_log := io_log s;
        session := init_session_of (session s);
        page := page s ++ intro_elements E |}, inr tt).
Proof.
  unfold intro_stage, init_session, init_session_of, bind, get_session,
    set_session, show, ret, intro_elements.
  destruct s as [d l ss p]. simpl.
  destruct (map_created ss); simpl; rewrite <- !List.app_assoc; reflexivity.
Qed.

(** The fetch stage: where it stops and what it has shown by then. *)
Lemma fetch_stage_run (E : External) (s : state) :
  fetch_stage E s
  = match load_shape_data_file E (DATA_DIR E) default_url s with
    | (s', inl e) => (s', inl e)
    | (s', inr _) =>
        match load_batch_of_features_from_store E (current_time_utc E) with
        | inl e => (put s' (fetch_notes 1), inl e)
        | inr features =>
            match fetch_next_hour_predictions E with
            | inl e => (put s' (fetch_notes 2), inl e)
            | inr predictions =>
                (put s' (fetch_notes 3), inr (features, predictions))
            end
        end
    end.
Proof.
  unfold fetch_stage. unfold bind at 1.
  destruct (load_shape_data_file E (DATA_DIR E) default_url s) as [s' [e|z]];
    [reflexivity|].
  unfold bind, show, lift, ret, raise, put, with_page, fetch_notes.
  destruct s' as [d l ss p]. simpl.
  destruct (load_batch_of_features_from_store E (current_time_utc E)) as [e|f];
    simpl; [rewrite <- !List.app_assoc; reflexivity|].
  destruct (fetch_next_hour_predictions E) as [e|pr]; simpl;
    rewrite <- !List.app_assoc; reflexivity.
Qed.

Lemma script_run (E : External) (s : state) :
  script E s
  = match fetch_stage E (fst (intro_stage E s)) with
    | (s2, inl e) => (s2, inl e)
    | (s2, inr tables) => display_stage E (fst tables) (snd tables) s2
    end.
Proof.
  unfold script. unfold bind at 1. rewrite intro_stage_run. cbn [fst].
  unfold bind at 1. destruct (fetch_stage E _) as [s2 [e|tables]]; reflexivity.
Qed.

(** A whole run for the Bronx on an empty disk: the row of zone 3 in the
    table, 10 for each statistic, one chart. *)
Example bronx_run :
  snd (script sample_world cold_start) = inr tt
  /\ List.filter (fun x => negb (is_chrome x))
        (page (streamlit_run sample_world cold_start))
     = match map_obj (session (streamlit_run sample_world cold_start)) with
       | Some m =>
           [st_selectbox "Select a Borough:" borough_options;
            st_write "Showing predictions for: Bronx (LocationID(s): [3])";
            st_dataframe [prediction 2 3 10];
            st_subheader "Taxi Ride Predictions Map";
            st_folium m 800 600;
            st_subheader "Prediction Statistics";
            st_metric "Average Rides" "10";
            st_metric "Maximum Rides" "10";
            st_metric "Minimum Rides" "10";
            st_plotly_chart
              {| fig_features := [{| f_pickup_location_id := 3; pickup_hour := 0;
                                     rides := [Fin 8; Fin 12] |}];
                 fig_prediction := [prediction 2 3 10];
                 fig_body := "figure" |}]
       | None => []
       end
  /\ option_map (fun m => map (fun fs => (LocationID (j_zone (fst fs)),
                                           fillColor (snd fs))) (layer m))
        (map_obj (session (streamlit_run sample_world cold_start)))
     = Some [(1, "#ffeda0ff"); (2, "#ffeda0ff"); (3, "#bd0026ff")].
Proof. vm_compute. repeat split. Qed.

(** C6: when the shapefile cache, the feature fetch or the prediction
    fetch raises, the script stops there with that error: the page holds
    the title, the clock, the progress bar and the sidebar notes of the
    fetches that had succeeded, no borough filter, table, map, statistic or
    chart, and Streamlit shows the error below them. *)
Theorem fetch_failure_aborts (E : External) (s : state) (e : exn) :
  let loaded :=
    load_shape_data_file E (DATA_DIR E) default_url (fst (intro_stage E s)) in
  (snd loaded = inl e
   \/ (exists z, snd loaded = inr z
         /\ load_batch_of_features_from_store E (current_time_utc E) = inl e)
   \/ (exists z f, snd loaded = inr z
         /\ load_batch_of_features_from_store E (current_time_utc E) = inr f
         /\ fetch_next_hour_predictions E = inl e)) ->
  exists k : nat,
    snd (script E s) = inl e
    /\ page (fst (script E s)) = page s ++ intro_elements E ++ fetch_notes k
    /\ forallb is_chrome (intro_elements E ++ fetch_notes k) = true
    /\ page (streamlit_run E s)
       = page s ++ intro_elements E ++ fetch_notes k ++ [st_exception e].
Proof.
  intros loaded Hfail.
  assert (Hpage : page (fst loaded) = page s ++ intro_elements E).
  { unfold loaded.
    rewrite (proj1 (keeps_load_shape_data_file E (DATA_DIR E) default_url _)).
    rewrite intro_stage_run. reflexivity. }
  assert (Hrun : exists k, script E s = (put (fst loaded) (fetch_notes k), inl e)
                           /\ (k <= 2)%nat).
  { rewrite script_run, fetch_stage_run. fold loaded.
    destruct loaded as [s' r]. cbn [fst snd] in *.
    destruct Hfail as [->|[[z [-> Hf]]|[z [f [-> [Hf Hp]]]]]].
    - exists 0%nat. split; [|lia]. unfold put, with_page, fetch_notes. simpl.
      rewrite List.app_nil_r. destruct s'; reflexivity.
    - exists 1%nat. rewrite Hf. split; [reflexivity|lia].
    - exists 2%nat. rewrite Hf, Hp. split; [reflexivity|lia]. }
  destruct Hrun as [k [Hrun Hk]]. exists k.
  unfold streamlit_run. rewrite Hrun. cbn [fst snd put with_page page].
  rewrite Hpage, <- !List.app_assoc.
  repeat split.
  destruct k as [|[|[|k]]]; [reflexivity|reflexivity|reflexivity|lia].
Qed.

(** Runs in which the feature store, the download and the prediction store fail. *)
Lemma fetch_failure_aborts_sample :
  snd (script no_features_world cold_start)
  = inl (Raise "RestAPIError" "feature store unreachable")
  /\ snd (script timeout_world cold_start)
     = inl (Exception "Failed to download file: Read timed out. (read timeout=10)")
  /\ snd (script no_predictions_world cold_start)
     = inl (Raise "RestAPIError" "prediction store unreachable").
Proof.
  split; [|split].
  - destruct (fetch_failure_aborts no_features_world cold_start
                (Raise "RestAPIError" "feature store unreachable"))
      as [k [H _]]; [|exact H].
    right; left. eexists. split; vm_compute; reflexivity.
  - destruct (fetch_failure_aborts timeout_world cold_start
                (Exception "Failed to download file: Read timed out. (read timeout=10)"))
      as [k [H _]]; [|exact H].
    left. vm_compute. reflexivity.
  - destruct (fetch_failure_aborts no_predictions_world cold_start
                (Raise "RestAPIError" "prediction store unreachable"))
      as [k [H _]]; [|exact H].
    right; right. eexists. eexists. split; [|split]; vm_compute; reflexivity.
Defined.

(** ** A borough without predictions *)

Lemma filter_predictions_none (location_ids : list Z)
  (predictions : list PredictionRow) :
  (forall r, List.In r predictions ->
             isin location_ids (pickup_location_id r) = false) ->
  filter_predictions location_ids predictions = [].
Proof.
  unfold filter_predictions.
  induction predictions as [|r t IH]; intros H; simpl; [reflexivity|].
  rewrite (H r) by (left; reflexivity).
  apply IH. intros r' Hr'. apply H. right. exact Hr'.
Qed.

Lemma join_zones_no_predictions (E : External) (zones : list ZoneRow) :
  join_zones E zones [] = map (zero_row E) zones.
Proof.
  induction zones as [|z zones IH]; [reflexivity|].
  unfold join_zones, fillna_demand, merge_left, select_key_demand in *.
  simpl in *. f_equal. exact IH.
Qed.

Lemma dropna_zero_rows (E : External) (zones : list ZoneRow) :
  dropna (map j_predicted_demand (map (zero_row E) zones))
  = repeat 0%Q (length zones).
Proof. induction zones as [|z zones IH]; simpl; [|rewrite IH]; reflexivity. Qed.

Lemma fold_Qmin_zeros (n : nat) : fold_left Qmin (repeat 0%Q n) 0%Q = 0%Q.
Proof. induction n as [|n IH]; simpl; [reflexivity|exact IH]. Qed.

Lemma fold_Qmax_zeros (n : nat) : fold_left Qmax (repeat 0%Q n) 0%Q = 0%Q.
Proof. induction n as [|n IH]; simpl; [reflexivity|exact IH]. Qed.

(** With at least one zone and no prediction the scale goes from 0 to
    0. *)
Lemma zero_rows_scale (E : External) (zones : list ZoneRow) :
  zones <> [] ->
  series_min (map j_predicted_demand (map (zero_row E) zones)) = Fin 0
  /\ series_max (map j_predicted_demand (map (zero_row E) zones)) = Fin 0.
Proof.
  intros Hne. unfold series_min, series_max. rewrite dropna_zero_rows.
  destruct zones as [|z zones]; [contradiction|]. cbn [length repeat].
  rewrite fold_Qmin_zeros, fold_Qmax_zeros. split; reflexivity.
Qed.

Lemma colormap_calls_const (cm : LinearColormap) (xs : list num) (c : string) :
  (forall x, List.In x xs -> colormap_call cm x = inr c) ->
  colormap_calls cm xs = inr (repeat c (length xs)).
Proof.
  induction xs as [|x xs IH]; intros H; cbn [colormap_calls length repeat];
    [reflexivity|].
  rewrite (H x) by (left; reflexivity).
  rewrite IH by (intros y Hy; apply H; right; exact Hy). reflexivity.
Qed.

(** The legend of a scale from [v] to [v] is drawn: its 500 samples are
    [v], in the first hue. *)
Lemma ColorMap_render_flat (v : Q) (cm : LinearColormap) :
  LinearColormap_init palette (Fin v) (Fin v) = inr cm ->
  ColorMap_render cm = inr (repeat "#ffeda0ff" 500).
Proof.
  intros Hcm. unfold ColorMap_render.
  assert (Hlen : length (color_domain cm) = 500%nat).
  { unfold color_domain. rewrite List.length_map, List.length_seq. reflexivity. }
  rewrite <- Hlen. apply colormap_calls_const. intros x Hx.
  unfold color_domain in Hx. apply List.in_map_iff in Hx.
  destruct Hx as [k [<- _]].
  assert (Hv : cm_vmin cm = Fin v /\ cm_vmax cm = Fin v).
  { unfold LinearColormap_init in Hcm. cbn in Hcm. injection Hcm as <-.
    split; reflexivity. }
  destruct Hv as [-> ->]. unfold color_domain_point.
  cbn [num_sub num_mul num_div]. change (Qeq_bool 499 0) with false.
  cbn [num_add]. apply (colormap_call_low v v _ cm Hcm).
  apply Qle_lteq. right. field.
Qed.

(** [create_taxi_map] without a prediction: every zone at demand 0, in
    the first hue. *)
Lemma create_taxi_map_no_predictions (E : External) (s : state) (shp : path)
  (zones : list ZoneRow) :
  gpd_read_file E (disk s) shp = inr zones ->
  zones <> [] ->
  create_taxi_map E shp [] s
  = (with_session s {| map_created := Some true;
                       map_obj := Some (zero_map E zero_scale zones) |},
     inr (zero_map E zero_scale zones)).
Proof.
  intros Hread Hne.
  unfold create_taxi_map, bind, get_disk, lift, ret, set_session.
  rewrite Hread. cbv beta iota. rewrite join_zones_no_predictions.
  destruct (zero_rows_scale E zones Hne) as [-> ->].
  change (LinearColormap_init palette (Fin 0) (Fin 0)) with (@inr exn _ zero_scale).
  cbv beta iota.
  rewrite (style_features_flat zero_scale (map (zero_row E) zones) "#ffeda0ff").
  - reflexivity.
  - intros j Hj. apply List.in_map_iff in Hj. destruct Hj as [z [<- _]].
    cbn [zero_row j_predicted_demand].
    apply (colormap_call_low 0 0 0 zero_scale); [reflexivity|apply Qle_refl].
Qed.

(** The display stage on a filtered table without rows, over a shapefile
    with at least one zone. *)
Lemma display_stage_empty (E : External) (features : list FeatureRow)
  (predictions : list PredictionRow) (s : state) (zones : list ZoneRow) :
  filter_predictions (location_ids_of (selectbox_value E borough_options))
                     predictions = [] ->
  gpd_read_file E (disk s) (DATA_DIR E ++ ["taxi_zones"; "taxi_zones.shp"])
  = inr zones ->
  zones <> [] ->
  display_stage E features predictions s
  = ({| disk := disk s; io_log := io_log s;
        session := {| map_created := Some true;
                      map_obj := Some (zero_map E zero_scale zones) |};
        page := page s
                ++ empty_borough_elements E (zero_map E zero_scale zones) |},
     inr tt).
Proof.
  intros Hnone Hread Hne. unfold display_stage. rewrite Hnone.
  do 4 (unfold bind at 1; unfold show at 1; cbn [disk io_log session page]).
  unfold bind at 1.
  match goal with
  | |- context [create_taxi_map E ?p ?pr ?st] =>
      rewrite (create_taxi_map_no_predictions E st p zones Hread Hne)
  end.
  change (average_rides []) with "nan".
  change (maximum_rides []) with "nan".
  change (minimum_rides []) with "nan".
  change (top10 []) with (@nil Z).
  unfold bind at 1. unfold show_map at 1. unfold bind at 1.
  unfold get_session at 1. unfold with_session.
  cbn [session map_created map_obj]. unfold st_folium_call.
  change (legend (zero_map E zero_scale zones)) with zero_scale.
  rewrite (ColorMap_render_flat 0 zero_scale eq_refl).
  cbv beta iota. unfold show at 1. cbn [disk io_log session page].
  do 6 (unfold bind at 1; unfold show at 1; cbn [disk io_log session page]).
  unfold plot_top10, ret, with_session, empty_borough_elements.
  cbn [disk io_log session page map_created map_obj].
  rewrite <- !List.app_assoc. reflexivity.
Qed.

(** When the fetch stage returns, the shapefile can be read from the disk
    it leaves: line 64 has read it, and nothing has touched the disk
    since. *)
Lemma fetch_stage_reads (E : External) (s s2 : state)
  (features : list FeatureRow) (predictions : list PredictionRow) :
  fetch_stage E s = (s2, inr (features, predictions)) ->
  exists zones,
    gpd_read_file E (disk s2) (shapefile_path_of (DATA_DIR E)) = inr zones.
Proof.
  rewrite fetch_stage_run. intros H.
  destruct (load_shape_data_file E (DATA_DIR E) default_url s)
    as [sl [e|z]] eqn:Hload; [discriminate|].
  destruct (load_returns_read E _ _ _ _ _ Hload) as [gdf [Hread _]].
  destruct (load_batch_of_features_from_store E (current_time_utc E))
    as [e|f]; [discriminate|].
  destruct (fetch_next_hour_predictions E) as [e|p]; [discriminate|].
  injection H as <- _ _. exists gdf. exact Hread.
Qed.

(** C7, as stated, fails: with a shapefile that holds no zone the scale
    has no domain (its bounds are NaN), the legend cannot be drawn and
    [st_folium] raises at line 148, after the empty table is shown and
    before the statistics are. *)
Lemma empty_shapefile_stops_the_map :
  snd (script no_zones_world cold_start)
  = inl (ValueError "Thresholds are not sorted.")
  /\ ~ (forall (E : External) (s s2 : state) (features : list FeatureRow)
               (predictions : list PredictionRow),
          fetch_stage E (fst (intro_stage E s))
          = (s2, inr (features, predictions)) ->
          (forall r, List.In r predictions ->
             isin (location_ids_of (selectbox_value E borough_options))
                  (pickup_location_id r) = false) ->
          snd (script E s) = inr tt).
Proof.
  assert (Hrun : snd (script no_zones_world cold_start)
                 = inl (ValueError "Thresholds are not sorted."))
    by (vm_compute; reflexivity).
  split; [exact Hrun|]. intros H.
  specialize (H no_zones_world cold_start
                (fst (fetch_stage no_zones_world
                        (fst (intro_stage no_zones_world cold_start))))
                sample_features sample_predictions).
  rewrite Hrun in H. discriminate H.
  - vm_compute. reflexivity.
  - intros r Hr. vm_compute in Hr.
    repeat (destruct Hr as [<-|Hr]; [vm_compute; reflexivity|]).
    destruct Hr.
Qed.

(** C7, amended: when no row of the prediction table belongs to the
    selected borough and the shapefile holds at least one zone, the script
    runs to its end: the table on the page has no row, the three
    statistics are printed as "nan", the map is built, rendered (the 500
    samples of its legend in the first hue) and shown with every zone at
    demand 0 in the first hue of the scale, and no chart is plotted.
    ([zones] are the rows that line 113 reads from the shapefile; that the
    file can be read follows from the fetch stage, [fetch_stage_reads].) *)
Theorem empty_borough_renders (E : External) (s s2 : state)
  (features : list FeatureRow) (predictions : list PredictionRow)
  (zones : list ZoneRow) :
  fetch_stage E (fst (intro_stage E s)) = (s2, inr (features, predictions)) ->
  (forall r, List.In r predictions ->
     isin (location_ids_of (selectbox_value E borough_options))
          (pickup_location_id r) = false) ->
  gpd_read_file E (disk s2) (shapefile_path_of (DATA_DIR E)) = inr zones ->
  zones <> [] ->
  script E s
  = ({| disk := disk s2; io_log := io_log s2;
        session := {| map_created := Some true;
                      map_obj := Some (zero_map E zero_scale zones) |};
        page := page s2
                ++ empty_borough_elements E (zero_map E zero_scale zones) |},
     inr tt)
  /\ ColorMap_render (legend (zero_map E zero_scale zones))
     = inr (repeat "#ffeda0ff" 500)
  /\ ranked_table
       (filter_predictions
          (location_ids_of (selectbox_value E borough_options)) predictions)
     = []
  /\ map fst (layer (zero_map E zero_scale zones)) = map (zero_row E) zones
  /\ forall f st, List.In (f, st) (layer (zero_map E zero_scale zones)) ->
       j_predicted_demand f = Fin 0 /\ st = flat_style.
Proof.
  intros Hfetch Hnone Hread Hne.
  pose proof (filter_predictions_none _ _ Hnone) as Hfilter.
  assert (Hread' : gpd_read_file E (disk s2)
                     (DATA_DIR E ++ ["taxi_zones"; "taxi_zones.shp"])
                   = inr zones).
  { unfold shapefile_path_of in Hread. rewrite <- List.app_assoc in Hread.
    exact Hread. }
  split; [|split; [|split; [|split]]].
  - rewrite script_run, Hfetch.
    exact (display_stage_empty E features predictions s2 zones Hfilter Hread' Hne).
  - exact (ColorMap_render_flat 0 zero_scale eq_refl).
  - rewrite Hfilter. reflexivity.
  - unfold zero_map, folium_Map. cbn [layer]. rewrite List.map_map.
    cbn [fst]. apply List.map_id.
  - intros f st Hin. unfold zero_map, folium_Map in Hin. simpl in Hin.
    apply List.in_map_iff in Hin. destruct Hin as [j [Hj Hin]].
    injection Hj as <- <-.
    apply List.in_map_iff in Hin. destruct Hin as [z [<- _]].
    split; reflexivity.
Qed.

(** A run for Brooklyn, which has no row in the sample predictions. *)
Lemma empty_borough_renders_sample :
  snd (script brooklyn_world cold_start) = inr tt
  /\ page (fst (script brooklyn_world cold_start))
     = page (fst (fetch_stage brooklyn_world
                    (fst (intro_stage brooklyn_world cold_start))))
       ++ empty_borough_elements brooklyn_world
            (zero_map brooklyn_world zero_scale sample_zones).
Proof.
  destruct (empty_borough_renders brooklyn_world cold_start
              (fst (fetch_stage brooklyn_world
                      (fst (intro_stage brooklyn_world cold_start))))
              sample_features sample_predictions sample_zones)
    as [Hrun _].
  - vm_compute. reflexivity.
  - intros r Hr. vm_compute in Hr.
    repeat (destruct Hr as [<-|Hr]; [vm_compute; reflexivity|]).
    destruct Hr.
  - vm_compute. reflexivity.
  - discriminate.
  - rewrite Hrun. split; reflexivity.
Defined.

(** * The tables as objects *)

(** ** The steps on the heap *)

Lemma lookup_snoc_last (l : list object) (o : object) :
  (l ++ [o]) !! length l = Some o.
Proof.
  rewrite lookup_app_r by lia. rewrite Nat.sub_diag. reflexivity.
Qed.

Lemma lookup_snoc_keep (l : list object) (o x : object) (r : ref) :
  l !! r = Some x -> (l ++ [o]) !! r = Some x.
Proof. intros H. apply lookup_app_l_Some. exact H. Qed.

Lemma insert_snoc_last (l : list object) (x y : object) :
  <[length l := x]> (l ++ [y]) = l ++ [x].
Proof. induction l as [|a l IH]; cbn; [reflexivity|]. f_equal. exact IH. Qed.

Lemma lookup_valid (l : list object) (x : object) (r : ref) :
  l !! r = Some x -> (r < length l)%nat.
Proof. intros H. apply lookup_lt_Some in H. exact H. Qed.

Ltac heap_lookup :=
  cbn [heap];
  repeat first [apply lookup_snoc_last | apply lookup_snoc_keep];
  try eassumption.

Lemma read_as_run {A : Type} (view : object -> option A) (r : ref)
  (w : process) (o : object) (x : A) :
  heap w !! r = Some o -> view o = Some x -> read_as view r w = (w, inr x).
Proof. intros Hr Hv. unfold read_as. rewrite Hr, Hv. reflexivity. Qed.

(** A step that reads a table and makes a new one of it. *)
Lemma derived_run {A : Type} (view : object -> option A) (make : A -> object)
  (r : ref) (w : process) (o : object) (x : A) :
  heap w !! r = Some o -> view o = Some x ->
  (let+ rows := read_as view r in new_object (make rows)) w
  = ({| heap := heap w ++ [make x]; run_state := run_state w |},
     inr (length (heap w))).
Proof.
  intros Hr Hv. unfold fbind. rewrite (read_as_run view r w o x Hr Hv).
  reflexivity.
Qed.

Lemma getitem_rows_run (keep : PredictionRow -> bool) (df : ref) (w : process)
  (rows : list PredictionRow) :
  heap w !! df = Some (PredictionFrame rows) ->
  getitem_rows keep df w
  = ({| heap := heap w ++ [PredictionFrame (List.filter keep rows)];
        run_state := run_state w |}, inr (length (heap w))).
Proof.
  intros H.
  apply (derived_run as_predictions (fun rows => PredictionFrame (List.filter keep rows))
           df w _ rows H).
  reflexivity.
Qed.

Lemma getitem_feature_rows_run (keep : FeatureRow -> bool) (df : ref)
  (w : process) (rows : list FeatureRow) :
  heap w !! df = Some (FeatureFrame rows) ->
  getitem_feature_rows keep df w
  = ({| heap := heap w ++ [FeatureFrame (List.filter keep rows)];
        run_state := run_state w |}, inr (length (heap w))).
Proof.
  intros H.
  apply (derived_run as_features (fun rows => FeatureFrame (List.filter keep rows))
           df w _ rows H).
  reflexivity.
Qed.

Lemma df_sort_values_run
  (sort_values : list PredictionRow -> list PredictionRow) (df : ref)
  (w : process) (rows : list PredictionRow) :
  heap w !! df = Some (PredictionFrame rows) ->
  df_sort_values sort_values df w
  = ({| heap := heap w ++ [PredictionFrame (sort_values rows)];
        run_state := run_state w |}, inr (length (heap w))).
Proof.
  intros H.
  apply (derived_run as_predictions (fun rows => PredictionFrame (sort_values rows))
           df w _ rows H).
  reflexivity.
Qed.

Lemma df_head_run (df : ref) (w : process) (rows : list PredictionRow) :
  heap w !! df = Some (PredictionFrame rows) ->
  df_head df w
  = ({| heap := heap w ++ [PredictionFrame (head10 rows)];
        run_state := run_state w |}, inr (length (heap w))).
Proof.
  intros H.
  apply (derived_run as_predictions (fun rows => PredictionFrame (head10 rows))
           df w _ rows H).
  reflexivity.
Qed.

Lemma getitem_key_demand_run (df : ref) (w : process)
  (rows : list PredictionRow) :
  heap w !! df = Some (PredictionFrame rows) ->
  getitem_key_demand df w
  = ({| heap := heap w ++ [KeyDemandFrame (select_key_demand rows)];
        run_state := run_state w |}, inr (length (heap w))).
Proof.
  intros H.
  apply (derived_run as_predictions (fun rows => KeyDemandFrame (select_key_demand rows))
           df w _ rows H).
  reflexivity.
Qed.

Lemma gdf_to_crs_run (E : External) (df : ref) (w : process)
  (rows : list JoinedRow) :
  heap w !! df = Some (MergedFrame rows) ->
  gdf_to_crs E df w
  = ({| heap := heap w ++ [MergedFrame (map (reproject_joined E) rows)];
        run_state := run_state w |}, inr (length (heap w))).
Proof.
  intros H.
  apply (derived_run as_merged (fun rows => MergedFrame (map (reproject_joined E) rows))
           df w _ rows H).
  reflexivity.
Qed.

Lemma df_merge_run (left right : ref) (w : process) (zones : list ZoneRow)
  (key_demand : list (Z * num)) :
  heap w !! left = Some (ZoneFrame zones) ->
  heap w !! right = Some (KeyDemandFrame key_demand) ->
  df_merge left right w
  = ({| heap := heap w ++ [MergedFrame (merge_left zones key_demand)];
        run_state := run_state w |}, inr (length (heap w))).
Proof.
  intros Hl Hr. unfold df_merge. unfold fbind at 1.
  rewrite (read_as_run as_zones left w _ zones Hl eq_refl).
  apply (derived_run as_key_demand
           (fun key_demand => MergedFrame (merge_left zones key_demand))
           right w _ key_demand Hr).
  reflexivity.
Qed.

(** The assignment to the column changes the object of [df] and no
    other. *)
Lemma setitem_fillna_run (df : ref) (w : process) (rows : list JoinedRow) :
  heap w !! df = Some (MergedFrame rows) ->
  setitem_fillna df w
  = ({| heap := <[df := MergedFrame (fillna_demand rows)]> (heap w);
        run_state := run_state w |}, inr tt).
Proof.
  intros H. unfold setitem_fillna, fbind.
  rewrite (read_as_run as_merged df w _ rows H eq_refl). reflexivity.
Qed.

(** ** [create_taxi_map] on references *)

(** On references [create_taxi_map] does to the run what it does on
    values, and on the heap it only makes new objects: the frame it is
    given, and every other object that was there, is left as it was (the
    column of line 120 is assigned in the frame that the merge has just
    made). *)
Lemma create_taxi_map_on_run (E : External) (shapefile_path : path)
  (prediction_data : ref) (w : process) (rows : list PredictionRow) :
  heap w !! prediction_data = Some (PredictionFrame rows) ->
  exists more,
    create_taxi_map_on E shapefile_path prediction_data w
    = ({| heap := heap w ++ more;
          run_state := fst (create_taxi_map E shapefile_path rows (run_state w)) |},
       snd (create_taxi_map E shapefile_path rows (run_state w))).
Proof.
  intros Hdata. destruct w as [h s]. cbn [heap run_state] in *.
  enough (H : forall r, create_taxi_map E shapefile_path rows s = r ->
            exists more,
              create_taxi_map_on E shapefile_path prediction_data
                {| heap := h; run_state := s |}
              = ({| heap := h ++ more; run_state := fst r |}, snd r))
    by (apply H; reflexivity).
  intros r Hr. unfold create_taxi_map in Hr.
  unfold bind at 1 in Hr. unfold get_disk at 1 in Hr.
  unfold bind at 1 in Hr.
  unfold create_taxi_map_on.
  unfold fbind at 1. unfold on_state at 1. unfold get_disk at 1.
  cbn [heap run_state].
  unfold fbind at 1. unfold on_state at 1. cbn [heap run_state].
  destruct (gpd_read_file E (disk s) shapefile_path) as [e|zones].
  { cbn [lift raise] in *. subst r. exists []. rewrite List.app_nil_r.
    reflexivity. }
  cbn [lift ret] in *.
  unfold fbind at 1. unfold new_object at 1. cbn [heap run_state].
  unfold fbind at 1.
  rewrite (getitem_key_demand_run prediction_data _ rows)
    by (cbn [heap]; apply lookup_snoc_keep; exact Hdata).
  cbn [heap run_state].
  unfold fbind at 1.
  rewrite (df_merge_run (length h) (length (h ++ [ZoneFrame zones])) _ zones
             (select_key_demand rows));
    [|cbn [heap]; apply lookup_snoc_keep, lookup_snoc_last
     |cbn [heap]; apply lookup_snoc_last].
  cbn [heap run_state].
  set (h2 := (h ++ [ZoneFrame zones])
             ++ [KeyDemandFrame (select_key_demand rows)]).
  unfold fbind at 1.
  rewrite (setitem_fillna_run (length h2) _
             (merge_left zones (select_key_demand rows)))
    by (cbn [heap]; apply lookup_snoc_last).
  cbn [heap run_state]. rewrite insert_snoc_last.
  unfold fbind at 1.
  rewrite (gdf_to_crs_run E (length h2) _
             (fillna_demand (merge_left zones (select_key_demand rows))))
    by (cbn [heap]; apply lookup_snoc_last).
  cbn [heap run_state].
  unfold fbind at 1.
  match goal with
  | |- context [read_as as_merged ?r ?w] =>
      rewrite (read_as_run as_merged r w
                 (MergedFrame (join_zones E zones rows))
                 (join_zones E zones rows)
                 ltac:(cbn [heap]; apply lookup_snoc_last) eq_refl)
  end.
  assert (Hheap : forall a b c d : object,
            (((h ++ [a]) ++ [b]) ++ [c]) ++ [d] = h ++ [a; b; c; d]).
  { intros a b c d. rewrite <- !List.app_assoc. reflexivity. }
  unfold h2. rewrite Hheap. clear h2 Hheap. eexists.
  unfold fbind at 1. unfold on_state at 1. cbn [heap run_state].
  unfold bind at 1 in Hr.
  destruct (LinearColormap_init palette
              (series_min (map j_predicted_demand (join_zones E zones rows)))
              (series_max (map j_predicted_demand (join_zones E zones rows))))
    as [e|cm].
  { cbn [lift raise] in *. subst r. reflexivity. }
  cbn [lift ret] in *.
  unfold fbind at 1. unfold on_state at 1. cbn [heap run_state].
  unfold bind at 1 in Hr.
  destruct (style_features cm (join_zones E zones rows)) as [e|styled].
  { cbn [lift raise] in *. subst r. reflexivity. }
  cbn [lift ret] in *. subst r. reflexivity.
Qed.

Lemma create_taxi_map_page (E : External) (shapefile_path : path)
  (rows : list PredictionRow) (s : state) :
  page (fst (create_taxi_map E shapefile_path rows s)) = page s.
Proof.
  unfold create_taxi_map, bind, get_disk.
  destruct (gpd_read_file E (disk s) shapefile_path) as [e|zones];
    [reflexivity|]. cbn [lift ret].
  destruct (LinearColormap_init _ _ _) as [e|cm]; [reflexivity|].
  cbn [lift ret].
  destruct (style_features cm _) as [e|styled]; reflexivity.
Qed.

(** [st_folium] shows the map or raises: no table, no chart. *)
Lemma show_map_page (s : state) :
  exists els,
    page (fst (show_map s)) = page s ++ els
    /\ shown_tables els = [] /\ shown_charts els = [].
Proof.
  unfold show_map, bind, get_session.
  destruct (map_created (session s)) as [[|]|];
    try (exists []; rewrite List.app_nil_r; repeat split; reflexivity).
  destruct (map_obj (session s)) as [m|];
    [|exists []; rewrite List.app_nil_r; repeat split; reflexivity].
  unfold st_folium_call. destruct (ColorMap_render (legend m)) as [e|cs].
  - exists []. rewrite List.app_nil_r. repeat split; reflexivity.
  - exists [st_folium m 800 600]. repeat split; reflexivity.
Qed.

Lemma shown_tables_app (a b : list element) :
  shown_tables (a ++ b) = shown_tables a ++ shown_tables b.
Proof. apply List.flat_map_app. Qed.

Lemma shown_charts_app (a b : list element) :
  shown_charts (a ++ b) = shown_charts a ++ shown_charts b.
Proof. apply List.flat_map_app. Qed.

(** ** Lines 94-164 on references *)

(** The run of lines 94-164: the table of line 106 is on the page, no
    chart is; the frame of line 102 is on the heap as it was made; and,
    when line 164 is reached, the list it gives is the column of that
    table: nothing in between has changed the frame that both lines
    sort. *)
Lemma display_tables_run (E : External)
  (sort_values : list PredictionRow -> list PredictionRow)
  (predictions : ref) (w : process) (rows : list PredictionRow) :
  heap w !! predictions = Some (PredictionFrame rows) ->
  let filtered :=
    filter_predictions (location_ids_of (selectbox_value E borough_options))
                       rows in
  let table := head10 (sort_values filtered) in
  let run := display_tables E sort_values predictions w in
  exists more els,
    heap (fst run) = heap w ++ PredictionFrame filtered :: more
    /\ page (run_state (fst run)) = page (run_state w) ++ els
    /\ shown_tables els = [table]
    /\ shown_charts els = []
    /\ forall v, snd run = inr v ->
         v = (length (heap w), map pickup_location_id table).
Proof.
  intros Hpred filtered table run. destruct w as [h s].
  cbn [heap run_state] in *.
  enough (H : forall r,
            display_tables E sort_values predictions
              {| heap := h; run_state := s |} = r ->
            exists more els,
              heap (fst r) = h ++ PredictionFrame filtered :: more
              /\ page (run_state (fst r)) = page s ++ els
              /\ shown_tables els = [table]
              /\ shown_charts els = []
              /\ forall v, snd r = inr v ->
                   v = (length h, map pickup_location_id table))
    by (apply H; reflexivity).
  intros r Hr. unfold display_tables in Hr.
  unfold fbind at 1 in Hr. unfold on_state at 1 in Hr. unfold show at 1 in Hr.
  cbn [heap run_state disk io_log session page] in Hr.
  unfold fbind at 1 in Hr.
  rewrite (getitem_rows_run _ predictions _ rows) in Hr by exact Hpred.
  cbn [heap run_state] in Hr.
  change (List.filter _ rows) with filtered in Hr.
  unfold fbind at 1 in Hr. unfold on_state at 1 in Hr. unfold show at 1 in Hr.
  cbn [heap run_state disk io_log session page] in Hr.
  unfold fbind at 1 in Hr.
  rewrite (df_sort_values_run sort_values (length h) _ filtered) in Hr
    by heap_lookup.
  cbn [heap run_state] in Hr.
  unfold fbind at 1 in Hr.
  rewrite (df_head_run _ _ (sort_values filtered)) in Hr by heap_lookup.
  cbn [heap run_state] in Hr. fold table in Hr.
  unfold fbind at 1 in Hr.
  match type of Hr with
  | context [read_as as_predictions ?r ?w] =>
      rewrite (read_as_run as_predictions r w (PredictionFrame table) table
                 ltac:(heap_lookup) eq_refl) in Hr
  end.
  unfold fbind at 1 in Hr. unfold on_state at 1 in Hr. unfold show at 1 in Hr.
  cbn [heap run_state disk io_log session page] in Hr.
  unfold fbind at 1 in Hr. unfold on_state at 1 in Hr. unfold show at 1 in Hr.
  cbn [heap run_state disk io_log session page] in Hr.
  set (shown := [st_selectbox "Select a Borough:" borough_options;
                 st_write
                   ("Showing predictions for: "
                    ++ selectbox_value E borough_options
                    ++ " (LocationID(s): "
                    ++ str_int_list
                         (location_ids_of (selectbox_value E borough_options))
                    ++ ")");
                 st_dataframe table;
                 st_subheader "Taxi Ride Predictions Map"]).
  assert (Hshown : forall p : list element,
            (((p ++ [st_selectbox "Select a Borough:" borough_options])
              ++ [st_write
                    ("Showing predictions for: "
                     ++ selectbox_value E borough_options
                     ++ " (LocationID(s): "
                     ++ str_int_list
                          (location_ids_of (selectbox_value E borough_options))
                     ++ ")")])
             ++ [st_dataframe table])
            ++ [st_subheader "Taxi Ride Predictions Map"]
            = p ++ shown).
  { intros p. rewrite <- !List.app_assoc. reflexivity. }
  rewrite Hshown in Hr. clear Hshown.
  assert (Hheap : forall a b c : object,
            ((h ++ [a]) ++ [b]) ++ [c] = h ++ [a; b; c]).
  { intros a b c. rewrite <- !List.app_assoc. reflexivity. }
  rewrite Hheap in Hr. clear Hheap.
  set (h3 := h ++ [PredictionFrame filtered;
                   PredictionFrame (sort_values filtered);
                   PredictionFrame table]) in Hr.
  assert (Hf3 : forall more, (h3 ++ more) !! length h
                             = Some (PredictionFrame filtered)).
  { intros more. unfold h3. rewrite <- List.app_assoc.
    rewrite lookup_app_r by lia. rewrite Nat.sub_diag. reflexivity. }
  assert (Hh3 : forall more,
            h3 ++ more
            = h ++ PredictionFrame filtered
                :: (PredictionFrame (sort_values filtered)
                    :: PredictionFrame table :: more)).
  { intros more. unfold h3. rewrite <- List.app_assoc. reflexivity. }
  unfold fbind at 1 in Hr.
  match type of Hr with
  | context [create_taxi_map_on E ?p ?d ?w] =>
      destruct (create_taxi_map_on_run E p d w filtered) as [more1 Hmap];
        [cbn [heap]; rewrite <- (List.app_nil_r h3); apply Hf3|];
        rewrite Hmap in Hr; clear Hmap
  end.
  cbn [heap run_state] in Hr.
  match type of Hr with
  | context [create_taxi_map E ?p filtered ?st] =>
      pose proof (create_taxi_map_page E p filtered st) as Hpage5;
        destruct (create_taxi_map E p filtered st) as [s5 [e|m]]
  end; cbn [fst snd page] in Hr, Hpage5.
  { subst r. cbn [fst snd heap run_state]. eexists. exists shown.
    split; [apply Hh3|]. split; [exact Hpage5|].
    split; [reflexivity|]. split; [reflexivity|]. intros v Hv. discriminate Hv. }
  unfold fbind at 1 in Hr. unfold on_state at 1 in Hr.
  cbn [heap run_state] in Hr.
  destruct (show_map_page s5) as [els6 [Hpage6 [Htab6 Hch6]]].
  destruct (show_map s5) as [s6 [e|[]]]; cbn [fst] in Hpage6.
  { subst r. cbn [fst snd heap run_state]. eexists. exists (shown ++ els6).
    split; [apply Hh3|].
    split; [rewrite Hpage6, Hpage5, <- List.app_assoc; reflexivity|].
    rewrite shown_tables_app, shown_charts_app, Htab6, Hch6.
    split; [reflexivity|]. split; [reflexivity|]. intros v Hv. discriminate Hv. }
  do 3 (unfold fbind at 1 in Hr; unfold on_state at 1 in Hr;
        unfold show at 1 in Hr;
        cbn [heap run_state disk io_log session page] in Hr).
  do 3 (unfold fbind at 1 in Hr;
        match type of Hr with
        | context [read_as as_predictions ?r ?w] =>
            rewrite (read_as_run as_predictions r w (PredictionFrame filtered)
                       filtered ltac:(cbn [heap]; apply Hf3) eq_refl) in Hr
        end;
        unfold fbind at 1 in Hr; unfold on_state at 1 in Hr;
        unfold show at 1 in Hr;
        cbn [heap run_state disk io_log session page] in Hr).
  unfold fbind at 1 in Hr.
  rewrite (df_sort_values_run sort_values (length h) _ filtered) in Hr
    by (cbn [heap]; apply Hf3).
  cbn [heap run_state] in Hr.
  unfold fbind at 1 in Hr.
  rewrite (df_head_run _ _ (sort_values filtered)) in Hr by heap_lookup.
  cbn [heap run_state] in Hr. fold table in Hr.
  unfold fbind at 1 in Hr.
  match type of Hr with
  | context [read_as as_predictions ?r ?w] =>
      rewrite (read_as_run as_predictions r w (PredictionFrame table) table
                 ltac:(heap_lookup) eq_refl) in Hr
  end.
  unfold fret in Hr. subst r. cbn [fst snd heap run_state page].
  eexists.
  exists (shown ++ els6
             ++ [sidebar_write "Finished plotting taxi rides demand";
                 sidebar_progress (step_fraction 4);
                 st_subheader "Prediction Statistics";
                 st_metric "Average Rides" (average_rides filtered);
                 st_metric "Maximum Rides" (maximum_rides filtered);
                 st_metric "Minimum Rides" (minimum_rides filtered)]).
  split; [rewrite <- !List.app_assoc; apply Hh3|].
  split; [rewrite Hpage6, Hpage5, <- !List.app_assoc; reflexivity|].
  rewrite !shown_tables_app, !shown_charts_app, Htab6, Hch6.
  split; [reflexivity|]. split; [reflexivity|].
  intros v Hv. injection Hv as <-. reflexivity.
Qed.

(** ** The chart loop on references *)

(** The loop plots the chart of each zone of its list in turn, from the
    rows of that zone in the two frames, until [plot_prediction] raises:
    the zones that get a chart are the first of the list, all of them when
    the loop reaches its end. *)
Lemma plot_charts_run (E : External) (features filtered_predictions : ref)
  (ids : list Z) (w : process) (feature_rows : list FeatureRow)
  (filtered : list PredictionRow) :
  heap w !! features = Some (FeatureFrame feature_rows) ->
  heap w !! filtered_predictions = Some (PredictionFrame filtered) ->
  let run := plot_charts E features filtered_predictions ids w in
  exists done figs more,
    heap (fst run) = heap w ++ more
    /\ page (run_state (fst run))
       = page (run_state w) ++ map st_plotly_chart figs
    /\ Forall2 (fun id fig => chart_of E feature_rows filtered id = inr fig)
               done figs
    /\ (exists rest, ids = done ++ rest)
    /\ (snd run = inr tt -> done = ids)
    /\ (forall e, snd run = inl e ->
          exists id rest, ids = done ++ id :: rest
                          /\ chart_of E feature_rows filtered id = inl e).
Proof.
  revert w. induction ids as [|id ids IH]; intros w Hfeat Hpred run.
  - exists [], [], []. unfold run. cbn. rewrite !List.app_nil_r.
    split; [reflexivity|]. split; [reflexivity|]. split; [constructor|].
    split; [exists []; reflexivity|]. split; [reflexivity|].
    intros e He. discriminate He.
  - enough (H : forall r,
              plot_charts E features filtered_predictions (id :: ids) w = r ->
              exists done figs more,
                heap (fst r) = heap w ++ more
                /\ page (run_state (fst r))
                   = page (run_state w) ++ map st_plotly_chart figs
                /\ Forall2 (fun id fig =>
                              chart_of E feature_rows filtered id = inr fig)
                           done figs
                /\ (exists rest, id :: ids = done ++ rest)
                /\ (snd r = inr tt -> done = id :: ids)
                /\ (forall e, snd r = inl e ->
                      exists id' rest, id :: ids = done ++ id' :: rest
                        /\ chart_of E feature_rows filtered id' = inl e))
      by (apply H; reflexivity).
    intros r Hr. cbn [plot_charts] in Hr.
    unfold fbind at 1 in Hr.
    rewrite (getitem_feature_rows_run _ features w feature_rows Hfeat) in Hr.
    unfold fbind at 1 in Hr.
    rewrite (getitem_rows_run _ filtered_predictions _ filtered) in Hr
      by (heap_lookup).
    cbn [heap run_state] in Hr.
    unfold fbind at 1 in Hr.
    match type of Hr with
    | context [read_as as_features ?x ?w0] =>
        rewrite (read_as_run as_features x w0 _ _
                   ltac:(heap_lookup) eq_refl) in Hr
    end.
    unfold fbind at 1 in Hr.
    match type of Hr with
    | context [read_as as_predictions ?x ?w0] =>
        rewrite (read_as_run as_predictions x w0 _ _
                   ltac:(heap_lookup) eq_refl) in Hr
    end.
    unfold fbind at 1 in Hr. unfold on_state at 1 in Hr.
    cbn [heap run_state] in Hr.
    change (plot_prediction E
              (List.filter (fun f => f_pickup_location_id f =? id) feature_rows)
              (List.filter (fun r0 => pickup_location_id r0 =? id) filtered))
      with (chart_of E feature_rows filtered id) in Hr.
    destruct (chart_of E feature_rows filtered id) as [e|fig] eqn:Hchart.
    + cbn [lift raise] in Hr. subst r. cbn [fst snd heap run_state].
      exists [], []. eexists. rewrite <- List.app_assoc.
      split; [reflexivity|]. split; [cbn; rewrite List.app_nil_r; reflexivity|].
      split; [constructor|].
      split; [exists (id :: ids); reflexivity|].
      split; [intros H; discriminate H|].
      intros e' He'. injection He' as <-. exists id, ids. auto.
    + cbn [lift ret] in Hr.
      unfold fbind at 1 in Hr. unfold on_state at 1 in Hr.
      unfold show at 1 in Hr.
      cbn [heap run_state disk io_log session page] in Hr.
      match type of Hr with
      | plot_charts _ _ _ _ ?w1 = _ =>
          destruct (IH w1 ltac:(heap_lookup) ltac:(heap_lookup))
            as [done [figs [more [Hheap [Hpage [Hall [Hpre [Hret Hexn]]]]]]]];
            rewrite Hr in Hheap, Hpage, Hret, Hexn
      end.
      cbn [heap run_state page] in Hheap, Hpage.
      exists (id :: done), (fig :: figs). eexists.
      split; [rewrite Hheap, <- !List.app_assoc; reflexivity|].
      split; [rewrite Hpage, <- List.app_assoc; reflexivity|].
      split; [constructor; assumption|].
      split; [destruct Hpre as [rest ->]; exists rest; reflexivity|].
      split; [intros H; rewrite (Hret H); reflexivity|].
      intros e He. destruct (Hexn e He) as [id' [rest [-> Hid']]].
      exists id', rest. auto.
Qed.

(** ** The run on references and the run on values *)

(** The chart loop on references does to the run what [plot_top10] does
    on the rows of the two frames. *)
Lemma plot_charts_refines (E : External) (features filtered_predictions : ref)
  (ids : list Z) (w : process) (feature_rows : list FeatureRow)
  (filtered : list PredictionRow) :
  heap w !! features = Some (FeatureFrame feature_rows) ->
  heap w !! filtered_predictions = Some (PredictionFrame filtered) ->
  run_state (fst (plot_charts E features filtered_predictions ids w))
  = fst (plot_top10 E feature_rows filtered ids (run_state w))
  /\ snd (plot_charts E features filtered_predictions ids w)
     = snd (plot_top10 E feature_rows filtered ids (run_state w)).
Proof.
  revert w. induction ids as [|id ids IH]; intros w Hfeat Hpred.
  - split; reflexivity.
  - enough (H : forall r v,
              plot_charts E features filtered_predictions (id :: ids) w = r ->
              plot_top10 E feature_rows filtered (id :: ids) (run_state w) = v ->
              run_state (fst r) = fst v /\ snd r = snd v)
      by (apply H; reflexivity).
    intros r v Hr Hv. cbn [plot_charts] in Hr. cbn [plot_top10] in Hv.
    unfold fbind at 1 in Hr.
    rewrite (getitem_feature_rows_run _ features w feature_rows Hfeat) in Hr.
    unfold fbind at 1 in Hr.
    rewrite (getitem_rows_run _ filtered_predictions _ filtered) in Hr
      by (heap_lookup).
    cbn [heap run_state] in Hr.
    unfold fbind at 1 in Hr.
    match type of Hr with
    | context [read_as as_features ?x ?w0] =>
        rewrite (read_as_run as_features x w0 _ _
                   ltac:(heap_lookup) eq_refl) in Hr
    end.
    unfold fbind at 1 in Hr.
    match type of Hr with
    | context [read_as as_predictions ?x ?w0] =>
        rewrite (read_as_run as_predictions x w0 _ _
                   ltac:(heap_lookup) eq_refl) in Hr
    end.
    unfold fbind at 1 in Hr. unfold on_state at 1 in Hr.
    cbn [heap run_state] in Hr.
    change (plot_prediction E
              (List.filter (fun f => f_pickup_location_id f =? id) feature_rows)
              (List.filter (fun r0 => pickup_location_id r0 =? id) filtered))
      with (chart_of E feature_rows filtered id) in Hr.
    unfold bind at 1 in Hv.
    destruct (chart_of E feature_rows filtered id) as [e|fig].
    + cbn [lift raise] in Hr, Hv. subst r v. split; reflexivity.
    + cbn [lift ret] in Hr, Hv.
      unfold fbind at 1 in Hr. unfold on_state at 1 in Hr.
      unfold show at 1 in Hr.
      cbn [heap run_state disk io_log session page] in Hr.
      unfold bind at 1 in Hv. unfold show at 1 in Hv.
      cbn [disk io_log session page] in Hv.
      subst r v.
      match goal with
      | |- context [plot_charts _ _ _ _ ?w1] =>
          apply (IH w1); heap_lookup
      end.
Qed.

(** The display stage on references, with the sort of the model on
    values, does to the run what [display_stage] does on the rows of the
    two frames it is given: the same page, disk, log and session, and the
    same result or exception. *)
Lemma display_stage_on_refines (E : External) (features predictions : ref)
  (w : process) (feature_rows : list FeatureRow)
  (prediction_rows : list PredictionRow) :
  heap w !! features = Some (FeatureFrame feature_rows) ->
  heap w !! predictions = Some (PredictionFrame prediction_rows) ->
  run_state (fst (display_stage_on E sort_values_desc features predictions w))
  = fst (display_stage E feature_rows prediction_rows (run_state w))
  /\ snd (display_stage_on E sort_values_desc features predictions w)
     = snd (display_stage E feature_rows prediction_rows (run_state w)).
Proof.
  intros Hfeat Hpred. destruct w as [h s]. cbn [heap run_state] in *.
  set (filtered :=
         filter_predictions
           (location_ids_of (selectbox_value E borough_options))
           prediction_rows).
  set (table := head10 (sort_values_desc filtered)).
  enough (H : forall r v,
            display_stage_on E sort_values_desc features predictions
              {| heap := h; run_state := s |} = r ->
            display_stage E feature_rows prediction_rows s = v ->
            run_state (fst r) = fst v /\ snd r = snd v)
    by (apply H; reflexivity).
  intros r v Hr Hv.
  unfold display_stage_on in Hr. unfold fbind at 1 in Hr.
  unfold display_tables in Hr.
  unfold fbind at 1 in Hr. unfold on_state at 1 in Hr. unfold show at 1 in Hr.
  cbn [heap run_state disk io_log session page] in Hr.
  unfold fbind at 1 in Hr.
  rewrite (getitem_rows_run _ predictions _ prediction_rows) in Hr
    by exact Hpred.
  cbn [heap run_state] in Hr.
  change (List.filter _ prediction_rows) with filtered in Hr.
  unfold fbind at 1 in Hr. unfold on_state at 1 in Hr. unfold show at 1 in Hr.
  cbn [heap run_state disk io_log session page] in Hr.
  unfold fbind at 1 in Hr.
  rewrite (df_sort_values_run sort_values_desc (length h) _ filtered) in Hr
    by heap_lookup.
  cbn [heap run_state] in Hr.
  unfold fbind at 1 in Hr.
  rewrite (df_head_run _ _ (sort_values_desc filtered)) in Hr by heap_lookup.
  cbn [heap run_state] in Hr. fold table in Hr.
  unfold fbind at 1 in Hr.
  match type of Hr with
  | context [read_as as_predictions ?x ?w0] =>
      rewrite (read_as_run as_predictions x w0 (PredictionFrame table) table
                 ltac:(heap_lookup) eq_refl) in Hr
  end.
  unfold fbind at 1 in Hr. unfold on_state at 1 in Hr. unfold show at 1 in Hr.
  cbn [heap run_state disk io_log session page] in Hr.
  unfold fbind at 1 in Hr. unfold on_state at 1 in Hr. unfold show at 1 in Hr.
  cbn [heap run_state disk io_log session page] in Hr.
  set (h3 := ((h ++ [PredictionFrame filtered])
              ++ [PredictionFrame (sort_values_desc filtered)])
             ++ [PredictionFrame table]) in Hr.
  assert (Hf3 : forall more, (h3 ++ more) !! length h
                             = Some (PredictionFrame filtered)).
  { intros more. apply lookup_app_l_Some. unfold h3. heap_lookup. }
  assert (Hfeat3 : forall more, (h3 ++ more) !! features
                                = Some (FeatureFrame feature_rows)).
  { intros more. apply lookup_app_l_Some. unfold h3. heap_lookup. }
  unfold display_stage in Hv.
  do 4 (unfold bind at 1 in Hv; unfold show at 1 in Hv;
        cbn [disk io_log session page] in Hv).
  fold filtered in Hv. unfold ranked_table in Hv. fold table in Hv.
  unfold bind at 1 in Hv.
  unfold fbind at 1 in Hr.
  match type of Hr with
  | context [create_taxi_map_on E ?p ?d ?w0] =>
      destruct (create_taxi_map_on_run E p d w0 filtered) as [more1 Hmap];
        [cbn [heap]; rewrite <- (List.app_nil_r h3); apply Hf3|];
        rewrite Hmap in Hr; clear Hmap
  end.
  cbn [heap run_state] in Hr.
  match type of Hr with
  | context [fst (create_taxi_map E ?p filtered ?st)] =>
      match type of Hv with
      | context [create_taxi_map ?a ?b ?c ?d] =>
          change (create_taxi_map a b c d)
            with (create_taxi_map E p filtered st) in Hv
      end;
      destruct (create_taxi_map E p filtered st) as [s5 [e|m]]
  end; cbn [fst snd] in Hr.
  { subst r v. split; reflexivity. }
  unfold fbind at 1 in Hr. unfold on_state at 1 in Hr.
  cbn [heap run_state] in Hr.
  unfold bind at 1 in Hv.
  destruct (show_map s5) as [s6 [e|[]]].
  { subst r v. split; reflexivity. }
  do 3 (unfold fbind at 1 in Hr; unfold on_state at 1 in Hr;
        unfold show at 1 in Hr;
        cbn [heap run_state disk io_log session page] in Hr).
  do 3 (unfold fbind at 1 in Hr;
        match type of Hr with
        | context [read_as as_predictions ?x ?w0] =>
            rewrite (read_as_run as_predictions x w0 (PredictionFrame filtered)
                       filtered ltac:(cbn [heap]; apply Hf3) eq_refl) in Hr
        end;
        unfold fbind at 1 in Hr; unfold on_state at 1 in Hr;
        unfold show at 1 in Hr;
        cbn [heap run_state disk io_log session page] in Hr).
  unfold fbind at 1 in Hr.
  rewrite (df_sort_values_run sort_values_desc (length h) _ filtered) in Hr
    by (cbn [heap]; apply Hf3).
  cbn [heap run_state] in Hr.
  unfold fbind at 1 in Hr.
  rewrite (df_head_run _ _ (sort_values_desc filtered)) in Hr by heap_lookup.
  cbn [heap run_state] in Hr. fold table in Hr.
  unfold fbind at 1 in Hr.
  match type of Hr with
  | context [read_as as_predictions ?x ?w0] =>
      rewrite (read_as_run as_predictions x w0 (PredictionFrame table) table
                 ltac:(heap_lookup) eq_refl) in Hr
  end.
  unfold fret in Hr. cbn [fst snd] in Hr.
  do 6 (unfold bind at 1 in Hv; unfold show at 1 in Hv;
        cbn [disk io_log session page] in Hv).
  unfold top10 in Hv. fold table in Hv.
  subst r v.
  match goal with
  | |- context [plot_charts E features ?fp ?ids ?w1] =>
      apply (plot_charts_refines E features fp ids w1 feature_rows filtered)
  end.
  - cbn [heap]. do 2 apply lookup_snoc_keep. apply Hfeat3.
  - cbn [heap]. do 2 apply lookup_snoc_keep. apply Hf3.
Qed.

(** ** The ranked table and the charts *)

(** C10: in a run of lines 94-170 on the tables as objects, whatever
    order the sort gives to rows of equal demand, the page gets one table,
    the first ten rows of the sorted frame of line 106, and the list of
    line 164, whenever that line is reached, is the [pickup_location_id]
    column of that table: no step in between, the assignment to the column
    of the merged frame included, changes the frame that both lines sort,
    nor any object that was on the heap.  The zones that get a chart are
    the first of that column, in its order, at most ten, and all of it when
    the run reaches its end ([plot_prediction] may raise and stop the loop
    before). *)
Theorem top10_is_ranked_table_column (E : External)
  (sort_values : list PredictionRow -> list PredictionRow)
  (features predictions : ref) (w : process)
  (feature_rows : list FeatureRow) (prediction_rows : list PredictionRow) :
  heap w !! features = Some (FeatureFrame feature_rows) ->
  heap w !! predictions = Some (PredictionFrame prediction_rows) ->
  let filtered :=
    filter_predictions (location_ids_of (selectbox_value E borough_options))
                       prediction_rows in
  let run := display_stage_on E sort_values features predictions w in
  exists table els plotted,
    page (run_state (fst run)) = page (run_state w) ++ els
    /\ shown_tables els = [table]
    /\ table = head10 (sort_values filtered)
    /\ (length table <= 10)%nat
    /\ (forall w1 v,
          display_tables E sort_values predictions w = (w1, inr v) ->
          snd v = map pickup_location_id table
          /\ heap w1 !! fst v = Some (PredictionFrame filtered))
    /\ Forall2 (fun id fig => chart_of E feature_rows filtered id = inr fig)
               plotted (shown_charts els)
    /\ (exists rest, map pickup_location_id table = plotted ++ rest)
    /\ (snd run = inr tt -> plotted = map pickup_location_id table)
    /\ (forall r o, heap w !! r = Some o -> heap (fst run) !! r = Some o).
Proof.
  intros Hfeat Hpred filtered run.
  destruct (display_tables_run E sort_values predictions w prediction_rows Hpred)
    as [more [els [Hheap [Hpage [Htab [Hch Hval]]]]]].
  fold filtered in Hheap, Htab, Hval.
  set (table := head10 (sort_values filtered)) in *.
  assert (Hlen : (length table <= 10)%nat).
  { unfold table, head10. apply List.firstn_le_length. }
  assert (Hline : forall w1 v,
            display_tables E sort_values predictions w = (w1, inr v) ->
            snd v = map pickup_location_id table
            /\ heap w1 !! fst v = Some (PredictionFrame filtered)).
  { intros w1 v Hv. rewrite Hv in Hheap, Hval. cbn [fst snd] in Hheap, Hval.
    rewrite (Hval v eq_refl). cbn [fst snd]. split; [reflexivity|].
    rewrite Hheap. rewrite lookup_app_r by lia. rewrite Nat.sub_diag.
    reflexivity. }
  unfold run, display_stage_on, fbind.
  destruct (display_tables E sort_values predictions w) as [w1 [e|v]] eqn:Htables;
    cbn [fst snd] in Hheap, Hpage, Hval.
  - exists table, els, []. cbn [fst snd].
    split; [exact Hpage|]. split; [exact Htab|]. split; [reflexivity|].
    split; [exact Hlen|]. split; [exact Hline|].
    split; [rewrite Hch; constructor|].
    split; [exists (map pickup_location_id table); reflexivity|].
    split; [intros H; discriminate H|].
    intros r o Hr. rewrite Hheap. apply lookup_app_l_Some. exact Hr.
  - destruct (Hline w1 v eq_refl) as [Hids Hfp].
    assert (Hfeat1 : heap w1 !! features = Some (FeatureFrame feature_rows)).
    { rewrite Hheap. apply lookup_app_l_Some. exact Hfeat. }
    destruct (plot_charts_run E features (fst v) (snd v) w1 feature_rows
                filtered Hfeat1 Hfp)
      as [done [figs [more2 [Hheap2 [Hpage2 [Hall [Hpre [Hret _]]]]]]]].
    exists table, (els ++ map st_plotly_chart figs), done.
    split; [rewrite Hpage2, Hpage, <- List.app_assoc; reflexivity|].
    assert (Hfigs : forall l, shown_tables (map st_plotly_chart l) = []
                              /\ shown_charts (map st_plotly_chart l) = l).
    { induction l as [|a l [IH1 IH2]]; cbn; [auto|].
      split; [exact IH1|f_equal; exact IH2]. }
    destruct (Hfigs figs) as [Hft Hfc].
    rewrite shown_tables_app, shown_charts_app, Htab, Hch, Hft, Hfc.
    split; [reflexivity|]. split; [reflexivity|]. split; [exact Hlen|].
    split; [exact Hline|]. split; [exact Hall|].
    rewrite <- Hids. split; [exact Hpre|]. split; [exact Hret|].
    intros r o Hr. rewrite Hheap2, Hheap.
    apply lookup_app_l_Some, lookup_app_l_Some. exact Hr.
Qed.

(** The sample tables, for the Bronx: the table and the one chart are
    those of zone 3. *)
Lemma top10_is_ranked_table_column_sample :
  exists table plotted,
    shown_tables
      (page (run_state (fst (display_stage_on sample_world sort_values_desc
                               0%nat 1%nat sample_process))))
    = [table]
    /\ plotted = map pickup_location_id table
    /\ plotted = [3].
Proof.
  destruct (top10_is_ranked_table_column sample_world sort_values_desc
              0%nat 1%nat sample_process sample_features sample_predictions
              eq_refl eq_refl)
    as [table [els [plotted [Hpage [Htab [Htable [_ [_ [_ [_ [Hret _]]]]]]]]]]].
  exists table, plotted. split; [|split].
  - rewrite Hpage. cbn [sample_process run_state warm_start page].
    exact Htab.
  - apply Hret. vm_compute. reflexivity.
  - rewrite (Hret ltac:(vm_compute; reflexivity)), Htable.
    vm_compute. reflexivity.
Defined.

(** * Further properties *)

(** ** Relations that every step respects *)

Section Respects.

Context {R : state -> state -> Prop}.
Hypothesis R_refl : forall s, R s s.
Hypothesis R_trans : forall a b c, R a b -> R b c -> R a c.

Lemma respects_ret {A : Type} (x : A) : respects R (ret x).
Proof. intros s. apply R_refl. Qed.

Lemma respects_raise {A : Type} (e : exn) : respects R (@raise A e).
Proof. intros s. apply R_refl. Qed.

Lemma respects_lift {A : Type} (r : exn + A) : respects R (lift r).
Proof. destruct r; [apply respects_raise|apply respects_ret]. Qed.

Lemma respects_get_disk : respects R get_disk.
Proof. intros s. apply R_refl. Qed.

Lemma respects_get_session : respects R get_session.
Proof. intros s. apply R_refl. Qed.

Lemma respects_bind {A B : Type} (c : M A) (k : A -> M B) :
  respects R c -> (forall x, respects R (k x)) -> respects R (bind c k).
Proof.
  intros Hc Hk s. unfold bind. specialize (Hc s).
  destruct (c s) as [s1 [e|x]]; simpl in *; [exact Hc|].
  eapply R_trans; [exact Hc|apply Hk].
Qed.

Lemma respects_try_except {A : Type} (c : M A) (catches : exn -> bool)
  (handler : exn -> exn) :
  respects R c -> respects R (try_except c catches handler).
Proof.
  intros Hc s. unfold try_except. specialize (Hc s).
  destruct (c s) as [s1 [e|x]]; simpl in *; [|exact Hc].
  destruct (catches e); exact Hc.
Qed.

Lemma respects_path_exists (p : path) : respects R (path_exists p).
Proof.
  unfold path_exists. apply respects_bind; [apply respects_get_disk|].
  intros d. apply respects_ret.
Qed.

Lemma respects_ZipFile_open (E : External) (p : path) :
  respects R (ZipFile_open E p).
Proof.
  unfold ZipFile_open. apply respects_bind; [apply respects_get_disk|].
  intros d. destruct (lookup_node d p) as [[bytes|]|];
    try apply respects_raise.
  apply respects_lift.
Qed.

Lemma respects_try_pass (c : M unit) (catches : exn -> bool) :
  respects R c -> respects R (try_pass c catches).
Proof.
  intros Hc s. unfold try_pass. specialize (Hc s).
  destruct (c s) as [s1 [e|x]]; simpl in *; [|exact Hc].
  destruct (catches e); exact Hc.
Qed.

End Respects.

Lemma offline_refl (s : state) : offline s s.
Proof. exists []. rewrite List.app_nil_r. split; reflexivity. Qed.

Lemma offline_trans (a b c : state) : offline a b -> offline b c -> offline a c.
Proof.
  intros [e1 [H1 F1]] [e2 [H2 F2]]. exists (e1 ++ e2).
  rewrite H2, H1, List.app_assoc. split; [reflexivity|].
  rewrite List.forallb_app, F1, F2. reflexivity.
Qed.

Lemma disk_grows_refl (s : state) : disk_grows s s.
Proof. intros q. split; auto. Qed.

Lemma disk_grows_trans (a b c : state) :
  disk_grows a b -> disk_grows b c -> disk_grows a c.
Proof.
  intros H1 H2 q. destruct (H1 q) as [D1 S1], (H2 q) as [D2 S2].
  split; auto.
Qed.

Lemma keeps_node_refl (q : path) (s : state) : keeps_node q s s.
Proof. intros n H. exact H. Qed.

Lemma keeps_node_trans (q : path) (a b c : state) :
  keeps_node q a b -> keeps_node q b c -> keeps_node q a c.
Proof. intros H1 H2 n H. apply H2, H1, H. Qed.

Lemma adds_dirs_refl (s : state) : adds_dirs s s.
Proof. intros q. left. reflexivity. Qed.

Lemma adds_dirs_trans (a b c : state) :
  adds_dirs a b -> adds_dirs b c -> adds_dirs a c.
Proof.
  intros H1 H2 q. destruct (H1 q) as [E1|[N1 D1]], (H2 q) as [E2|[N2 D2]].
  - left. congruence.
  - right. split; congruence.
  - right. split; congruence.
  - congruence.
Qed.

Lemma same_world_refl (s : state) : same_world s s.
Proof. split; reflexivity. Qed.

Lemma same_world_trans (a b c : state) :
  same_world a b -> same_world b c -> same_world a c.
Proof. intros [D1 L1] [D2 L2]. split; congruence. Qed.

Lemma adds_dirs_grows (s s' : state) : adds_dirs s s' -> disk_grows s s'.
Proof.
  intros H q. destruct (H q) as [Heq|[Hn Hd]]; split; intros Hq.
  - congruence.
  - rewrite Heq. exact Hq.
  - congruence.
  - rewrite Hd. eauto.
Qed.

Lemma adds_dirs_keeps (q : path) (s s' : state) :
  adds_dirs s s' -> keeps_node q s s'.
Proof.
  intros H n Hq. destruct (H q) as [Heq|[Hn _]]; congruence.
Qed.

Lemma lookup_node_insert (d : gmap path node) (p q : path) (n : node) :
  p <> [] ->
  lookup_node (<[p := n]> d) q
  = if decide (p = q) then Some n else lookup_node d q.
Proof.
  intros Hp. destruct q as [|c q].
  - simpl. destruct (decide (p = [])); [contradiction|reflexivity].
  - simpl. apply lookup_insert.
Qed.

Lemma rev_cons_not_nil (c : string) (rp : list string) : rev (c :: rp) <> [].
Proof.
  simpl. intros H. apply (f_equal (@length string)) in H.
  rewrite List.length_app in H. simpl in H. lia.
Qed.

(** A new directory where there was nothing. *)
Lemma adds_dirs_insert (s : state) (p : path) (e : io_event) :
  p <> [] ->
  lookup_node (disk s) p = None \/ lookup_node (disk s) p = Some Dir ->
  adds_dirs s (fst (do_io e (<[p := Dir]> (disk s)) s)).
Proof.
  intros Hp Hnone q. simpl. rewrite lookup_node_insert by exact Hp.
  destruct (decide (p = q)) as [<-|Hne]; [|left; reflexivity].
  destruct Hnone as [Hn|Hd]; [right; auto|left; congruence].
Qed.

(** [mkdir] creates directories where there was nothing and changes
    nothing else. *)
Lemma mkdir_rev_adds_dirs (rp : list string) : respects adds_dirs (mkdir_rev rp).
Proof.
  induction rp as [|c rp IH]; intros s; cbn [mkdir_rev]; unfold bind at 1;
    unfold get_disk at 1.
  - simpl. apply adds_dirs_refl.
  - destruct (lookup_node (disk s) (rev (c :: rp))) as [[body|]|] eqn:Hp;
      try apply adds_dirs_refl.
    destruct (lookup_node (disk s) (rev rp)) as [[body|]|] eqn:Hparent;
      try apply adds_dirs_refl.
    + apply adds_dirs_insert; [apply rev_cons_not_nil|left; exact Hp].
    + unfold bind at 1. specialize (IH s).
      destruct (mkdir_rev rp s) as [s1 [e|[]]]; simpl in IH; [exact IH|].
      unfold bind at 1. unfold get_disk at 1.
      eapply adds_dirs_trans; [exact IH|].
      apply adds_dirs_insert; [apply rev_cons_not_nil|].
      destruct (IH (rev (c :: rp))) as [Heq|[_ Hd]]; [left; congruence|right; exact Hd].
Qed.

Lemma lookup_node_insert_eq (d : gmap path node) (p : path) (n : node) :
  p <> [] -> lookup_node (<[p := n]> d) p = Some n.
Proof.
  intros Hp. rewrite lookup_node_insert by exact Hp.
  destruct (decide (p = p)); [reflexivity|contradiction].
Qed.

(** When [mkdir] returns, the path is a directory. *)
Lemma mkdir_rev_returns (rp : list string) (s s' : state) :
  mkdir_rev rp s = (s', inr tt) -> lookup_node (disk s') (rev rp) = Some Dir.
Proof.
  destruct rp as [|c rp]; cbn [mkdir_rev]; unfold bind at 1;
    unfold get_disk at 1.
  - intros _. reflexivity.
  - destruct (lookup_node (disk s) (rev (c :: rp))) as [[body|]|] eqn:Hp.
    + discriminate.
    + intros H. injection H as <-. exact Hp.
    + destruct (lookup_node (disk s) (rev rp)) as [[body|]|] eqn:Hparent.
      * discriminate.
      * intros H. injection H as <-. simpl disk.
        apply lookup_node_insert_eq, rev_cons_not_nil.
      * unfold bind at 1. destruct (mkdir_rev rp s) as [s1 [e|[]]];
          [discriminate|].
        unfold bind at 1. unfold get_disk at 1. intros H. injection H as <-.
        simpl disk. apply lookup_node_insert_eq, rev_cons_not_nil.
Qed.

Lemma mkdir_returns (p : path) (s s' : state) :
  mkdir_parents_exist_ok p s = (s', inr tt) ->
  lookup_node (disk s') p = Some Dir.
Proof.
  unfold mkdir_parents_exist_ok. intros H. apply mkdir_rev_returns in H.
  rewrite rev_involutive in H. exact H.
Qed.

(** When the write returns, the file holds the bytes. *)
Lemma write_bytes_returns (p : path) (body : list Byte.byte) (s s' : state) :
  p <> [] ->
  write_bytes p body s = (s', inr tt) ->
  lookup_node (disk s') p = Some (File body).
Proof.
  intros Hp. unfold write_bytes, bind, get_disk.
  destruct (lookup_node (disk s) p) as [[old|]|]; try discriminate;
    intros H; injection H as <-; simpl disk;
    apply lookup_node_insert_eq; exact Hp.
Qed.

Lemma write_bytes_grows (p : path) (body : list Byte.byte) :
  p <> [] -> respects disk_grows (write_bytes p body).
Proof.
  intros Hp s. unfold write_bytes, bind, get_disk.
  destruct (lookup_node (disk s) p) as [[old|]|] eqn:Hold;
    try apply disk_grows_refl;
    intros q; simpl; rewrite lookup_node_insert by exact Hp;
    destruct (decide (p = q)) as [<-|Hne]; split; intros H;
    try exact H; try congruence; eauto.
Qed.

Lemma write_bytes_keeps (p q : path) (body : list Byte.byte) :
  p <> [] -> p <> q -> respects (keeps_node q) (write_bytes p body).
Proof.
  intros Hp Hpq s. unfold write_bytes, bind, get_disk.
  destruct (lookup_node (disk s) p) as [[old|]|] eqn:Hold;
    try apply keeps_node_refl;
    intros n Hn; simpl; rewrite lookup_node_insert by exact Hp;
    destruct (decide (p = q)); [contradiction|exact Hn|contradiction|exact Hn].
Qed.

Lemma do_io_offline (e : io_event) (d : gmap path node) :
  is_request e = false -> respects offline (do_io e d).
Proof.
  intros He s. exists [e]. simpl. rewrite He. split; reflexivity.
Qed.

Lemma mkdir_rev_offline (rp : list string) : respects offline (mkdir_rev rp).
Proof.
  induction rp as [|c rp IH]; cbn [mkdir_rev];
    apply (respects_bind offline_trans);
    try apply (respects_get_disk offline_refl); intros d.
  - destruct (lookup_node d (rev [])) as [[|]|];
      first [apply (respects_ret offline_refl)
            |apply (respects_raise offline_refl)].
  - destruct (lookup_node d (rev (c :: rp))) as [[|]|];
      try apply (respects_ret offline_refl);
      try apply (respects_raise offline_refl).
    destruct (lookup_node d (rev rp)) as [[|]|];
      try apply (respects_raise offline_refl).
    + apply do_io_offline. reflexivity.
    + apply (respects_bind offline_trans); [exact IH|]. intros _.
      apply (respects_bind offline_trans);
        [apply (respects_get_disk offline_refl)|].
      intros d'. apply do_io_offline. reflexivity.
Qed.

Lemma write_bytes_offline (p : path) (body : list Byte.byte) :
  respects offline (write_bytes p body).
Proof.
  unfold write_bytes. apply (respects_bind offline_trans);
    [apply (respects_get_disk offline_refl)|].
  intros d. destruct (lookup_node d p) as [[|]|];
    try apply (respects_raise offline_refl); apply do_io_offline; reflexivity.
Qed.

(** A new directory, for each relation. *)
Lemma new_dir_offline (s : state) (p : path) :
  offline s (fst (do_io (Mkdir p) (<[p := Dir]> (disk s)) s)).
Proof. apply do_io_offline. reflexivity. Qed.

Lemma new_dir_grows (s : state) (p : path) :
  p <> [] ->
  lookup_node (disk s) p = None \/ lookup_node (disk s) p = Some Dir ->
  disk_grows s (fst (do_io (Mkdir p) (<[p := Dir]> (disk s)) s)).
Proof. intros Hp H. apply adds_dirs_grows, adds_dirs_insert; assumption. Qed.

Lemma new_dir_keeps (q : path) (s : state) (p : path) :
  p <> [] ->
  lookup_node (disk s) p = None \/ lookup_node (disk s) p = Some Dir ->
  keeps_node q s (fst (do_io (Mkdir p) (<[p := Dir]> (disk s)) s)).
Proof. intros Hp H. apply adds_dirs_keeps, adds_dirs_insert; assumption. Qed.

Lemma lookup_none_not_root (d : gmap path node) (p : path) :
  lookup_node d p = None -> p <> [].
Proof. intros H ->. discriminate H. Qed.

Section Extraction.

Context {R : state -> state -> Prop}.
Hypothesis R_refl : forall s, R s s.
Hypothesis R_trans : forall a b c, R a b -> R b c -> R a c.
Hypothesis R_dir :
  forall s p, p <> [] ->
    lookup_node (disk s) p = None \/ lookup_node (disk s) p = Some Dir ->
    R s (fst (do_io (Mkdir p) (<[p := Dir]> (disk s)) s)).

Lemma respects_os_mkdir (p : path) : respects R (os_mkdir p).
Proof.
  intros s. unfold os_mkdir, bind, get_disk.
  destruct (lookup_node (disk s) p) as [n|] eqn:Hp; [apply R_refl|].
  destruct (lookup_node (disk s) (removelast p)) as [[body|]|];
    try apply R_refl.
  apply R_dir; [eapply lookup_none_not_root; exact Hp|left; exact Hp].
Qed.

Lemma respects_os_makedirs_rev (rp : list string) :
  respects R (os_makedirs_rev rp).
Proof.
  induction rp as [|c rp IH]; cbn [os_makedirs_rev];
    [apply respects_os_mkdir|].
  apply (respects_bind R_trans); [apply (respects_path_exists R_refl R_trans)|].
  intros have_head.
  apply (respects_bind R_trans); [|intros _; apply respects_os_mkdir].
  destruct have_head; [apply (respects_ret R_refl)|].
  apply respects_try_pass. exact IH.
Qed.

Lemma respects_open_wb (p : path) (body : list Byte.byte) :
  respects R (write_bytes p body) -> respects R (open_wb p body).
Proof.
  intros Hw. unfold open_wb.
  apply (respects_bind R_trans); [apply (respects_get_disk R_refl)|].
  intros d. destruct (lookup_node d (removelast p)) as [[old|]|];
    first [exact Hw|apply (respects_raise R_refl)].
Qed.

(** What the new directories and the write of the member respect, the
    extraction of a member respects. *)
Lemma respects_extract_member (infolist : list ZipInfo) (target : path)
  (name : string) :
  (forall zinfo body, getinfo infolist name = Some zinfo ->
     respects R (write_bytes (target ++ arcname_parts (filename zinfo)) body)) ->
  respects R (extract_member infolist target name).
Proof.
  intros Hw. unfold extract_member.
  destruct (getinfo infolist name) as [zinfo|]; [|apply (respects_raise R_refl)].
  specialize (Hw zinfo). assert (Hw' := fun body => Hw body eq_refl).
  clear Hw. rename Hw' into Hw.
  apply (respects_bind R_trans); [apply (respects_path_exists R_refl R_trans)|].
  intros have_upperdirs. apply (respects_bind R_trans).
  { destruct have_upperdirs; [apply (respects_ret R_refl)|].
    apply respects_os_makedirs_rev. }
  intros _. destruct (ZipInfo_is_dir zinfo) as [e|[|]];
    [apply (respects_raise R_refl)| |].
  - apply (respects_bind R_trans).
    + unfold os_path_isdir. apply (respects_bind R_trans);
        [apply (respects_get_disk R_refl)|].
      intros d. apply (respects_ret R_refl).
    + intros [|]; [apply (respects_ret R_refl)|apply respects_os_mkdir].
  - destruct (member zinfo) as [body|e|written e].
    + apply respects_open_wb, Hw.
    + apply (respects_raise R_refl).
    + apply (respects_bind R_trans); [apply respects_open_wb, Hw|].
      intros _. apply (respects_raise R_refl).
Qed.

Lemma respects_extract_names (infolist : list ZipInfo) (target : path)
  (names : list string) :
  (forall name zinfo body, List.In name names ->
     getinfo infolist name = Some zinfo ->
     respects R (write_bytes (target ++ arcname_parts (filename zinfo)) body)) ->
  respects R (extract_names infolist target names).
Proof.
  intros Hw. induction names as [|name rest IH]; cbn [extract_names].
  - apply (respects_ret R_refl).
  - apply (respects_bind R_trans).
    + apply respects_extract_member. intros zinfo body Hz.
      apply (Hw name zinfo body (or_introl eq_refl) Hz).
    + intros _. apply IH. intros name' zinfo body Hin.
      apply (Hw name' zinfo body (or_intror Hin)).
Qed.

Lemma respects_extractall (target : path) (infolist : list ZipInfo) :
  (forall parts body, respects R (write_bytes (target ++ parts) body)) ->
  respects R (extractall target infolist).
Proof.
  intros Hw. apply respects_extract_names. intros name zinfo body _ _.
  apply Hw.
Qed.

Lemma respects_extract_and_read (E : External) (data_dir : path) :
  (forall name body,
     respects R (write_bytes ((data_dir ++ ["taxi_zones"]) ++ name) body)) ->
  respects R (extract_and_read E data_dir).
Proof.
  intros Hw. unfold extract_and_read.
  apply (respects_bind R_trans); [apply (respects_path_exists R_refl R_trans)|].
  intros have_shp. apply (respects_bind R_trans).
  { destruct have_shp; [apply (respects_ret R_refl)|].
    apply respects_try_except. apply (respects_bind R_trans).
    - apply (respects_ZipFile_open R_refl R_trans).
    - intros members. apply respects_extractall. exact Hw. }
  intros _. apply (respects_bind R_trans); [apply (respects_get_disk R_refl)|].
  intros d. apply (respects_bind R_trans); [apply (respects_lift R_refl)|].
  intros gdf. apply (respects_ret R_refl).
Qed.

End Extraction.

(** ** The cache: what it leaves on the disk *)

Lemma zip_path_not_nil (data_dir : path) : zip_path_of data_dir <> [].
Proof.
  unfold zip_path_of. intros H. apply (f_equal (@length string)) in H.
  rewrite List.length_app in H. simpl in H. lia.
Qed.

Lemma extract_target_not_nil (data_dir name : path) :
  (data_dir ++ ["taxi_zones"]) ++ name <> [].
Proof.
  intros H. apply (f_equal (@length string)) in H.
  rewrite !List.length_app in H. simpl in H. lia.
Qed.

(** No member of the archive is extracted onto the archive. *)
Lemma extract_target_not_zip (data_dir name : path) :
  (data_dir ++ ["taxi_zones"]) ++ name <> zip_path_of data_dir.
Proof.
  unfold zip_path_of. rewrite <- List.app_assoc. intros H.
  apply List.app_inv_head in H. simpl in H. discriminate H.
Qed.

(** The function is its three parts in a row. *)
Lemma load_shape_data_file_parts (E : External) (data_dir : path)
  (url : string) :
  load_shape_data_file E data_dir url
  = (mkdir_parents_exist_ok data_dir;;
     let* have_zip := path_exists (zip_path_of data_dir) in
     (if have_zip then ret tt else download_archive E data_dir url);;
     extract_and_read E data_dir).
Proof. reflexivity. Qed.

Section Cache.

Context {R : state -> state -> Prop}.
Variable data_dir : path.
Hypothesis R_refl : forall s, R s s.
Hypothesis R_trans : forall a b c, R a b -> R b c -> R a c.
Hypothesis R_mkdir : forall rp, respects R (mkdir_rev rp).
Hypothesis R_dir :
  forall s p, p <> [] ->
    lookup_node (disk s) p = None \/ lookup_node (disk s) p = Some Dir ->
    R s (fst (do_io (Mkdir p) (<[p := Dir]> (disk s)) s)).
Hypothesis R_write_archive :
  forall body, respects R (write_bytes (zip_path_of data_dir) body).
Hypothesis R_write_member :
  forall name body,
    respects R (write_bytes ((data_dir ++ ["taxi_zones"]) ++ name) body).
Hypothesis R_log : forall e, respects R (log_io e).

Lemma respects_download_archive (E : External) (url : string) :
  respects R (download_archive E data_dir url).
Proof.
  unfold download_archive. apply respects_try_except.
  apply (respects_bind R_trans); [apply R_log|]. intros _.
  apply (respects_bind R_trans); [apply (respects_lift R_refl)|]. intros r.
  destruct (raise_for_status url r); [apply (respects_raise R_refl)|].
  apply R_write_archive.
Qed.

(** What [mkdir], the two kinds of write and the log entries respect, the
    whole call respects. *)
Lemma respects_load_shape_data_file (E : External) (url : string) :
  respects R (load_shape_data_file E data_dir url).
Proof.
  rewrite load_shape_data_file_parts.
  apply (respects_bind R_trans); [apply R_mkdir|]. intros _.
  apply (respects_bind R_trans); [apply (respects_path_exists R_refl R_trans)|].
  intros have_zip. apply (respects_bind R_trans).
  { destruct have_zip; [apply (respects_ret R_refl)|].
    apply respects_download_archive. }
  intros _.
  apply (respects_extract_and_read R_refl R_trans R_dir). exact R_write_member.
Qed.

End Cache.

Lemma log_io_grows (e : io_event) : respects disk_grows (log_io e).
Proof. intros s q. simpl. split; auto. Qed.

Lemma mkdir_rev_grows (rp : list string) : respects disk_grows (mkdir_rev rp).
Proof. intros s. apply adds_dirs_grows, mkdir_rev_adds_dirs. Qed.

Lemma mkdir_rev_keeps (q : path) (rp : list string) :
  respects (keeps_node q) (mkdir_rev rp).
Proof. intros s. apply adds_dirs_keeps, mkdir_rev_adds_dirs. Qed.

(** The part of the call after the archive is in place: it makes no
    request and leaves the archive as it is. *)
Lemma extract_and_read_offline (E : External) (data_dir : path) (s : state) :
  offline s (fst (extract_and_read E data_dir s))
  /\ keeps_node (zip_path_of data_dir) s (fst (extract_and_read E data_dir s))
  /\ disk_grows s (fst (extract_and_read E data_dir s)).
Proof.
  split; [|split].
  - apply (respects_extract_and_read offline_refl offline_trans
             (fun s p _ _ => new_dir_offline s p) E data_dir).
    intros name body. apply write_bytes_offline.
  - apply (respects_extract_and_read (keeps_node_refl _) (keeps_node_trans _)
             (new_dir_keeps _) E data_dir).
    intros name body. apply write_bytes_keeps;
      [apply extract_target_not_nil|apply extract_target_not_zip].
  - apply (respects_extract_and_read disk_grows_refl disk_grows_trans
             new_dir_grows E data_dir).
    intros name body. apply write_bytes_grows, extract_target_not_nil.
Qed.

(** With the archive in place the call goes from [mkdir] to the
    extraction. *)
Lemma load_with_archive (E : External) (data_dir : path) (url : string)
  (s : state) (n : node) :
  lookup_node (disk s) (zip_path_of data_dir) = Some n ->
  forall r, load_shape_data_file E data_dir url s = r ->
    offline s (fst r)
    /\ lookup_node (disk (fst r)) (zip_path_of data_dir) = Some n.
Proof.
  intros Hzip r Hr. rewrite load_shape_data_file_parts in Hr.
  unfold bind at 1 in Hr.
  pose proof (mkdir_rev_offline (rev data_dir) s) as Hoff.
  pose proof (mkdir_rev_keeps (zip_path_of data_dir) (rev data_dir) s n Hzip)
    as Hkeep.
  unfold mkdir_parents_exist_ok in Hr.
  destruct (mkdir_rev (rev data_dir) s) as [s1 [e|[]]]; cbn [fst] in Hoff, Hkeep;
    [subst r; split; assumption|].
  unfold bind at 1 in Hr.
  rewrite (path_exists_true _ _ ltac:(rewrite Hkeep; eauto)) in Hr.
  unfold bind at 1 in Hr. unfold ret at 1 in Hr. subst r.
  destruct (extract_and_read_offline E data_dir s1) as [Hoff' [Hkeep' _]].
  split.
  - eapply offline_trans; [exact Hoff|exact Hoff'].
  - apply Hkeep'. exact Hkeep.
Qed.

(** X1: when the archive is in the data directory, whatever else is
    there, [load_shape_data_file] sends no request, and the archive is
    what it was when the call ends, whether it returns or raises. *)
Theorem archive_is_not_fetched_again (E : External) (data_dir : path)
  (url : string) (s : state) (n : node) :
  lookup_node (disk s) (zip_path_of data_dir) = Some n ->
  offline s (fst (load_shape_data_file E data_dir url s))
  /\ lookup_node (disk (fst (load_shape_data_file E data_dir url s)))
       (zip_path_of data_dir) = Some n.
Proof.
  intros Hzip. eapply load_with_archive; [exact Hzip|reflexivity].
Qed.

(** The archive is extracted from the disk, without a request. *)
Lemma archive_is_not_fetched_again_sample :
  io_log (fst (load_shape_data_file timeout_world ["data"] default_url
                 archive_only_start))
  = [Mkdir ["data"; "taxi_zones"];
     WriteFile ["data"; "taxi_zones"; "taxi_zones.shp"] [Byte.x00]]
  /\ lookup_node (disk (fst (load_shape_data_file timeout_world ["data"]
                               default_url archive_only_start)))
       (zip_path_of ["data"]) = Some (File good_archive).
Proof.
  split; [vm_compute; reflexivity|].
  apply (archive_is_not_fetched_again timeout_world ["data"] default_url
           archive_only_start (File good_archive)).
  vm_compute. reflexivity.
Defined.

Lemma log_io_keeps (q : path) (e : io_event) : respects (keeps_node q) (log_io e).
Proof. intros s n H. exact H. Qed.

Lemma load_grows (E : External) (data_dir : path) (url : string) :
  respects disk_grows (load_shape_data_file E data_dir url).
Proof.
  apply (respects_load_shape_data_file data_dir disk_grows_refl
           disk_grows_trans mkdir_rev_grows new_dir_grows).
  - intros body. apply write_bytes_grows, zip_path_not_nil.
  - intros name body. apply write_bytes_grows, extract_target_not_nil.
  - apply log_io_grows.
Qed.

Lemma load_keeps_outside (E : External) (data_dir : path) (url : string)
  (q : path) :
  q <> zip_path_of data_dir ->
  (forall name, q <> (data_dir ++ ["taxi_zones"]) ++ name) ->
  respects (keeps_node q) (load_shape_data_file E data_dir url).
Proof.
  intros Hzip Hout.
  apply (respects_load_shape_data_file data_dir (keeps_node_refl q)
           (keeps_node_trans q) (mkdir_rev_keeps q) (new_dir_keeps q)).
  - intros body. apply write_bytes_keeps; [apply zip_path_not_nil|].
    intros H. apply Hzip. symmetry. exact H.
  - intros name body. apply write_bytes_keeps; [apply extract_target_not_nil|].
    intros H. apply (Hout name). symmetry. exact H.
  - apply log_io_keeps.
Qed.

(** X2: [load_shape_data_file] removes nothing: a path that exists
    before the call exists after it, and a directory is still a directory;
    and a node that is not under [data_dir/taxi_zones] is after the call
    what it was before, the archive included.  This holds whether the call
    returns or raises. *)
Theorem load_shape_data_file_only_adds (E : External) (data_dir : path)
  (url : string) (s : state) (q : path) :
  let s' := fst (load_shape_data_file E data_dir url s) in
  (lookup_node (disk s) q = Some Dir -> lookup_node (disk s') q = Some Dir)
  /\ (is_Some (lookup_node (disk s) q) -> is_Some (lookup_node (disk s') q))
  /\ ((forall name, q <> (data_dir ++ ["taxi_zones"]) ++ name) ->
      forall n, lookup_node (disk s) q = Some n ->
                lookup_node (disk s') q = Some n).
Proof.
  intros s'. destruct (load_grows E data_dir url s q) as [Hd Hs].
  split; [exact Hd|]. split; [exact Hs|].
  intros Hout n Hn. destruct (decide (q = zip_path_of data_dir)) as [->|Hne].
  - eapply load_with_archive; [exact Hn|reflexivity].
  - apply (load_keeps_outside E data_dir url q Hne Hout s n Hn).
Qed.

(** A file beside the cache survives a first visit. *)
Lemma load_shape_data_file_only_adds_sample :
  lookup_node (disk (fst (load_shape_data_file sample_world ["data"]
                            default_url notes_start)))
    ["data"; "notes.txt"] = Some (File [Byte.x41]).
Proof.
  apply (proj2 (proj2 (load_shape_data_file_only_adds sample_world ["data"]
                         default_url notes_start ["data"; "notes.txt"]))).
  - intros name H. simpl in H. discriminate H.
  - vm_compute. reflexivity.
Defined.

(** The run of the call when the archive has to be fetched and the
    response passes the status check. *)
Lemma load_after_download (E : External) (data_dir : path) (url : string)
  (s s1 : state) (r : Response) :
  mkdir_parents_exist_ok data_dir s = (s1, inr tt) ->
  lookup_node (disk s1) (zip_path_of data_dir) = None ->
  requests_get E url 10 = inr r ->
  raise_for_status url r = None ->
  load_shape_data_file E data_dir url s
  = extract_and_read E data_dir (with_archive data_dir url (content r) s1).
Proof.
  intros Hmk Hzip Hget Hst. rewrite load_shape_data_file_parts.
  unfold bind at 1. rewrite Hmk.
  unfold bind at 1. rewrite (path_exists_false _ _ Hzip).
  unfold bind at 1. unfold download_archive, try_except at 1.
  unfold bind at 1. unfold log_io at 1.
  unfold bind at 1. rewrite Hget. unfold lift at 1. unfold ret at 1.
  rewrite Hst. unfold write_bytes at 1. unfold bind at 1.
  unfold get_disk at 1. cbn [disk]. rewrite Hzip. unfold do_io at 1.
  cbn [disk io_log session page]. reflexivity.
Qed.

(** ** The two failures of the cache *)

(** With the archive in place the call goes from [mkdir] to the second
    half. *)
Lemma load_archive_present (E : External) (data_dir : path) (url : string)
  (s s1 : state) :
  mkdir_parents_exist_ok data_dir s = (s1, inr tt) ->
  is_Some (lookup_node (disk s1) (zip_path_of data_dir)) ->
  load_shape_data_file E data_dir url s = extract_and_read E data_dir s1.
Proof.
  intros Hmk Hzip. rewrite load_shape_data_file_parts.
  unfold bind at 1. rewrite Hmk.
  unfold bind at 1. rewrite (path_exists_true _ _ Hzip).
  unfold bind at 1. unfold ret at 1. reflexivity.
Qed.

(** zipfile raises on opening the archive. *)
Lemma extract_and_read_open_raises (E : External) (data_dir : path)
  (s : state) (bytes : list Byte.byte) (e : exn) :
  lookup_node (disk s) (zip_path_of data_dir) = Some (File bytes) ->
  lookup_node (disk s) (shapefile_path_of data_dir) = None ->
  zip_infolist E bytes = inl e ->
  extract_and_read E data_dir s = (s, inl (extraction_raises e)).
Proof.
  intros Hzip Hshp Hbad. unfold extract_and_read.
  unfold bind at 1. rewrite (path_exists_false _ _ Hshp).
  unfold bind at 1. unfold try_except at 1.
  unfold bind at 1. unfold ZipFile_open at 1. unfold bind at 1.
  unfold get_disk at 1. rewrite Hzip, Hbad. unfold lift at 1, raise at 1.
  unfold extraction_raises. destruct (is_BadZipFile e); reflexivity.
Qed.

(** zipfile raises while it extracts an entry. *)
Lemma extract_and_read_extract_raises (E : External) (data_dir : path)
  (s s' : state) (bytes : list Byte.byte) (infolist : list ZipInfo) (e : exn) :
  lookup_node (disk s) (zip_path_of data_dir) = Some (File bytes) ->
  lookup_node (disk s) (shapefile_path_of data_dir) = None ->
  zip_infolist E bytes = inr infolist ->
  extractall (data_dir ++ ["taxi_zones"]) infolist s = (s', inl e) ->
  extract_and_read E data_dir s = (s', inl (extraction_raises e)).
Proof.
  intros Hzip Hshp Hdir Hbad. unfold extract_and_read.
  unfold bind at 1. rewrite (path_exists_false _ _ Hshp).
  unfold bind at 1. unfold try_except at 1.
  unfold bind at 1. unfold ZipFile_open at 1. unfold bind at 1.
  unfold get_disk at 1. rewrite Hzip, Hdir. unfold lift at 1, ret at 1.
  rewrite Hbad. unfold extraction_raises.
  destruct (is_BadZipFile e); reflexivity.
Qed.

(** C5, as stated, fails on two counts.  With the archive absent and a
    response of status 300 the call does not raise the download failure:
    the body is written (here it is a good archive, and the call returns
    the zones).  And an archive that cannot be extracted is reported as an
    extraction failure only when zipfile raises BadZipFile: the error of a
    damaged compressed stream (zlib.error) leaves the call as it is. *)
Lemma load_failures_not_as_stated :
  ~ (forall (E : External) (data_dir : path) (url : string) (s : state)
            (r : Response),
        lookup_node (disk s) (zip_path_of data_dir) = None ->
        requests_get E url 10 = inr r ->
        ~ (200 <= status_code r < 300) ->
        exists e, snd (load_shape_data_file E data_dir url s)
                  = inl (download_failure e))
  /\ ~ (forall (E : External) (data_dir : path) (url : string) (s : state)
               (bytes : list Byte.byte),
          lookup_node (disk s) (zip_path_of data_dir) = Some (File bytes) ->
          lookup_node (disk s) (shapefile_path_of data_dir) = None ->
          corrupt E bytes ->
          exists e, snd (load_shape_data_file E data_dir url s)
                    = inl (extraction_failure e)).
Proof.
  split; intros H.
  - destruct (H redirect_world ["data"] default_url cold_start
                {| status_code := 300; reason := "Multiple Choices";
                   content := good_archive |}) as [e He].
    + vm_compute. reflexivity.
    + reflexivity.
    + simpl. lia.
    + vm_compute in He. discriminate He.
  - destruct (H damaged_stream_world ["data"] default_url archive_only_start
                good_archive) as [e He].
    + vm_compute. reflexivity.
    + vm_compute. reflexivity.
    + unfold corrupt. cbn. eexists. split; [left; reflexivity|exact I].
    + assert (Hrun : snd (load_shape_data_file damaged_stream_world ["data"]
                            default_url archive_only_start)
                     = inl damaged_stream) by (vm_compute; reflexivity).
      rewrite Hrun in He. discriminate He.
Qed.

(** C5, amended.  With the archive absent the call sends one GET with a
    timeout of 10 seconds; if the request raises a RequestException (a
    timeout is one) or the response has a 4xx or 5xx status, the call
    raises [Exception("Failed to download file: ...")] and writes nothing;
    a response of any other status is written as the archive, which is on
    the disk when the call ends, and the call goes on to the extraction.
    With the archive in place the call goes to the extraction at once.
    There, with the shapefile absent, an exception that zipfile raises on
    opening the archive or while extracting an entry ends the call: as
    [Exception("Failed to extract zip file: ...")] when it is a
    BadZipFile, as it is otherwise. *)
Theorem load_shape_data_file_failures (E : External) (data_dir : path)
  (url : string) (s s1 : state) :
  mkdir_parents_exist_ok data_dir s = (s1, inr tt) ->
  (lookup_node (disk s1) (zip_path_of data_dir) = None ->
     (forall e, requests_get E url 10 = inl e ->
        is_RequestException e = true ->
        load_shape_data_file E data_dir url s
        = (with_log s1 [HttpGet url 10], inl (download_failure e)))
     /\ (forall r, requests_get E url 10 = inr r ->
           400 <= status_code r < 600 ->
           exists msg,
             load_shape_data_file E data_dir url s
             = (with_log s1 [HttpGet url 10],
                inl (download_failure (HTTPError msg))))
     /\ (forall r, requests_get E url 10 = inr r ->
           status_code r < 400 \/ 600 <= status_code r ->
           load_shape_data_file E data_dir url s
           = extract_and_read E data_dir
               (with_archive data_dir url (content r) s1)
           /\ lookup_node (disk (with_archive data_dir url (content r) s1))
                (zip_path_of data_dir) = Some (File (content r))
           /\ lookup_node (disk (fst (load_shape_data_file E data_dir url s)))
                (zip_path_of data_dir) = Some (File (content r))))
  /\ (is_Some (lookup_node (disk s1) (zip_path_of data_dir)) ->
      load_shape_data_file E data_dir url s = extract_and_read E data_dir s1)
  /\ (forall s2 bytes,
        lookup_node (disk s2) (zip_path_of data_dir) = Some (File bytes) ->
        lookup_node (disk s2) (shapefile_path_of data_dir) = None ->
        (forall e, zip_infolist E bytes = inl e ->
           extract_and_read E data_dir s2
           = (s2, inl (if is_BadZipFile e then extraction_failure e else e)))
        /\ (forall infolist s3 e, zip_infolist E bytes = inr infolist ->
              extractall (data_dir ++ ["taxi_zones"]) infolist s2
              = (s3, inl e) ->
              extract_and_read E data_dir s2
              = (s3, inl (if is_BadZipFile e then extraction_failure e
                          else e))))
  /\ (forall msg, is_RequestException (Raise "Timeout" msg) = true
                  /\ is_RequestException (Raise "ConnectTimeout" msg) = true
                  /\ is_RequestException (Raise "ReadTimeout" msg) = true
                  /\ is_BadZipFile (BadZipFile msg) = true).
Proof.
  intros Hmk. split; [|split; [|split]].
  - intros Hzip. split; [|split].
    + intros e Hget Hreq. eapply load_request_raises; eauto.
    + intros r Hget Hst.
      destruct (raise_for_status_error url r Hst) as [msg Hmsg].
      exists msg. eapply load_status_error; eauto.
    + intros r Hget Hst.
      pose proof (load_after_download E data_dir url s s1 r Hmk Hzip Hget
                    (raise_for_status_quiet url r Hst)) as Hrun.
      assert (Hwritten : lookup_node
                (disk (with_archive data_dir url (content r) s1))
                (zip_path_of data_dir) = Some (File (content r))).
      { unfold with_archive. cbn [disk].
        apply lookup_node_insert_eq, zip_path_not_nil. }
      split; [exact Hrun|]. split; [exact Hwritten|]. rewrite Hrun.
      destruct (extract_and_read_offline E data_dir
                  (with_archive data_dir url (content r) s1)) as [_ [Hkeep _]].
      apply Hkeep. exact Hwritten.
  - intros Hzip. apply load_archive_present; assumption.
  - intros s2 bytes Hzip Hshp. split.
    + intros e Hbad.
      apply (extract_and_read_open_raises E data_dir s2 bytes e Hzip Hshp Hbad).
    + intros infolist s3 e Hdir Hbad.
      apply (extract_and_read_extract_raises E data_dir s2 s3 bytes infolist e
               Hzip Hshp Hdir Hbad).
  - intros msg. repeat split.
Qed.

(** A timeout; a 404; a 300 whose body is a good archive; a body that is
    not a zip file; and an archive on the disk whose second entry fails its
    CRC check, after the first has been extracted. *)
Lemma load_shape_data_file_failures_sample :
  snd (load_shape_data_file timeout_world ["data"] default_url cold_start)
  = inl (Exception "Failed to download file: Read timed out. (read timeout=10)")
  /\ (exists msg,
        snd (load_shape_data_file not_found_world ["data"] default_url cold_start)
        = inl (download_failure (HTTPError msg)))
  /\ lookup_node
       (disk (fst (load_shape_data_file redirect_world ["data"] default_url
                     cold_start)))
       (zip_path_of ["data"]) = Some (File good_archive)
  /\ snd (load_shape_data_file corrupt_world ["data"] default_url cold_start)
     = inl (Exception "Failed to extract zip file: File is not a zip file")
  /\ (let run := load_shape_data_file bad_crc_world ["data"] default_url
                   archive_only_start in
      snd run
      = inl (Exception
               "Failed to extract zip file: Bad CRC-32 for file 'taxi_zones.shp'")
      /\ lookup_node (disk (fst run)) ["data"; "taxi_zones"; "taxi_zones.dbf"]
         = Some (File [Byte.x01])).
Proof.
  assert (Hmk : mkdir_parents_exist_ok ["data"] cold_start
                = (fst (mkdir_parents_exist_ok ["data"] cold_start), inr tt))
    by (vm_compute; reflexivity).
  assert (Hzip : lookup_node (disk (fst (mkdir_parents_exist_ok ["data"] cold_start)))
                   (zip_path_of ["data"]) = None)
    by (vm_compute; reflexivity).
  split; [|split; [|split; [|split]]].
  - pose proof (proj1 (load_shape_data_file_failures timeout_world ["data"]
                  default_url cold_start _ Hmk)) as H.
    destruct (H Hzip) as [H1 _].
    rewrite (H1 (Raise "ReadTimeout" "Read timed out. (read timeout=10)")
                eq_refl eq_refl).
    reflexivity.
  - pose proof (proj1 (load_shape_data_file_failures not_found_world ["data"]
                  default_url cold_start _ Hmk)) as H.
    destruct (H Hzip) as [_ [H2 _]].
    destruct (H2 {| status_code := 404; reason := "Not Found"; content := [] |}
                 eq_refl ltac:(simpl; lia)) as [msg Hmsg].
    exists msg. rewrite Hmsg. reflexivity.
  - pose proof (proj1 (load_shape_data_file_failures redirect_world ["data"]
                  default_url cold_start _ Hmk)) as H.
    destruct (H Hzip) as [_ [_ H3]].
    exact (proj2 (proj2 (H3 {| status_code := 300; reason := "Multiple Choices";
                               content := good_archive |}
                            eq_refl ltac:(simpl; lia)))).
  - pose proof (load_shape_data_file_failures corrupt_world ["data"]
                  default_url cold_start _ Hmk) as [Hdl [_ [Hex _]]].
    destruct (Hdl Hzip) as [_ [_ H3]].
    destruct (H3 {| status_code := 200; reason := "OK"; content := [Byte.x00] |}
                 eq_refl ltac:(simpl; lia)) as [Hrun [Hwritten _]].
    rewrite Hrun.
    destruct (Hex _ [Byte.x00] Hwritten ltac:(vm_compute; reflexivity))
      as [Hopen _].
    rewrite (Hopen (BadZipFile "File is not a zip file") eq_refl).
    reflexivity.
  - assert (Hmk' : mkdir_parents_exist_ok ["data"] archive_only_start
                   = (archive_only_start, inr tt)) by (vm_compute; reflexivity).
    pose proof (load_shape_data_file_failures bad_crc_world ["data"]
                  default_url archive_only_start _ Hmk') as [_ [Hpresent [Hex _]]].
    cbv zeta. rewrite Hpresent by (vm_compute; eexists; reflexivity).
    destruct (Hex archive_only_start good_archive
                ltac:(vm_compute; reflexivity) ltac:(vm_compute; reflexivity))
      as [_ Hextract].
    rewrite (Hextract bad_crc_infolist
               (fst (extractall ["data"; "taxi_zones"] bad_crc_infolist
                       archive_only_start))
               (BadZipFile "Bad CRC-32 for file 'taxi_zones.shp'") eq_refl).
    + split; [reflexivity|vm_compute; reflexivity].
    + assert (Hsnd : snd (extractall ["data"; "taxi_zones"] bad_crc_infolist
                            archive_only_start)
                     = inl (BadZipFile "Bad CRC-32 for file 'taxi_zones.shp'"))
        by (vm_compute; reflexivity).
      rewrite <- Hsnd. apply surjective_pairing.
Defined.



Lemma path_exists_run (p : path) (s : state) :
  path_exists p s = (s, inr (bool_decide (is_Some (lookup_node (disk s) p)))).
Proof. reflexivity. Qed.

(** When the download returns, the archive is on the disk and nothing
    was removed. *)
Lemma download_archive_returns (E : External) (data_dir : path) (url : string)
  (s s' : state) :
  download_archive E data_dir url s = (s', inr tt) ->
  is_Some (lookup_node (disk s') (zip_path_of data_dir)) /\ disk_grows s s'.
Proof.
  unfold download_archive, try_except. intros H.
  match type of H with
  | context [match ?c s with _ => _ end] => destruct (c s) as [s2 [e|[]]] eqn:Hc
  end.
  { destruct (is_RequestException e); discriminate H. }
  injection H as ->.
  unfold bind at 1 in Hc. unfold log_io at 1 in Hc.
  unfold bind at 1 in Hc.
  destruct (requests_get E url 10) as [e|r]; [discriminate Hc|].
  unfold lift at 1, ret at 1 in Hc.
  destruct (raise_for_status url r); [discriminate Hc|].
  match type of Hc with
  | write_bytes _ _ ?st = _ =>
      pose proof (write_bytes_grows (zip_path_of data_dir) (content r)
                    (zip_path_not_nil data_dir) st) as Hg;
      rewrite Hc in Hg; cbn [fst] in Hg
  end.
  apply write_bytes_returns in Hc; [|apply zip_path_not_nil].
  split; [rewrite Hc; eauto|].
  intros q. destruct (Hg q) as [Hd Hs]. split; intros Hq.
  - apply Hd. exact Hq.
  - apply Hs. exact Hq.
Qed.

(** When the second half returns, it has read the shapefile of the disk
    it leaves. *)
Lemma extract_and_read_returns (E : External) (data_dir : path)
  (s s' : state) (z : list ZoneRow) :
  extract_and_read E data_dir s = (s', inr z) ->
  read_cached E data_dir s' = inr z.
Proof.
  unfold extract_and_read. intros H.
  apply bind_inr_inv in H. destruct H as [s1 [have_shp [_ H]]].
  apply bind_inr_inv in H. destruct H as [s2 [[] [_ H]]].
  unfold bind, get_disk, lift in H. unfold read_cached.
  destruct (gpd_read_file E (disk s2) (shapefile_path_of data_dir)) as [e|gdf] eqn:Hr;
    simpl in H; [discriminate|].
  unfold ret in H. injection H as <- <-. rewrite Hr. reflexivity.
Qed.

(** After a call that returned, the cache is complete. *)
Lemma load_returns_cached (E : External) (data_dir : path) (url : string)
  (s s' : state) (z : list ZoneRow) :
  reads_existing E ->
  load_shape_data_file E data_dir url s = (s', inr z) ->
  lookup_node (disk s') data_dir = Some Dir
  /\ is_Some (lookup_node (disk s') (zip_path_of data_dir))
  /\ is_Some (lookup_node (disk s') (shapefile_path_of data_dir))
  /\ read_cached E data_dir s' = inr z.
Proof.
  intros Hreader H. rewrite load_shape_data_file_parts in H.
  apply bind_inr_inv in H. destruct H as [sa [[] [Hmk H]]].
  apply mkdir_returns in Hmk.
  apply bind_inr_inv in H. destruct H as [sb [have_zip [Hex H]]].
  rewrite path_exists_run in Hex. injection Hex as <- <-.
  apply bind_inr_inv in H. destruct H as [sc [[] [Hdl H]]].
  assert (Hsc : lookup_node (disk sc) data_dir = Some Dir
                /\ is_Some (lookup_node (disk sc) (zip_path_of data_dir))).
  { destruct (bool_decide (is_Some (lookup_node (disk sa) (zip_path_of data_dir))))
      eqn:Hb.
    - unfold ret in Hdl. injection Hdl as <-.
      apply bool_decide_eq_true_1 in Hb. auto.
    - apply download_archive_returns in Hdl. destruct Hdl as [Hz Hg].
      split; [apply Hg; exact Hmk|exact Hz]. }
  destruct Hsc as [Hdir Hzip].
  destruct (extract_and_read_offline E data_dir sc) as [_ [_ Hg]].
  pose proof (extract_and_read_returns E data_dir sc s' z H) as Hread.
  rewrite H in Hg. cbn [fst] in Hg.
  split; [apply Hg; exact Hdir|]. split; [apply Hg; exact Hzip|].
  split; [|exact Hread].
  unfold read_cached in Hread.
  destruct (gpd_read_file E (disk s') (shapefile_path_of data_dir)) as [e|gdf] eqn:Hr;
    [discriminate|].
  eapply Hreader. exact Hr.
Qed.


Lemma sample_world_reads_existing (answer : exn + Response)
  (features : exn + list FeatureRow) (predictions : exn + list PredictionRow)
  (choice : string) : reads_existing (world answer features predictions choice).
Proof.
  intros d p zones. unfold world. cbn [gpd_read_file].
  destruct p as [|c p]; [simpl; eauto|].
  cbn [lookup_node]. destruct (d !! (c :: p)) as [[body|]|]; try discriminate.
  eauto.
Qed.


(** X5: only the two failures the code names are reported as such.  An
    exception of [requests.get] that is not a RequestException leaves the
    call as it is, and so does the error of opening an archive path that is
    a directory: neither is turned into the download or the extraction
    failure. *)
Theorem other_exceptions_escape (E : External) (data_dir : path)
  (url : string) (s s1 : state) :
  mkdir_parents_exist_ok data_dir s = (s1, inr tt) ->
  (forall e, lookup_node (disk s1) (zip_path_of data_dir) = None ->
     requests_get E url 10 = inl e ->
     is_RequestException e = false ->
     load_shape_data_file E data_dir url s
     = (with_log s1 [HttpGet url 10], inl e))
  /\ (lookup_node (disk s1) (zip_path_of data_dir) = Some Dir ->
      lookup_node (disk s1) (shapefile_path_of data_dir) = None ->
      load_shape_data_file E data_dir url s
      = (s1, inl (IsADirectoryError "Is a directory"))).
Proof.
  intros Hmk. split.
  - intros e Hzip Hget Hreq. rewrite load_shape_data_file_parts.
    unfold bind at 1. rewrite Hmk.
    unfold bind at 1. rewrite (path_exists_false _ _ Hzip).
    unfold bind at 1. unfold download_archive, try_except at 1.
    unfold bind at 1. unfold log_io at 1.
    unfold bind at 1. rewrite Hget. unfold lift at 1. unfold raise at 1.
    rewrite Hreq. reflexivity.
  - intros Hzip Hshp. rewrite load_shape_data_file_parts.
    unfold bind at 1. rewrite Hmk.
    unfold bind at 1.
    rewrite (path_exists_true _ _ ltac:(rewrite Hzip; eauto)).
    unfold bind at 1. unfold ret at 1. unfold extract_and_read.
    unfold bind at 1. rewrite (path_exists_false _ _ Hshp).
    unfold bind at 1. unfold try_except at 1.
    unfold bind at 1. unfold ZipFile_open at 1. unfold bind at 1.
    unfold get_disk at 1. rewrite Hzip. unfold raise at 1. reflexivity.
Qed.

(** An interrupt during the request, and a directory named
    [taxi_zones.zip]. *)
Lemma other_exceptions_escape_sample :
  snd (load_shape_data_file interrupted_world ["data"] default_url cold_start)
  = inl (Raise "KeyboardInterrupt" "")
  /\ snd (load_shape_data_file sample_world ["data"] default_url
            archive_is_dir_start)
     = inl (IsADirectoryError "Is a directory").
Proof.
  split.
  - rewrite (proj1 (other_exceptions_escape interrupted_world ["data"]
                      default_url cold_start
                      (fst (mkdir_parents_exist_ok ["data"] cold_start))
                      ltac:(vm_compute; reflexivity))
               (Raise "KeyboardInterrupt" ""));
      [reflexivity|vm_compute; reflexivity|reflexivity|reflexivity].
  - rewrite (proj2 (other_exceptions_escape sample_world ["data"] default_url
                      archive_is_dir_start archive_is_dir_start
                      ltac:(vm_compute; reflexivity)));
      [reflexivity|vm_compute; reflexivity|vm_compute; reflexivity].
Defined.

(** ** The display stage and the whole run *)

(** When the fetch stage returns, the shapefile can be read from the
    disk it leaves. *)
Lemma fetch_stage_returns (E : External) (s s2 : state)
  (features : list FeatureRow) (predictions : list PredictionRow) :
  fetch_stage E s = (s2, inr (features, predictions)) ->
  exists sl z,
    load_shape_data_file E (DATA_DIR E) default_url s = (sl, inr z)
    /\ s2 = put sl (fetch_notes 3)
    /\ load_batch_of_features_from_store E (current_time_utc E) = inr features
    /\ fetch_next_hour_predictions E = inr predictions.
Proof.
  rewrite fetch_stage_run. intros H.
  destruct (load_shape_data_file E (DATA_DIR E) default_url s) as [sl [e|z]];
    [discriminate|].
  destruct (load_batch_of_features_from_store E (current_time_utc E)) as [e|f];
    [discriminate|].
  destruct (fetch_next_hour_predictions E) as [e|p]; [discriminate|].
  injection H as <- <- <-. exists sl, z. auto.
Qed.

Lemma show_same (x : element) : respects same_world (show x).
Proof. intros s. split; reflexivity. Qed.

Lemma set_session_same (v : Session) : respects same_world (set_session v).
Proof. intros s. split; reflexivity. Qed.

Lemma create_taxi_map_same (E : External) (shp : path)
  (preds : list PredictionRow) :
  respects same_world (create_taxi_map E shp preds).
Proof.
  unfold create_taxi_map.
  apply (respects_bind same_world_trans);
    [apply (respects_get_disk same_world_refl)|]. intros d.
  apply (respects_bind same_world_trans);
    [apply (respects_lift same_world_refl)|]. intros zones.
  apply (respects_bind same_world_trans);
    [apply (respects_lift same_world_refl)|]. intros cm.
  apply (respects_bind same_world_trans);
    [apply (respects_lift same_world_refl)|]. intros styled.
  apply (respects_bind same_world_trans); [apply set_session_same|]. intros _.
  apply (respects_ret same_world_refl).
Qed.

Lemma show_map_same : respects same_world show_map.
Proof.
  unfold show_map.
  apply (respects_bind same_world_trans);
    [apply (respects_get_session same_world_refl)|]. intros ss.
  destruct (map_created ss) as [[|]|];
    try apply (respects_ret same_world_refl).
  destruct (map_obj ss) as [m|]; [|apply (respects_raise same_world_refl)].
  unfold st_folium_call. destruct (ColorMap_render (legend m));
    [apply (respects_raise same_world_refl)|apply show_same].
Qed.

Lemma plot_top10_same (E : External) (features : list FeatureRow)
  (fp : list PredictionRow) (ids : list Z) :
  respects same_world (plot_top10 E features fp ids).
Proof.
  induction ids as [|k ids IH]; cbn [plot_top10].
  - apply (respects_ret same_world_refl).
  - apply (respects_bind same_world_trans);
      [apply (respects_lift same_world_refl)|]. intros fig.
    apply (respects_bind same_world_trans); [apply show_same|].
    intros _. exact IH.
Qed.

(** The display stage leaves the disk and the log alone, whether it
    returns or raises. *)
Lemma display_stage_same (E : External) (features : list FeatureRow)
  (predictions : list PredictionRow) :
  respects same_world (display_stage E features predictions).
Proof.
  unfold display_stage.
  do 4 (apply (respects_bind same_world_trans); [apply show_same|]; intros _).
  apply (respects_bind same_world_trans); [apply create_taxi_map_same|].
  intros m.
  apply (respects_bind same_world_trans); [apply show_map_same|]. intros _.
  do 6 (apply (respects_bind same_world_trans); [apply show_same|]; intros _).
  apply plot_top10_same.
Qed.

Lemma put_same (s : state) (more : list element) : same_world s (put s more).
Proof. split; reflexivity. Qed.

(** A run on a complete cache leaves the disk and the log alone. *)
Lemma script_on_cache (E : External) (s : state) :
  lookup_node (disk s) (DATA_DIR E) = Some Dir ->
  is_Some (lookup_node (disk s) (zip_path_of (DATA_DIR E))) ->
  is_Some (lookup_node (disk s) (shapefile_path_of (DATA_DIR E))) ->
  same_world s (fst (script E s)).
Proof.
  intros Hdir Hzip Hshp.
  assert (Hintro : same_world s (fst (intro_stage E s)))
    by (rewrite intro_stage_run; split; reflexivity).
  rewrite script_run, fetch_stage_run.
  destruct Hintro as [Hd Hl].
  rewrite (load_cached E (DATA_DIR E) default_url (fst (intro_stage E s)))
    by (rewrite Hd; assumption).
  set (s1 := fst (intro_stage E s)) in *.
  assert (H1 : same_world s s1) by (split; assumption).
  destruct (read_cached E (DATA_DIR E) s1) as [e|z]; [exact H1|].
  destruct (load_batch_of_features_from_store E (current_time_utc E)) as [e|f];
    [eapply same_world_trans; [exact H1|apply put_same]|].
  destruct (fetch_next_hour_predictions E) as [e|p];
    [eapply same_world_trans; [exact H1|apply put_same]|].
  eapply same_world_trans; [exact H1|].
  eapply same_world_trans; [apply put_same|].
  apply display_stage_same.
Qed.

(** X9: Streamlit runs the script again at every interaction.  After a
    run that reached its end, a later run on the state it leaves, in a
    world with the same data directory (another selection, other answers
    of the read APIs, the network down), sends no request and writes
    nothing: the disk and the log are those the first run left, whether the
    later run returns or raises (the reader of the first run is one that
    fails on a missing shapefile). *)
Theorem rerun_is_offline (E E' : External) (s s' : state) :
  reads_existing E ->
  DATA_DIR E' = DATA_DIR E ->
  script E s = (s', inr tt) ->
  disk (fst (script E' s')) = disk s'
  /\ io_log (fst (script E' s')) = io_log s'.
Proof.
  intros Hreader Hdir Hrun. rewrite script_run in Hrun.
  destruct (fetch_stage E (fst (intro_stage E s))) as [s2 [e|[f p]]] eqn:Hfetch;
    [discriminate|].
  destruct (fetch_stage_returns E _ s2 f p Hfetch) as [sl [z [Hload [Hs2 _]]]].
  destruct (load_returns_cached E (DATA_DIR E) default_url _ sl z Hreader Hload)
    as [Hd [Hz [Hs _]]].
  cbn [fst snd] in Hrun.
  pose proof (display_stage_same E f p s2) as Hsame.
  rewrite Hrun in Hsame. cbn [fst] in Hsame. destruct Hsame as [Hdisk _].
  assert (Hdisk' : disk s' = disk sl) by (rewrite Hdisk, Hs2; reflexivity).
  apply script_on_cache; rewrite Hdir, Hdisk'; assumption.
Qed.

(** A first visit, then a second one with the network down and another
    borough selected. *)
Lemma rerun_is_offline_sample :
  let first := script sample_world cold_start in
  io_log (fst (script later_world (fst first))) = io_log (fst first).
Proof.
  intros first.
  refine (proj2 (rerun_is_offline sample_world later_world cold_start
                   (fst first) _ eq_refl _)).
  - apply sample_world_reads_existing.
  - assert (Hsnd : snd first = inr tt) by (vm_compute; reflexivity).
    rewrite <- Hsnd. apply surjective_pairing.
Defined.

(** ** The rows of the merged frame *)

Lemma filter_select_key (k : Z) (preds : list PredictionRow) :
  List.filter (fun kv : Z * num => fst kv =? k) (select_key_demand preds)
  = select_key_demand
      (List.filter (fun p => pickup_location_id p =? k) preds).
Proof.
  unfold select_key_demand.
  induction preds as [|p preds IH]; simpl; [reflexivity|].
  destruct (pickup_location_id p =? k); simpl; rewrite IH; reflexivity.
Qed.

Lemma merge_one_length (preds : list PredictionRow) (z : ZoneRow) :
  length (merge_one (select_key_demand preds) z) = Nat.max 1 (matches preds z).
Proof.
  unfold merge_one, matches. rewrite filter_select_key.
  unfold select_key_demand.
  destruct (List.filter _ preds) as [|p ms]; [reflexivity|].
  cbn [map length]. rewrite !List.length_map. lia.
Qed.

Lemma merge_one_rows (preds : list PredictionRow) (z : ZoneRow) (j : JoinedRow) :
  List.In j (merge_one (select_key_demand preds) z) ->
  j_zone j = z
  /\ ((j_pickup_location_id j = None /\ j_predicted_demand j = NaN
       /\ matches preds z = 0%nat)
      \/ exists p, List.In p preds
           /\ pickup_location_id p = LocationID z
           /\ j_pickup_location_id j = Some (LocationID z)
           /\ j_predicted_demand j = predicted_demand p).
Proof.
  unfold merge_one, matches. rewrite filter_select_key.
  destruct (List.filter _ preds) as [|p ms] eqn:Hf.
  - intros [<-|[]]. split; [reflexivity|]. left. auto.
  - assert (Hall : forall q, List.In q (p :: ms) ->
                     List.In q preds /\ pickup_location_id q = LocationID z).
    { intros q Hq. rewrite <- Hf in Hq. apply List.filter_In in Hq.
      destruct Hq as [Hin Hk]. apply Z.eqb_eq in Hk. auto. }
    unfold select_key_demand. cbn [map]. intros Hin.
    assert (Hq : exists q, List.In q (p :: ms)
                   /\ j = {| j_zone := z;
                             j_pickup_location_id := Some (pickup_location_id q);
                             j_predicted_demand := predicted_demand q |}).
    { destruct Hin as [<-|Hin]; [exists p; split; [left|]; reflexivity|].
      apply List.in_map_iff in Hin. destruct Hin as [kv [<- Hkv]].
      apply List.in_map_iff in Hkv. destruct Hkv as [q [<- Hq]].
      exists q. split; [right; exact Hq|reflexivity]. }
    destruct Hq as [q [Hq ->]]. destruct (Hall q Hq) as [Hin' Hk].
    split; [reflexivity|]. right. exists q. cbn. rewrite Hk. auto.
Qed.

(** X10: every row of the merged frame is a zone of the shapefile,
    reprojected, with either no key and demand 0, when no prediction row
    has the key of the zone, or the key of the zone and the demand of a
    prediction row with that key, 0 standing for a missing demand.  So a
    prediction whose key is the [LocationID] of no zone is in no row. *)
Theorem join_zones_rows (E : External) (zones : list ZoneRow)
  (preds : list PredictionRow) (j : JoinedRow) :
  List.In j (join_zones E zones preds) ->
  exists z, List.In z zones /\ j_zone j = reproject E z
    /\ ((j_pickup_location_id j = None /\ j_predicted_demand j = Fin 0
         /\ matches preds z = 0%nat)
        \/ exists p, List.In p preds
             /\ pickup_location_id p = LocationID z
             /\ j_pickup_location_id j = Some (LocationID z)
             /\ j_predicted_demand j = fillna0 (predicted_demand p)).
Proof.
  intros Hin. destruct (join_zones_in E zones preds j Hin) as [z [j0 [Hz [Hj0 ->]]]].
  destruct (merge_one_rows preds z j0 Hj0) as [Hzone Hcases].
  exists z. split; [exact Hz|]. split; [cbn; rewrite Hzone; reflexivity|].
  destruct Hcases as [[Hk [Hd Hm]]|[p [Hp [Hk [Hk' Hd]]]]].
  - left. cbn. rewrite Hk, Hd. auto.
  - right. exists p. cbn. rewrite Hk', Hd. auto.
Qed.

(** The three sample zones and the predictions of zones 1 and 3. *)
Lemma join_zones_rows_sample :
  exists z, List.In z sample_zones
    /\ LocationID z = 3
    /\ exists p, List.In p [prediction 0 1 50; prediction 1 3 10]
         /\ pickup_location_id p = LocationID z
         /\ predicted_demand p = Fin 10.
Proof.
  destruct (join_zones_rows sample_world sample_zones
              [prediction 0 1 50; prediction 1 3 10]
              {| j_zone := reproject sample_world
                             (sample_zone 3 "Allerton/Pelham Gardens" "Bronx");
                 j_pickup_location_id := Some 3;
                 j_predicted_demand := Fin 10 |})
    as [z [Hz [Hzone Hcases]]].
  - vm_compute. right; right; left. reflexivity.
  - exists z. split; [exact Hz|].
    assert (Hid : LocationID z = 3).
    { cbn in Hzone. apply (f_equal LocationID) in Hzone. cbn in Hzone.
      symmetry. exact Hzone. }
    split; [exact Hid|].
    destruct Hcases as [[Hnone _]|[p [Hp [Hk [_ Hd]]]]]; [discriminate Hnone|].
    exists p. split; [exact Hp|]. split; [exact Hk|].
    cbn in Hd. destruct (predicted_demand p); cbn in Hd; [|congruence].
    vm_compute in Hp. destruct Hp as [<-|[<-|[]]]; discriminate.
Defined.

Lemma length_flat_map_sum {A B : Type} (f : A -> list B) (l : list A) :
  length (flat_map f l) = list_sum (map (fun x => length (f x)) l).
Proof.
  induction l as [|a l IH]; simpl; [reflexivity|].
  rewrite List.length_app, IH. reflexivity.
Qed.

(** X11: the merged frame has, for each zone, as many rows as there are
    prediction rows with its key, and one row when there is none: its
    length is the sum over the zones of max(1, matches).  It is never
    shorter than the list of zones. *)
Theorem join_zones_length (E : External) (zones : list ZoneRow)
  (preds : list PredictionRow) :
  length (join_zones E zones preds)
  = list_sum (map (fun z => Nat.max 1 (matches preds z)) zones)
  /\ (length zones <= length (join_zones E zones preds))%nat.
Proof.
  assert (Hlen : length (join_zones E zones preds)
                 = list_sum (map (fun z => Nat.max 1 (matches preds z)) zones)).
  { unfold join_zones, fillna_demand, merge_left.
    rewrite !List.length_map, length_flat_map_sum.
    f_equal. apply List.map_ext. intros z. apply merge_one_length. }
  split; [exact Hlen|]. rewrite Hlen.
  clear Hlen. induction zones as [|z zones IH]; simpl; lia.
Qed.

(** ** The top ten *)

Lemma ranks_above_trans (a b c : PredictionRow) :
  ranks_above a b -> ranks_above b c -> ranks_above a c.
Proof.
  unfold ranks_above.
  destruct (predicted_demand a) as [|x], (predicted_demand b) as [|y],
    (predicted_demand c) as [|z]; simpl; try reflexivity; try discriminate.
  intros H1 H2. apply negb_false_iff in H1, H2. apply negb_false_iff.
  apply Qle_bool_iff in H1, H2. apply Qle_bool_iff.
  eapply Qle_trans; eassumption.
Qed.

Lemma sort_values_desc_strongly_sorted (t : list PredictionRow) :
  StronglySorted ranks_above (sort_values_desc t).
Proof.
  apply Sorted_StronglySorted; [|apply sort_values_desc_sorted].
  intros a b c. apply ranks_above_trans.
Qed.

Lemma in_skipn_in {A : Type} (l : list A) (n : nat) (a : A) :
  List.In a (skipn n l) -> List.In a l.
Proof.
  revert n. induction l as [|h l IH]; intros [|n] H; cbn in H; auto.
  right. apply (IH n H).
Qed.

Lemma strongly_sorted_split {A : Type} (R : A -> A -> Prop) (l : list A)
  (n : nat) (a b : A) :
  StronglySorted R l -> List.In a (firstn n l) -> List.In b (skipn n l) ->
  R a b.
Proof.
  intros Hs. revert n. induction Hs as [|h t Hs IH Hh]; intros n Ha Hb.
  - rewrite List.firstn_nil in Ha. destruct Ha.
  - destruct n as [|n]; [destruct Ha|]. cbn in Ha, Hb.
    destruct Ha as [<-|Ha].
    + rewrite List.Forall_forall in Hh. apply Hh.
      apply (in_skipn_in _ n). exact Hb.
    + apply (IH n Ha Hb).
Qed.

(** X12: the ranked table holds the rows of largest demand.  The
    filtered table is the ranked table and the rows not shown, reordered;
    the ranked table is in descending order of demand, NaN last; and no row
    that is not shown has a larger demand than a row that is shown. *)
Theorem ranked_table_is_top (filtered_predictions : list PredictionRow) :
  Permutation filtered_predictions
    (ranked_table filtered_predictions ++ not_shown filtered_predictions)
  /\ Sorted ranks_above (ranked_table filtered_predictions)
  /\ (forall a b, List.In a (ranked_table filtered_predictions) ->
        List.In b (not_shown filtered_predictions) -> ranks_above a b)
  /\ (forall a b x y, List.In a (ranked_table filtered_predictions) ->
        List.In b (not_shown filtered_predictions) ->
        predicted_demand a = Fin x -> predicted_demand b = Fin y ->
        (y <= x)%Q).
Proof.
  unfold ranked_table, not_shown, head10.
  assert (Hdom : forall a b,
             List.In a (firstn 10 (sort_values_desc filtered_predictions)) ->
             List.In b (skipn 10 (sort_values_desc filtered_predictions)) ->
             ranks_above a b).
  { intros a b. apply strongly_sorted_split.
    apply sort_values_desc_strongly_sorted. }
  split; [|split; [|split]].
  - rewrite List.firstn_skipn. apply sort_values_desc_perm.
  - pose proof (sort_values_desc_strongly_sorted filtered_predictions) as Hs.
    rewrite <- (List.firstn_skipn 10 (sort_values_desc filtered_predictions)) in Hs.
    apply StronglySorted_Sorted.
    revert Hs. generalize (firstn 10 (sort_values_desc filtered_predictions)).
    intros l Hs. induction l as [|h l IH]; [constructor|].
    cbn in Hs. inversion Hs as [|? ? Hs' Hh]; subst.
    constructor; [apply IH; exact Hs'|].
    rewrite List.Forall_app in Hh. apply Hh.
  - exact Hdom.
  - intros a b x y Ha Hb Hx Hy. specialize (Hdom a b Ha Hb).
    unfold ranks_above in Hdom. rewrite Hx, Hy in Hdom. cbn in Hdom.
    apply negb_false_iff, Qle_bool_iff in Hdom. exact Hdom.
Qed.

(** ** The statistics *)

Lemma string_of_int_not_nan (i : Decimal.signed_int) :
  DecimalString.NilZero.string_of_int i <> "nan".
Proof.
  destruct i as [u|u]; destruct u; cbn; discriminate.
Qed.

(** A number is never printed as "nan". *)
Lemma format_0f_number (q : Q) : format_0f (Fin q) <> "nan".
Proof.
  unfold format_0f, str_int. destruct (Qnum q <? 0).
  - cbn. discriminate.
  - apply string_of_int_not_nan.
Qed.

Lemma dropna_nil (s : list num) :
  dropna s = [] <-> forall x, List.In x s -> x = NaN.
Proof.
  induction s as [|[|q] s IH]; cbn.
  - split; [intros _ x []|reflexivity].
  - rewrite IH. split.
    + intros H x [<-|Hx]; [reflexivity|apply H; exact Hx].
    + intros H x Hx. apply H. right. exact Hx.
  - split; [discriminate|]. intros H.
    specialize (H (Fin q) (or_introl eq_refl)). discriminate H.
Qed.

Lemma Qmax_bounds (a b : Q) : (a <= Qmax a b /\ b <= Qmax a b)%Q.
Proof.
  unfold Qmax. destruct (Qle_bool a b) eqn:H.
  - apply Qle_bool_iff in H. split; [exact H|apply Qle_refl].
  - split; [apply Qle_refl|].
    destruct (Qlt_le_dec b a) as [Hlt|Hle]; [apply Qlt_le_weak; exact Hlt|].
    apply Qle_bool_iff in Hle. congruence.
Qed.

Lemma Qmin_bounds (a b : Q) : (Qmin a b <= a /\ Qmin a b <= b)%Q.
Proof.
  unfold Qmin. destruct (Qle_bool a b) eqn:H.
  - apply Qle_bool_iff in H. split; [apply Qle_refl|exact H].
  - split; [|apply Qle_refl].
    destruct (Qlt_le_dec b a) as [Hlt|Hle]; [apply Qlt_le_weak; exact Hlt|].
    apply Qle_bool_iff in Hle. congruence.
Qed.

Lemma fold_Qmax_ge (t : list Q) (q x : Q) :
  List.In x (q :: t) -> (x <= fold_left Qmax t q)%Q.
Proof.
  revert q x. induction t as [|a t IH]; intros q x Hin.
  - destruct Hin as [<-|[]]. apply Qle_refl.
  - cbn [fold_left]. destruct (Qmax_bounds q a) as [Hq Ha].
    destruct Hin as [<-|[<-|Hin]].
    + eapply Qle_trans; [exact Hq|]. apply IH. left. reflexivity.
    + eapply Qle_trans; [exact Ha|]. apply IH. left. reflexivity.
    + apply IH. right. exact Hin.
Qed.

Lemma fold_Qmin_le (t : list Q) (q x : Q) :
  List.In x (q :: t) -> (fold_left Qmin t q <= x)%Q.
Proof.
  revert q x. induction t as [|a t IH]; intros q x Hin.
  - destruct Hin as [<-|[]]. apply Qle_refl.
  - cbn [fold_left]. destruct (Qmin_bounds q a) as [Hq Ha].
    destruct Hin as [<-|[<-|Hin]].
    + eapply Qle_trans; [|exact Hq]. apply IH. left. reflexivity.
    + eapply Qle_trans; [|exact Ha]. apply IH. left. reflexivity.
    + apply IH. right. exact Hin.
Qed.

(** X13: "Maximum Rides" and "Minimum Rides" are printed as "nan" exactly
    when the filtered table has no row with a number as its demand, an
    empty table included, and then "Average Rides" is "nan" too.
    Otherwise the maximum and the minimum are the printed demands of two
    rows of the filtered table, and the demand of every row that has one
    lies between them. *)
Theorem statistics_nan_iff (filtered_predictions : list PredictionRow) :
  let no_number :=
    forall r, List.In r filtered_predictions -> predicted_demand r = NaN in
  (maximum_rides filtered_predictions = "nan" <-> no_number)
  /\ (minimum_rides filtered_predictions = "nan" <-> no_number)
  /\ (no_number -> average_rides filtered_predictions = "nan")
  /\ ((exists r x, List.In r filtered_predictions
                   /\ predicted_demand r = Fin x) ->
      exists hi lo a b,
        List.In hi filtered_predictions /\ predicted_demand hi = Fin a
        /\ List.In lo filtered_predictions /\ predicted_demand lo = Fin b
        /\ maximum_rides filtered_predictions = format_0f (Fin a)
        /\ minimum_rides filtered_predictions = format_0f (Fin b)
        /\ forall r x, List.In r filtered_predictions ->
             predicted_demand r = Fin x -> (b <= x <= a)%Q).
Proof.
  intros no_number.
  assert (Hnil : dropna (map predicted_demand filtered_predictions) = []
                 <-> no_number).
  { rewrite dropna_nil. unfold no_number. split.
    - intros H r Hr. apply H. apply List.in_map. exact Hr.
    - intros H x Hx. apply List.in_map_iff in Hx.
      destruct Hx as [r [<- Hr]]. apply H. exact Hr. }
  unfold average_rides, maximum_rides, minimum_rides, series_mean,
    series_max, series_min.
  rewrite <- Hnil.
  destruct (dropna (map predicted_demand filtered_predictions)) as [|q t] eqn:Hd.
  - split; [split; reflexivity|]. split; [split; reflexivity|].
    split; [reflexivity|]. intros [r [x [Hr Hx]]].
    assert (Hin : List.In x (dropna (map predicted_demand filtered_predictions))).
    { apply dropna_in. rewrite <- Hx. apply List.in_map. exact Hr. }
    rewrite Hd in Hin. destruct Hin.
  - split; [|split; [|split]].
    + split; intros H; [exfalso; eapply format_0f_number; exact H|discriminate H].
    + split; intros H; [exfalso; eapply format_0f_number; exact H|discriminate H].
    + discriminate.
    + intros _.
      assert (Hrow : forall x, List.In x (q :: t) ->
                exists r, List.In r filtered_predictions
                          /\ predicted_demand r = Fin x).
      { intros x Hx. rewrite <- Hd in Hx. apply dropna_in in Hx.
        apply List.in_map_iff in Hx. destruct Hx as [r [Hr Hin]]. eauto. }
      destruct (Hrow _ (fold_Qmax_in t q)) as [hi [Hhi Hhid]].
      destruct (Hrow _ (fold_Qmin_in t q)) as [lo [Hlo Hlod]].
      exists hi, lo, (fold_left Qmax t q), (fold_left Qmin t q).
      repeat (split; [assumption || reflexivity|]).
      intros r x Hr Hx.
      assert (Hin : List.In x (q :: t)).
      { rewrite <- Hd. apply dropna_in. rewrite <- Hx.
        apply List.in_map. exact Hr. }
      split; [apply fold_Qmin_le|apply fold_Qmax_ge]; exact Hin.
Qed.

(** ** The borough of the rows that are shown *)

Lemma ranked_table_in (fp : list PredictionRow) (r : PredictionRow) :
  List.In r (ranked_table fp) -> List.In r fp.
Proof.
  unfold ranked_table, head10. intros H.
  apply (Permutation_in r (Permutation_sym (sort_values_desc_perm fp))).
  rewrite <- (List.firstn_skipn 10 (sort_values_desc fp)).
  apply List.in_or_app. left. exact H.
Qed.

(** X14: every row of the ranked table, and so every zone that gets a
    chart, is a row of the prediction table whose zone the borough table
    maps to the borough selected in the filter; a zone that the table does
    not contain is never shown. *)
Theorem shown_rows_are_of_selected_borough (E : External)
  (predictions : list PredictionRow) :
  let selected_borough := selectbox_value E borough_options in
  let filtered_predictions :=
    filter_predictions (location_ids_of selected_borough) predictions in
  (forall r, List.In r (ranked_table filtered_predictions) ->
     List.In r predictions
     /\ location_mapping_get (pickup_location_id r) = Some selected_borough)
  /\ (forall k, List.In k (top10 filtered_predictions) ->
        location_mapping_get k = Some selected_borough).
Proof.
  intros selected_borough filtered_predictions.
  assert (Hrow : forall r, List.In r (ranked_table filtered_predictions) ->
            List.In r predictions
            /\ location_mapping_get (pickup_location_id r)
               = Some selected_borough).
  { intros r Hr. apply ranked_table_in in Hr.
    unfold filtered_predictions, filter_predictions in Hr.
    apply List.filter_In in Hr. destruct Hr as [Hin Hk].
    split; [exact Hin|].
    apply (proj1 (isin_In _ _)) in Hk.
    apply (proj1 (location_ids_of_get selected_borough (pickup_location_id r))).
    exact Hk. }
  split; [exact Hrow|].
  intros k Hk. unfold top10 in Hk. apply List.in_map_iff in Hk.
  destruct Hk as [r [<- Hr]]. apply (Hrow r Hr).
Qed.

(** X15: the chart of each zone of the top ten is drawn from at least
    one prediction row, and all the prediction rows it is given are rows of
    the filtered table for that zone; the feature rows it is given are
    those of that zone, possibly none. *)
Theorem charts_have_predictions (E : External) (features : list FeatureRow)
  (filtered_predictions : list PredictionRow) (k : Z) :
  List.In k (top10 filtered_predictions) ->
  exists feature_rows prediction_rows,
    chart_of E features filtered_predictions k
    = plot_prediction E feature_rows prediction_rows
    /\ prediction_rows <> []
    /\ (forall r, List.In r prediction_rows ->
          List.In r filtered_predictions /\ pickup_location_id r = k)
    /\ (forall f, List.In f feature_rows ->
          List.In f features /\ f_pickup_location_id f = k).
Proof.
  intros Hk. eexists. eexists. split; [reflexivity|]. split; [|split].
  - unfold top10 in Hk. apply List.in_map_iff in Hk.
    destruct Hk as [r [<- Hr]]. apply ranked_table_in in Hr.
    intros Hnil.
    assert (Hin : List.In r (List.filter
                               (fun r0 => pickup_location_id r0
                                          =? pickup_location_id r)
                               filtered_predictions)).
    { apply List.filter_In. split; [exact Hr|apply Z.eqb_refl]. }
    rewrite Hnil in Hin. destruct Hin.
  - intros r Hr. apply List.filter_In in Hr. destruct Hr as [Hin Heq].
    apply Z.eqb_eq in Heq. auto.
  - intros f Hf. apply List.filter_In in Hf. destruct Hf as [Hin Heq].
    apply Z.eqb_eq in Heq. auto.
Qed.

(** The chart of zone 3 in the sample run. *)
Lemma charts_have_predictions_sample :
  exists feature_rows prediction_rows,
    chart_of sample_world sample_features
      (filter_predictions [3] sample_predictions) 3
    = plot_prediction sample_world feature_rows prediction_rows
    /\ prediction_rows <> [].
Proof.
  destruct (charts_have_predictions sample_world sample_features
              (filter_predictions [3] sample_predictions) 3)
    as [fr [pr [Heq [Hne _]]]].
  - vm_compute. left. reflexivity.
  - exists fr, pr. split; assumption.
Defined.

(** ** The requests of a run *)










(** ** A file in the way, and the extracted members *)

(** X17: when the data directory path is a file, the call raises
    FileExistsError at line 43, before any request, and changes nothing. *)
Theorem data_dir_is_a_file (E : External) (data_dir : path) (url : string)
  (s : state) (body : list Byte.byte) :
  lookup_node (disk s) data_dir = Some (File body) ->
  load_shape_data_file E data_dir url s
  = (s, inl (FileExistsError "File exists")).
Proof.
  intros H. rewrite load_shape_data_file_parts. unfold bind at 1.
  unfold mkdir_parents_exist_ok.
  assert (Hmk : mkdir_rev (rev data_dir) s
                = (s, inl (FileExistsError "File exists"))).
  { rewrite <- (rev_involutive data_dir) in H.
    destruct (rev data_dir) as [|c rp]; [discriminate H|].
    cbn [mkdir_rev]. unfold bind at 1. unfold get_disk at 1.
    rewrite H. reflexivity. }
  rewrite Hmk. reflexivity.
Qed.

(** A file named [data]. *)
Lemma data_dir_is_a_file_sample :
  load_shape_data_file sample_world ["data"] default_url data_is_file_start
  = (data_is_file_start, inl (FileExistsError "File exists")).
Proof.
  apply (data_dir_is_a_file sample_world ["data"] default_url
           data_is_file_start [Byte.x41]).
  vm_compute. reflexivity.
Defined.

Lemma os_mkdir_returns (p : path) (s s' : state) :
  os_mkdir p s = (s', inr tt) -> lookup_node (disk s') p = Some Dir.
Proof.
  unfold os_mkdir, bind, get_disk.
  destruct (lookup_node (disk s) p) as [n|] eqn:Hp; [discriminate|].
  destruct (lookup_node (disk s) (removelast p)) as [[body|]|];
    try discriminate.
  intros H. injection H as <-. cbn [disk].
  apply lookup_node_insert_eq. eapply lookup_none_not_root. exact Hp.
Qed.

Lemma open_wb_returns (p : path) (body : list Byte.byte) (s s' : state) :
  p <> [] -> open_wb p body s = (s', inr tt) ->
  lookup_node (disk s') p = Some (File body).
Proof.
  intros Hp. unfold open_wb. unfold bind at 1. unfold get_disk at 1.
  destruct (lookup_node (disk s) (removelast p)) as [[old|]|];
    try discriminate.
  apply write_bytes_returns. exact Hp.
Qed.

(** When the extraction of a member returns, a directory entry is a
    directory and a file entry is a file with the bytes of the member. *)
Lemma extract_member_returns (infolist : list ZipInfo) (target : path)
  (name : string) (zinfo : ZipInfo) (s s' : state) :
  target <> [] ->
  getinfo infolist name = Some zinfo ->
  extract_member infolist target name s = (s', inr tt) ->
  (ZipInfo_is_dir zinfo = inr true ->
     lookup_node (disk s') (target ++ arcname_parts (filename zinfo)) = Some Dir)
  /\ (ZipInfo_is_dir zinfo = inr false ->
        exists body, member zinfo = Stored body
          /\ lookup_node (disk s') (target ++ arcname_parts (filename zinfo))
             = Some (File body)).
Proof.
  intros Htarget Hget Hrun. unfold extract_member in Hrun. rewrite Hget in Hrun.
  apply bind_inr_inv in Hrun. destruct Hrun as [s1 [have [_ Hrun]]].
  apply bind_inr_inv in Hrun. destruct Hrun as [s2 [[] [_ Hrun]]].
  assert (Hp : target ++ arcname_parts (filename zinfo) <> []).
  { intros H. apply List.app_eq_nil in H. destruct H as [H _].
    exact (Htarget H). }
  destruct (ZipInfo_is_dir zinfo) as [e|[|]]; [discriminate Hrun| |].
  - split; [intros _|discriminate].
    unfold bind at 1 in Hrun. unfold os_path_isdir, bind, get_disk, ret in Hrun.
    destruct (lookup_node (disk s2) (target ++ arcname_parts (filename zinfo)))
      as [[body|]|] eqn:Hnode.
    + apply os_mkdir_returns in Hrun. exact Hrun.
    + injection Hrun as <-. exact Hnode.
    + apply os_mkdir_returns in Hrun. exact Hrun.
  - split; [discriminate|intros _].
    destruct (member zinfo) as [body|e|written e]; [|discriminate Hrun|].
    + exists body. split; [reflexivity|].
      apply (open_wb_returns _ _ s2 s' Hp Hrun).
    + apply bind_inr_inv in Hrun. destruct Hrun as [s3 [[] [_ Hrun]]].
      discriminate Hrun.
Qed.

Lemma getinfo_filename (infolist : list ZipInfo) (name : string)
  (zinfo : ZipInfo) :
  getinfo infolist name = Some zinfo ->
  List.In zinfo infolist /\ filename zinfo = name.
Proof.
  unfold getinfo. intros H. apply List.find_some in H. destruct H as [Hin Heq].
  split; [apply List.in_rev; exact Hin|apply String.eqb_eq; exact Heq].
Qed.

Lemma nodup_map_inj {A B : Type} (f : A -> B) (l : list A) (a b : A) :
  List.NoDup (map f l) -> List.In a l -> List.In b l -> f a = f b -> a = b.
Proof.
  induction l as [|x l IH]; intros Hnd Ha Hb Hf; [destruct Ha|].
  cbn in Hnd. inversion Hnd as [|? ? Hnot Hnd']; subst.
  destruct Ha as [->|Ha], Hb as [->|Hb].
  - reflexivity.
  - exfalso. apply Hnot. rewrite Hf. apply List.in_map. exact Hb.
  - exfalso. apply Hnot. rewrite <- Hf. apply List.in_map. exact Ha.
  - apply IH; assumption.
Qed.

(** With distinct names the archive finds each entry under its name. *)
Lemma getinfo_in (infolist : list ZipInfo) (zinfo : ZipInfo) :
  List.NoDup (map filename infolist) -> List.In zinfo infolist ->
  getinfo infolist (filename zinfo) = Some zinfo.
Proof.
  intros Hnd Hin. destruct (getinfo infolist (filename zinfo)) as [z'|] eqn:Hg.
  - apply getinfo_filename in Hg. destruct Hg as [Hin' Heq].
    f_equal. apply (nodup_map_inj filename infolist); assumption.
  - unfold getinfo in Hg.
    pose proof (List.find_none _ _ Hg zinfo
                  (proj1 (List.in_rev infolist zinfo) Hin)) as H.
    cbn in H. rewrite String.eqb_refl in H. discriminate H.
Qed.

(** When the extraction returns, every directory entry is a directory and
    every file entry is a file with its bytes, at its path under the
    target, provided no two names give the same path. *)
Lemma extract_names_returns (infolist : list ZipInfo) (target : path)
  (names : list string) (s s' : state) :
  target <> [] ->
  List.NoDup (map arcname_parts names) ->
  extract_names infolist target names s = (s', inr tt) ->
  forall name zinfo, List.In name names ->
    getinfo infolist name = Some zinfo ->
    (ZipInfo_is_dir zinfo = inr true ->
       lookup_node (disk s') (target ++ arcname_parts name) = Some Dir)
    /\ (ZipInfo_is_dir zinfo = inr false ->
          exists body, member zinfo = Stored body
            /\ lookup_node (disk s') (target ++ arcname_parts name)
               = Some (File body)).
Proof.
  intros Htarget. revert s.
  induction names as [|name0 rest IH]; intros s Hnd Hrun name zinfo Hin Hget;
    [destruct Hin|].
  cbn [extract_names] in Hrun. cbn [map] in Hnd.
  inversion Hnd as [|? ? Hnotin Hnd']; subst.
  apply bind_inr_inv in Hrun. destruct Hrun as [s1 [[] [Hfirst Hrun]]].
  destruct Hin as [->|Hin]; [|apply (IH s1 Hnd' Hrun name zinfo Hin Hget)].
  destruct (getinfo_filename _ _ _ Hget) as [_ Hname].
  destruct (extract_member_returns infolist target name zinfo s s1
              Htarget Hget Hfirst) as [Hdir Hfile].
  rewrite Hname in Hdir, Hfile.
  assert (Hp : target ++ arcname_parts name <> []).
  { intros H. apply List.app_eq_nil in H. destruct H as [H _].
    exact (Htarget H). }
  split.
  - intros Hd. specialize (Hdir Hd).
    assert (Hg : disk_grows s1 s').
    { pose proof (respects_extract_names disk_grows_refl disk_grows_trans
                    new_dir_grows infolist target rest) as Hr.
      specialize (Hr (fun _ _ _ _ _ => write_bytes_grows _ _
                        ltac:(intros H; apply List.app_eq_nil in H;
                              destruct H as [H _]; exact (Htarget H))) s1).
      rewrite Hrun in Hr. exact Hr. }
    apply Hg. exact Hdir.
  - intros Hf. destruct (Hfile Hf) as [body [Hbody Hnode]].
    exists body. split; [exact Hbody|].
    assert (Hk : keeps_node (target ++ arcname_parts name) s1 s').
    { pose proof (respects_extract_names
                    (keeps_node_refl _) (keeps_node_trans _)
                    (new_dir_keeps (target ++ arcname_parts name))
                    infolist target rest) as Hr.
      assert (Hw : forall name' z' body', List.In name' rest ->
                getinfo infolist name' = Some z' ->
                respects (keeps_node (target ++ arcname_parts name))
                  (write_bytes (target ++ arcname_parts (filename z')) body')).
      { intros name' z' body' Hin' Hget'.
        destruct (getinfo_filename _ _ _ Hget') as [_ Hname'].
        rewrite Hname'. apply write_bytes_keeps.
        - intros H. apply List.app_eq_nil in H. destruct H as [H _].
          exact (Htarget H).
        - intros H. apply List.app_inv_head in H.
          apply Hnotin. rewrite <- H. apply List.in_map. exact Hin'. }
      specialize (Hr Hw s1). rewrite Hrun in Hr. exact Hr. }
    apply Hk. exact Hnode.
Qed.

(** X18: when the archive is on the disk, the shapefile is missing and
    the call returns, every entry of the archive is on the disk under
    [data_dir/taxi_zones], at the path its name gives once the empty, [.]
    and [..] components are dropped: a directory entry as a directory, a
    file entry as a file that holds the bytes of the entry (no two entries
    have the same path). *)
Theorem extracted_members_are_on_disk (E : External) (data_dir : path)
  (url : string) (s s1 s' : state) (z : list ZoneRow)
  (bytes : list Byte.byte) (infolist : list ZipInfo) :
  mkdir_parents_exist_ok data_dir s = (s1, inr tt) ->
  lookup_node (disk s1) (zip_path_of data_dir) = Some (File bytes) ->
  lookup_node (disk s1) (shapefile_path_of data_dir) = None ->
  zip_infolist E bytes = inr infolist ->
  List.NoDup (map arcname_parts (map filename infolist)) ->
  load_shape_data_file E data_dir url s = (s', inr z) ->
  forall zinfo, List.In zinfo infolist ->
    let p := (data_dir ++ ["taxi_zones"]) ++ arcname_parts (filename zinfo) in
    (ZipInfo_is_dir zinfo = inr true -> lookup_node (disk s') p = Some Dir)
    /\ (ZipInfo_is_dir zinfo = inr false ->
          exists body, member zinfo = Stored body
            /\ lookup_node (disk s') p = Some (File body)).
Proof.
  intros Hmk Hzip Hshp Hmembers Hnd Hrun zinfo Hin p.
  rewrite load_shape_data_file_parts in Hrun.
  unfold bind at 1 in Hrun. rewrite Hmk in Hrun.
  unfold bind at 1 in Hrun.
  rewrite (path_exists_true _ _ ltac:(rewrite Hzip; eauto)) in Hrun.
  unfold bind at 1 in Hrun. unfold ret at 1 in Hrun.
  unfold extract_and_read in Hrun.
  unfold bind at 1 in Hrun. rewrite (path_exists_false _ _ Hshp) in Hrun.
  apply bind_inr_inv in Hrun. destruct Hrun as [s2 [[] [Hextract Hread]]].
  assert (Hs' : s' = s2).
  { unfold bind, get_disk, lift in Hread.
    destruct (gpd_read_file E (disk s2) (shapefile_path_of data_dir));
      [discriminate Hread|].
    unfold ret in Hread. injection Hread as <- _. reflexivity. }
  subst s'. unfold try_except in Hextract.
  match type of Hextract with
  | context [match ?c s1 with _ => _ end] =>
      destruct (c s1) as [s3 [e|[]]] eqn:Hc
  end.
  { destruct (is_BadZipFile e); discriminate Hextract. }
  injection Hextract as ->.
  unfold bind at 1 in Hc. unfold ZipFile_open at 1 in Hc.
  unfold bind at 1 in Hc. unfold get_disk at 1 in Hc.
  rewrite Hzip, Hmembers in Hc. unfold lift at 1, ret at 1 in Hc.
  unfold extractall in Hc.
  apply (extract_names_returns infolist (data_dir ++ ["taxi_zones"])
           (map filename infolist) s1 s2);
    [|exact Hnd|exact Hc|apply List.in_map; exact Hin|].
  - intros H. apply List.app_eq_nil in H. destruct H as [_ H]. discriminate H.
  - apply getinfo_in; [|exact Hin].
    apply (List.NoDup_map_inv arcname_parts). exact Hnd.
Qed.

(** An archive with a folder entry and two files, one of them in the
    folder. *)
Lemma extracted_members_are_on_disk_sample :
  let first := load_shape_data_file folder_world ["data"] default_url
                 folder_start in
  lookup_node (disk (fst first)) ["data"; "taxi_zones"; "docs"] = Some Dir
  /\ lookup_node (disk (fst first)) ["data"; "taxi_zones"; "docs"; "readme.txt"]
     = Some (File [Byte.x41])
  /\ lookup_node (disk (fst first)) ["data"; "taxi_zones"; "taxi_zones.shp"]
     = Some (File [Byte.x00]).
Proof.
  intros first.
  assert (Hall := extracted_members_are_on_disk folder_world ["data"]
            default_url folder_start folder_start (fst first) sample_zones
            folder_archive folder_infolist).
  specialize (Hall ltac:(vm_compute; reflexivity) ltac:(vm_compute; reflexivity)
                   ltac:(vm_compute; reflexivity) eq_refl).
  assert (Hnd : List.NoDup (map arcname_parts (map filename folder_infolist))).
  { cbn. repeat constructor; cbn; intuition discriminate. }
  assert (Hrun : load_shape_data_file folder_world ["data"] default_url
                   folder_start = (fst first, inr sample_zones)).
  { assert (Hsnd : snd first = inr sample_zones) by (vm_compute; reflexivity).
    rewrite <- Hsnd. apply surjective_pairing. }
  specialize (Hall Hnd Hrun). split; [|split].
  - apply (Hall {| filename := "docs/"; member := Stored [] |});
      [cbn; auto|reflexivity].
  - destruct (Hall {| filename := "./docs//readme.txt";
                      member := Stored [Byte.x41] |}) as [_ H];
      [cbn; auto|].
    destruct (H eq_refl) as [body [Hb Hn]]. injection Hb as <-. exact Hn.
  - destruct (Hall {| filename := "taxi_zones.shp";
                      member := Stored [Byte.x00] |}) as [_ H];
      [cbn; auto|].
    destruct (H eq_refl) as [body [Hb Hn]]. injection Hb as <-. exact Hn.
Defined.
